(** * smart-wallet: statement extraction and classification pipeline

    A shallow embedding of the parts of [backend/helper.py],
    [backend/pdf_processor.py] and [backend/ai_agent.py] that carry the
    extraction, normalisation, merge, routing and persistence logic,
    together with the properties stated about them.

    Python values are modelled as the interpreter has them: a [str] is a
    sequence of Unicode code points, a [float] is an IEEE-754 binary64
    number (the executable specification [spec_float] of the standard
    library, with correctly rounded conversions), exceptions are an
    explicit error result. *)

From Stdlib Require Import ZArith NArith Bool String Ascii List Lia.
From Stdlib Require Import Floats.SpecFloat.
Import ListNotations.

Set Implicit Arguments.
Set Warnings "-register-all".

(** ** Exceptions as results *)

Inductive exn : Type :=
| TypeError
| ValueError
| OverflowError
| IndexError
| StoreError.

Inductive res (A : Type) : Type :=
| Ok (a : A)
| Raise (e : exn).

Arguments Ok {A} a.
Arguments Raise {A} e.

Definition bind {A B : Type} (m : res A) (k : A -> res B) : res B :=
  match m with
  | Ok a => k a
  | Raise e => Raise e
  end.

Notation "x <- m ;; k" := (bind m (fun x => k))
  (at level 61, m at next level, right associativity).

Fixpoint mapM {A B : Type} (f : A -> res B) (l : list A) : res (list B) :=
  match l with
  | [] => Ok []
  | a :: l' => b <- f a ;; bs <- mapM f l' ;; Ok (b :: bs)
  end.

(** ** Python strings *)

Module PyStr.

(** A character is a Unicode code point. *)
Definition char := N.
Definition str := list char.

(** ASCII literals of the source. *)
Definition lit (s : string) : str :=
  map N_of_ascii (list_ascii_of_string s).

Definition newline : char := 10%N.
Definition rupee : char := 0x20B9%N.     (* the currency sign of GPay lines *)
Definition en_dash : char := 0x2013%N.
Definition em_dash : char := 0x2014%N.
Definition backslash : char := 92%N.

Definition in_range (lo hi c : N) : bool := (lo <=? c)%N && (c <=? hi)%N.

Fixpoint str_eqb (a b : str) : bool :=
  match a, b with
  | [], [] => true
  | x :: a', y :: b' => (x =? y)%N && str_eqb a' b'
  | _, _ => false
  end.

(** [str.isspace] on one character, which is also the class [\s] of
    [re] on [str] patterns. *)
Definition isspace (c : char) : bool :=
  in_range 0x09 0x0D c || in_range 0x1C 0x1F c || (c =? 0x20)%N
  || (c =? 0x85)%N || (c =? 0xA0)%N || (c =? 0x1680)%N
  || in_range 0x2000 0x200A c || (c =? 0x2028)%N || (c =? 0x2029)%N
  || (c =? 0x202F)%N || (c =? 0x205F)%N || (c =? 0x3000)%N.

(** Code points of the digit zero of every decimal-digit block
    (general category Nd, Unicode 14.0 as shipped with CPython 3.11);
    each block holds the ten digits in order. *)
Definition decimal_zeros : list N :=
  [ 0x30; 0x660; 0x6F0; 0x7C0; 0x966; 0x9E6; 0xA66; 0xAE6; 0xB66; 0xBE6;
    0xC66; 0xCE6; 0xD66; 0xDE6; 0xE50; 0xED0; 0xF20; 0x1040; 0x1090;
    0x17E0; 0x1810; 0x1946; 0x19D0; 0x1A80; 0x1A90; 0x1B50; 0x1BB0;
    0x1C40; 0x1C50; 0xA620; 0xA8D0; 0xA900; 0xA9D0; 0xA9F0; 0xAA50;
    0xABF0; 0xFF10; 0x104A0; 0x10D30; 0x11066; 0x110F0; 0x11136;
    0x111D0; 0x112F0; 0x11450; 0x114D0; 0x11650; 0x116C0; 0x11730;
    0x118E0; 0x11950; 0x11C50; 0x11D50; 0x11DA0; 0x16A60; 0x16AC0;
    0x16B50; 0x1D7CE; 0x1D7D8; 0x1D7E2; 0x1D7EC; 0x1D7F6; 0x1E140;
    0x1E2F0; 0x1E950; 0x1FBF0 ]%N.

(** [Py_UNICODE_TODECIMAL]: the digit value of a decimal digit. *)
Fixpoint todecimal_in (zeros : list N) (c : char) : option N :=
  match zeros with
  | [] => None
  | z :: zs => if in_range z (z + 9) c then Some (c - z)%N
               else todecimal_in zs c
  end.

Definition todecimal (c : char) : option N := todecimal_in decimal_zeros c.

(** The class [\d] of [re] on [str] patterns. *)
Definition isdigit (c : char) : bool :=
  match todecimal c with Some _ => true | None => false end.

(** [[A-Za-z]] *)
Definition isalpha_ascii (c : char) : bool :=
  in_range 65 90 c || in_range 97 122 c.

(** [s.strip()] *)
Fixpoint lstrip (s : str) : str :=
  match s with
  | c :: s' => if isspace c then lstrip s' else s
  | [] => []
  end.

Definition rstrip (s : str) : str := rev (lstrip (rev s)).

Definition strip (s : str) : str := rstrip (lstrip s).

Fixpoint isprefix (p s : str) : bool :=
  match p, s with
  | [], _ => true
  | x :: p', y :: s' => (x =? y)%N && isprefix p' s'
  | _ :: _, [] => false
  end.

(** [needle in hay] *)
Fixpoint contains (needle hay : str) : bool :=
  isprefix needle hay ||
  match hay with
  | [] => false
  | _ :: hay' => contains needle hay'
  end.

(** [s.replace(old, new)]: every non-overlapping occurrence, left to
    right.  [skip] counts the characters of an occurrence still to be
    dropped.  With an empty [old], Python puts [new] before every
    character and at the end. *)
Fixpoint replace_from (old new s : str) (skip : nat) : str :=
  match s with
  | [] => match old with [] => new | _ :: _ => [] end
  | c :: s' =>
      match skip with
      | S k => replace_from old new s' k
      | O =>
          match old with
          | [] => new ++ c :: replace_from old new s' 0
          | _ :: old' =>
              if isprefix old s
              then new ++ replace_from old new s' (List.length old')
              else c :: replace_from old new s' 0
          end
      end
  end.

Definition replace (old new s : str) : str := replace_from old new s 0.

(** [s.split(sep)] for a one-character separator: the fields between
    the separators, empty fields included; never an empty list. *)
Fixpoint split_char (sep : char) (s : str) : list str :=
  match s with
  | [] => [[]]
  | c :: s' =>
      if (c =? sep)%N then [] :: split_char sep s'
      else match split_char sep s' with
           | f :: fs => (c :: f) :: fs
           | [] => [[c]]
           end
  end.

(** [s.split()]: the maximal runs of non-whitespace characters. *)
Fixpoint split_ws_from (s : str) (cur : str) : list str :=
  match s with
  | [] => match cur with [] => [] | _ :: _ => [rev cur] end
  | c :: s' =>
      if isspace c
      then match cur with
           | [] => split_ws_from s' []
           | _ :: _ => rev cur :: split_ws_from s' []
           end
      else split_ws_from s' (c :: cur)
  end.

Definition split_ws (s : str) : list str := split_ws_from s [].

End PyStr.

Import PyStr.

(** ** Python floats *)

Module PyFloat.

(** A [float] is an IEEE-754 binary64 number. *)
Definition float := spec_float.
Definition prec : Z := 53.
Definition emax : Z := 1024.

(** [x <= y], [x >= y], [x > y] and [x == y]; all false on NaN. *)
Definition fle (x y : float) : bool := SFleb x y.
Definition fge (x y : float) : bool := SFleb y x.
Definition fgt (x y : float) : bool := SFltb y x.
Definition feq (x y : float) : bool := SFeqb x y.

Definition fzero : float := S754_zero false.

(** The double nearest to [num / den] (ties to even), with the sign
    [neg]; overflow gives an infinity, underflow a zero. *)
Definition of_ratio (neg : bool) (num den : positive) : float :=
  let '(q, e, l) := SFdiv_core_binary prec emax (Zpos num) 0 (Zpos den) 0 in
  binary_round_aux prec emax neg q e l.

(** The double nearest to [digits * 10 ^ exp10], as [strtod] gives it
    for a decimal literal. *)
Definition of_decimal (neg : bool) (digits : N) (exp10 : Z) : float :=
  match digits with
  | N0 => S754_zero neg
  | Npos p =>
      of_ratio neg (p * Z.to_pos (10 ^ Z.max exp10 0))
                   (Z.to_pos (10 ^ Z.max (- exp10) 0))
  end.

(** [float(n)] for an [int]: the nearest double, [OverflowError] when
    it is out of range. *)
Definition of_int (z : Z) : res float :=
  match z with
  | Z0 => Ok fzero
  | Zpos p => match of_ratio false p 1 with
              | S754_infinity _ => Raise OverflowError
              | f => Ok f
              end
  | Zneg p => match of_ratio true p 1 with
              | S754_infinity _ => Raise OverflowError
              | f => Ok f
              end
  end.

(** *** [float(s)] for a [str] *)

Definition ascii_digit (c : char) : bool := in_range 48 57 c.

(** [_PyUnicode_TransformDecimalAndSpaceToASCII]: ASCII is kept,
    other white space becomes a blank, other decimal digits become
    ASCII digits, anything else becomes [?]. *)
Definition to_ascii_numeric (c : char) : char :=
  if (c <? 127)%N then c
  else if isspace c then 32%N
  else match todecimal c with
       | Some d => (48 + d)%N
       | None => 63%N
       end.

(** [Py_ISSPACE], the white space stripped around the literal. *)
Definition c_isspace (c : char) : bool := in_range 9 13 c || (c =? 32)%N.

Fixpoint lstrip_c (s : str) : str :=
  match s with
  | c :: s' => if c_isspace c then lstrip_c s' else s
  | [] => []
  end.

Definition strip_c (s : str) : str := rev (lstrip_c (rev (lstrip_c s))).

(** Underscores are allowed between two digits only and are dropped
    ([_Py_string_to_number_with_underscores]); [prev] is the previous
    character. *)
Fixpoint drop_underscores (prev : char) (s : str) : option str :=
  match s with
  | [] => if (prev =? 95)%N then None else Some []
  | c :: s' =>
      if (c =? 95)%N
      then if ascii_digit prev then drop_underscores c s' else None
      else if (prev =? 95)%N && negb (ascii_digit c) then None
      else option_map (cons c) (drop_underscores c s')
  end.

Fixpoint span (p : char -> bool) (s : str) : str * str :=
  match s with
  | c :: s' => if p c then let '(a, b) := span p s' in (c :: a, b)
               else ([], s)
  | [] => ([], [])
  end.

(** The value of a run of ASCII digits. *)
Definition digits_value (ds : str) : N :=
  fold_left (fun acc c => (10 * acc + (c - 48))%N) ds 0%N.

Definition take_sign (s : str) : bool * str :=
  match s with
  | 45%N :: r => (true, r)
  | 43%N :: r => (false, r)
  | _ => (false, s)
  end.

Definition ascii_lower (c : char) : char :=
  if in_range 65 90 c then (c + 32)%N else c.

(** [sign? (inf | infinity | nan)] in any letter case, or
    [sign? digits? (. digits?)? ([eE] sign? digits)?] with at least
    one digit before the exponent; the whole text must be used. *)
Definition parse_literal (s : str) : option float :=
  let '(neg, body) := take_sign s in
  let low := map ascii_lower body in
  if str_eqb low (lit "inf") || str_eqb low (lit "infinity")
  then Some (S754_infinity neg)
  else if str_eqb low (lit "nan") then Some S754_nan
  else
    let '(ip, r1) := span ascii_digit body in
    let '(fp, r2) := match r1 with
                     | 46%N :: r => span ascii_digit r
                     | _ => ([], r1)
                     end in
    let mant := digits_value (ip ++ fp) in
    let scale := Z.of_nat (List.length fp) in
    match ip ++ fp with
    | [] => None
    | _ :: _ =>
        match r2 with
        | [] => Some (of_decimal neg mant (- scale))
        | c :: r3 =>
            if (c =? 101)%N || (c =? 69)%N
            then
              let '(eneg, r4) := take_sign r3 in
              let '(ed, r5) := span ascii_digit r4 in
              match ed, r5 with
              | _ :: _, [] =>
                  let e := Z.of_N (digits_value ed) in
                  Some (of_decimal neg mant
                          ((if eneg then - e else e) - scale))
              | _, _ => None
              end
            else None
        end
    end.

(** [float(s)]: [None] stands for the [ValueError] of a text that is
    not a float literal. *)
Definition of_str (s : str) : option float :=
  match drop_underscores 0%N (strip_c (map to_ascii_numeric s)) with
  | Some t => parse_literal t
  | None => None
  end.

(** *** [round(x, 2)]

    CPython rounds the exact binary value to two decimals, ties to
    even, and converts that decimal back to the nearest double;
    zeros, infinities and NaN are returned unchanged. *)

(** [n] with [n] the integer nearest to [num / den], ties to even. *)
Definition round_half_even (num den : Z) : Z :=
  let q := (num / den)%Z in
  let r := (num mod den)%Z in
  match (2 * r ?= den)%Z with
  | Lt => q
  | Gt => (q + 1)%Z
  | Eq => if Z.even q then q else (q + 1)%Z
  end.

(** The integer nearest to [100 * m * 2 ^ e]. *)
Definition hundredths (m : positive) (e : Z) : Z :=
  round_half_even (100 * Zpos m * 2 ^ Z.max e 0) (2 ^ Z.max (- e) 0).

Definition round2 (x : float) : float :=
  match x with
  | S754_finite s m e =>
      match hundredths m e with
      | Zpos n => of_ratio s n 100
      | _ => S754_zero s
      end
  | _ => x
  end.

End PyFloat.

Import PyFloat.

(** ** Python values as [json.loads] and the store hand them over *)

Module PyVal.

Inductive value : Type :=
| VNone
| VBool (b : bool)
| VInt (z : Z)
| VFloat (f : float)
| VStr (s : str)
| VList (l : list value)
| VDict (d : list (str * value)).

(** A [dict] with [str] keys, as the list of its items. *)
Definition dict := list (str * value).

Fixpoint dget (d : dict) (k : str) : option value :=
  match d with
  | [] => None
  | (k', v) :: d' => if str_eqb k' k then Some v else dget d' k
  end.

(** [k in d] *)
Definition has_key (d : dict) (k : str) : bool :=
  match dget d k with Some _ => true | None => false end.

(** [d.get(k, default)], and [d.get(k)] whose default is [None]. *)
Definition get_or (d : dict) (k : str) (default : value) : value :=
  match dget d k with Some v => v | None => default end.

Definition get (d : dict) (k : str) : value := get_or d k VNone.

(** [bool(v)] *)
Definition truthy (v : value) : bool :=
  match v with
  | VNone => false
  | VBool b => b
  | VInt z => negb (z =? 0)%Z
  | VFloat f => negb (feq f fzero)
  | VStr s => match s with [] => false | _ :: _ => true end
  | VList l => match l with [] => false | _ :: _ => true end
  | VDict d => match d with [] => false | _ :: _ => true end
  end.

(** [float(v)] *)
Definition py_float (v : value) : res float :=
  match v with
  | VNone => Raise TypeError
  | VBool b => Ok (if b then of_decimal false 1 0 else fzero)
  | VInt z => of_int z
  | VFloat f => Ok f
  | VStr s => match of_str s with
              | Some f => Ok f
              | None => Raise ValueError
              end
  | VList _ => Raise TypeError
  | VDict _ => Raise TypeError
  end.

(** [hash(v)] raises [TypeError] on lists and dicts. *)
Definition hashable (v : value) : bool :=
  match v with
  | VList _ | VDict _ => false
  | _ => true
  end.

(** [n == f] for an [int] and a [float]: the exact values are compared. *)
Definition int_eq_float (n : Z) (f : float) : bool :=
  match f with
  | S754_zero _ => (n =? 0)%Z
  | S754_finite s m e =>
      let v := if s then Zneg m else Zpos m in
      if (0 <=? e)%Z then (n =? v * 2 ^ e)%Z else (n * 2 ^ (- e) =? v)%Z
  | _ => false
  end.

Definition int_of_bool (b : bool) : Z := if b then 1%Z else 0%Z.

(** Equality of dictionary keys: numbers compare by value across
    [bool], [int] and [float]; a NaN read from JSON equals no key. *)
Definition key_eq (a b : value) : bool :=
  match a, b with
  | VNone, VNone => true
  | VBool x, VBool y => Bool.eqb x y
  | VBool x, VInt y => (int_of_bool x =? y)%Z
  | VInt x, VBool y => (x =? int_of_bool y)%Z
  | VBool x, VFloat y => int_eq_float (int_of_bool x) y
  | VFloat x, VBool y => int_eq_float (int_of_bool y) x
  | VInt x, VInt y => (x =? y)%Z
  | VInt x, VFloat y => int_eq_float x y
  | VFloat x, VInt y => int_eq_float y x
  | VFloat x, VFloat y => feq x y
  | VStr x, VStr y => str_eqb x y
  | _, _ => false
  end.

(** [v == "..."] against a string literal. *)
Definition eq_str (v : value) (s : str) : bool :=
  match v with
  | VStr x => str_eqb x s
  | _ => false
  end.

(** [for o in v]: the elements of a list, the keys of a dict, the
    characters of a string; anything else is not iterable. *)
Definition py_iter (v : value) : res (list value) :=
  match v with
  | VList l => Ok l
  | VDict d => Ok (map (fun kv => VStr (fst kv)) d)
  | VStr s => Ok (map (fun c => VStr [c]) s)
  | _ => Raise TypeError
  end.

(** A [dict] with arbitrary hashable keys, as the list of its items in
    insertion order. *)
Section KeyedDict.
Variable V : Type.

Definition kdict := list (value * V).

Fixpoint kset (m : kdict) (k : value) (v : V) : kdict :=
  match m with
  | [] => [(k, v)]
  | (k', v') :: m' =>
      if key_eq k' k then (k', v) :: m' else (k', v') :: kset m' k v
  end.

Fixpoint kfind (m : kdict) (k : value) : option V :=
  match m with
  | [] => None
  | (k', v') :: m' => if key_eq k' k then Some v' else kfind m' k
  end.

(** [m[k] = v] and [m.get(k)] hash the key first. *)
Definition kdict_set (m : kdict) (k : value) (v : V) : res kdict :=
  if hashable k then Ok (kset m k v) else Raise TypeError.

Definition kdict_get (m : kdict) (k : value) : res (option V) :=
  if hashable k then Ok (kfind m k) else Raise TypeError.
End KeyedDict.

End PyVal.

Import PyVal.

(** ** The fragment of [re] the sources use *)

Module Re.

(** Patterns: character classes, sequence, ordered alternation and
    greedy repetition of a class. *)
Inductive regex : Type :=
| Eps
| Cls (p : char -> bool)
| Seq (r1 r2 : regex)
| Alt (r1 r2 : regex)
| Star (p : char -> bool).

Definition Plus (p : char -> bool) : regex := Seq (Cls p) (Star p).
Definition Opt (r : regex) : regex := Alt r Eps.

Definition only (c : char) : char -> bool := fun x => (x =? c)%N.

(** A literal letter under [re.IGNORECASE]: the characters whose lower
    case is the letter, and the characters CPython pairs with [i], [s]
    and [k]. *)
Definition ci (l : char) : char -> bool := fun x =>
  let l := ascii_lower l in
  (ascii_lower x =? l)%N
  || ((l =? 105)%N && ((x =? 0x130)%N || (x =? 0x131)%N))
  || ((l =? 115)%N && (x =? 0x17F)%N)
  || ((l =? 107)%N && (x =? 0x212A)%N).

Fixpoint word (f : char -> char -> bool) (s : str) : regex :=
  match s with
  | [] => Eps
  | c :: s' => Seq (Cls (f c)) (word f s')
  end.

Fixpoint repeat_cls (n : nat) (p : char -> bool) : regex :=
  match n with
  | O => Eps
  | S n' => Seq (Cls p) (repeat_cls n' p)
  end.

Section Match.
Variable A : Type.

(** Greedy: take as many characters as the class allows and give
    them back one at a time while the continuation fails. *)
Fixpoint star_match (p : char -> bool) (s : str)
         (k : str -> option A) : option A :=
  match s with
  | c :: s' =>
      if p c
      then match star_match p s' k with
           | Some a => Some a
           | None => k s
           end
      else k s
  | [] => k []
  end.

(** Backtracking match of [r] at the head of [s]; [k] receives the
    text left after the match. *)
Fixpoint rmatch (r : regex) (s : str) (k : str -> option A) : option A :=
  match r with
  | Eps => k s
  | Cls p => match s with
             | c :: s' => if p c then k s' else None
             | [] => None
             end
  | Seq r1 r2 => rmatch r1 s (fun s' => rmatch r2 s' k)
  | Alt r1 r2 => match rmatch r1 s k with
                 | Some a => Some a
                 | None => rmatch r2 s k
                 end
  | Star p => star_match p s k
  end.
End Match.

(** [re.match(r, s)]: the matched text and the rest. *)
Definition match_at (r : regex) (s : str) : option (str * str) :=
  match rmatch r s (fun rest => Some rest) with
  | Some rest => Some (firstn (List.length s - List.length rest) s, rest)
  | None => None
  end.

(** [re.search(r, s).group(0)]: the leftmost match. *)
Fixpoint search (r : regex) (s : str) : option str :=
  match match_at r s with
  | Some (m, _) => Some m
  | None => match s with
            | [] => None
            | _ :: s' => search r s'
            end
  end.

(** [re.sub(r, repl, s)] for a pattern that matches no empty text:
    every non-overlapping match, left to right. *)
Fixpoint sub_from (r : regex) (repl s : str) (skip : nat) : str :=
  match s with
  | [] => []
  | c :: s' =>
      match skip with
      | S k => sub_from r repl s' k
      | O =>
          match match_at r s with
          | Some (_ :: m, _) => repl ++ sub_from r repl s' (List.length m)
          | _ => c :: sub_from r repl s' 0
          end
      end
  end.

Definition sub (r : regex) (repl s : str) : str := sub_from r repl s 0.

(** [re.sub("^" + r, repl, s)]: only the start of the text can match. *)
Definition sub_start (r : regex) (repl s : str) : str :=
  match match_at r s with
  | Some (_, rest) => repl ++ rest
  | None => s
  end.

End Re.

(** ** [backend/helper.py] *)

Module helper.
Import Re.

(** [normalize_amount(a)]: [round(float(a), 2)], and [0.0] when the
    conversion raises. *)
Definition normalize_amount (a : value) : float :=
  match py_float a with
  | Ok x => round2 x
  | Raise _ => fzero
  end.

(** The three patterns of [clean_details], as the source spells them.
    Each is a raw string in which the backslash is itself escaped, so
    the pattern text reads backslash, backslash, [s]: an escaped
    backslash followed by the letter [s], not the class of white
    space. *)

(** [^(Paid\\s*to|Paidto|Received\\s*from|Receivedfrom)\\s*] with
    [re.IGNORECASE] *)
Definition boilerplate_prefix : regex :=
  Seq (Alt (Seq (word ci (lit "Paid"))
                (Seq (Cls (ci backslash))
                     (Seq (Star (ci 115%N)) (word ci (lit "to")))))
      (Alt (word ci (lit "Paidto"))
      (Alt (Seq (word ci (lit "Received"))
                (Seq (Cls (ci backslash))
                     (Seq (Star (ci 115%N)) (word ci (lit "from")))))
           (word ci (lit "Receivedfrom")))))
      (Seq (Cls (ci backslash)) (Star (ci 115%N))).

Definition isdash (c : char) : bool :=
  (c =? 45)%N || (c =? en_dash)%N || (c =? em_dash)%N.

(** [^[-–—]+\\s*] *)
Definition leading_dashes : regex :=
  Seq (Plus isdash) (Seq (Cls (only backslash)) (Star (only 115%N))).

(** [\\s+] *)
Definition backslash_s_run : regex :=
  Seq (Cls (only backslash)) (Plus (only 115%N)).

(** [clean_details(details)]; [None] is a missing value. *)
Definition clean_details (details : option str) : str :=
  match details with
  | None => []
  | Some [] => []
  | Some s =>
      let s := sub_start boilerplate_prefix [] s in
      let s := sub_start leading_dashes [] s in
      strip (sub backslash_s_run (lit " ") s)
  end.

(** [s.lower()], one character at a time.  Every character whose
    lower case holds an ASCII letter is listed; the others are left in
    place, which changes no test of the result against an ASCII
    keyword. *)
Definition lower_char (c : char) : str :=
  if in_range 65 90 c then [(c + 32)%N]
  else if (c =? 0x130)%N then [105%N; 0x307%N]
  else if (c =? 0x212A)%N then [107%N]
  else [c].

Definition lower (s : str) : str := flat_map lower_char s.

(** [normalize_type(t, details)] *)
Definition normalize_type (t details : option str) : str :=
  let keep := match t with
              | Some x => str_eqb x (lit "Debit") || str_eqb x (lit "Credit")
              | None => false
              end in
  match t, keep with
  | Some x, true => x
  | _, _ =>
      let d := lower (match details with Some s => s | None => [] end) in
      if contains (lit "received") d then lit "Credit"
      else if contains (lit "paid") d || contains (lit "debit") d
      then lit "Debit"
      else if contains (lit "imps") d || contains (lit "ecom pur") d
              || contains (lit "pos") d
      then lit "Debit" else lit "Debit"
  end.

(** A raw row as the extractors hand it to [to_records]. *)
Record raw_row : Type := {
  row_date : option str;
  row_details : option str;
  row_type : option str;
  row_amount : value
}.

Record record : Type := {
  date : option str;
  transaction_details : str;
  transaction_type : str;
  amount : float;
  verification_status : str;
  statement_type : option str;
  user_id : option str
}.

Section ToRecords.
(** [normalize_date] only calls [datetime.strptime] and
    [datetime.fromisoformat]; the calendar is not modelled. *)
Variable normalize_date : option str -> option str.

Definition to_record (stype uid : option str) (row : raw_row) : record :=
  {| date := normalize_date (row_date row);
     transaction_details := clean_details (row_details row);
     transaction_type := normalize_type (row_type row) (row_details row);
     amount := normalize_amount (row_amount row);
     verification_status := lit "unverified";
     statement_type := stype;
     user_id := match uid with
                | Some (_ :: _) => uid
                | _ => None
                end |}.

(** [to_records(data, statement_type, user_id)] *)
Definition to_records (data : list raw_row) (stype uid : option str)
  : list record :=
  map (to_record stype uid) data.
End ToRecords.

End helper.

(** ** [backend/pdf_processor.py] *)

Module pdf_processor.
Import Re.

(** What [pdfplumber] hands over: the text of a page (empty when
    [extract_text()] gives nothing) and its tables, whose cells are
    [None] or a [str]. *)
Definition cell := option str.
Definition table := list (list cell).

Record page : Type := {
  page_text : str;
  page_tables : list table
}.

Definition pdf := list page.

(** A raw transaction tuple. *)
Record txn : Type := {
  txn_date : str;
  txn_details : str;
  txn_amount : float;
  txn_type : str
}.

(** [[^\d.-]] *)
Definition not_amount_char (c : char) : bool :=
  negb (isdigit c || (c =? 46)%N || (c =? 45)%N).

(** [parse_amount(amount_str)] *)
Definition parse_amount (amount_str : str) : float :=
  match amount_str with
  | [] => fzero
  | _ :: _ =>
      let cleaned := sub (Cls not_amount_char) [] amount_str in
      match of_str cleaned with
      | Some f => f
      | None => fzero
      end
  end.

(** *** GPay *)

(** [(\d{2}[A-Za-z]{3},\d{4})] *)
Definition gpay_date_pattern : regex :=
  Seq (repeat_cls 2 isdigit)
      (Seq (repeat_cls 3 isalpha_ascii)
           (Seq (Cls (only 44%N)) (repeat_cls 4 isdigit))).

(** One turn of the loop over the lines of a page: the date carried to
    the next line and the tuples appended.  [parts[1].split()[0]]
    raises [IndexError] when nothing follows the currency sign. *)
Definition gpay_line (current_date : option str) (line : str)
  : res (option str * list txn) :=
  let current_date :=
    match search gpay_date_pattern line with
    | Some d => Some d
    | None => current_date
    end in
  match current_date with
  | Some ((_ :: _) as d) =>
      if contains [rupee] line
      then
        match split_char rupee line with
        | p0 :: p1 :: _ =>
            let details := strip p0 in
            let details := strip (replace d [] details) in
            let details := strip (sub gpay_date_pattern [] details) in
            match split_ws p1 with
            | [] => Raise IndexError
            | amount_str :: _ =>
                let t_type := if contains (lit "Received") details
                              then lit "Credit" else lit "Debit" in
                Ok (current_date,
                    [ {| txn_date := d;
                         txn_details := details;
                         txn_amount := parse_amount amount_str;
                         txn_type := t_type |} ])
            end
        | _ => Ok (current_date, [])
        end
      else Ok (current_date, [])
  | _ => Ok (current_date, [])
  end.

Fixpoint gpay_lines (current_date : option str) (lines : list str)
  : res (list txn) :=
  match lines with
  | [] => Ok []
  | line :: rest =>
      r <- gpay_line current_date line ;;
      more <- gpay_lines (fst r) rest ;;
      Ok (snd r ++ more)
  end.

Definition gpay_page (p : page) : res (list txn) :=
  match page_text p with
  | [] => Ok []
  | _ :: _ => gpay_lines None (split_char newline (page_text p))
  end.

(** [extract_gpay_statement(pdf)] *)
Definition extract_gpay_statement (doc : pdf) : res (list txn) :=
  ts <- mapM gpay_page doc ;; Ok (concat ts).

(** [re.search(...)] as a truth value *)
Definition found (o : option str) : bool :=
  match o with Some _ => true | None => false end.

(** *** PhonePe *)

(** [([A-Za-z]{3}\s\d{1,2},\s\d{4})] *)
Definition phonepe_date_pattern : regex :=
  Seq (repeat_cls 3 isalpha_ascii)
      (Seq (Cls isspace)
           (Seq (Cls isdigit)
                (Seq (Opt (Cls isdigit))
                     (Seq (Cls (only 44%N))
                          (Seq (Cls isspace) (repeat_cls 4 isdigit)))))).

(** [^[-–—]+\s*] with a hyphen, an en dash and an em dash in the class:
    the dashes in front of the details *)
Definition dash_run_pattern : regex :=
  Seq (Plus (fun c => (c =? 45)%N || (c =? en_dash)%N || (c =? em_dash)%N))
      (Star isspace).

(** [^\d+(\.\d+)?$]; [$] also matches before a final line break. *)
Definition plain_number_pattern : regex :=
  Seq (Plus isdigit) (Opt (Seq (Cls (only 46%N)) (Plus isdigit))).

Definition matches_to_end (r : regex) (s : str) : bool :=
  match rmatch r s (fun rest =>
                      match rest with
                      | [] => Some tt
                      | [c] => if (c =? newline)%N then Some tt else None
                      | _ => None
                      end) with
  | Some _ => true
  | None => false
  end.

(** [s.split(sep)[0]] for a separator that is not empty *)
Fixpoint before_first (sep s : str) : str :=
  if isprefix sep s then []
  else match s with
       | [] => []
       | c :: s' => c :: before_first sep s'
       end.

(** The amount looked for on the next lines (at most three): the last
    token of the first line whose last token, commas dropped, is a plain
    number; blank lines are passed over. *)
Fixpoint phonepe_lookahead (next : list str) : float :=
  match next with
  | [] => fzero
  | next_line :: more =>
      match rev (split_ws next_line) with
      | [] => phonepe_lookahead more
      | last_part :: _ =>
          let possible_amt_str := replace (lit ",") [] last_part in
          if matches_to_end plain_number_pattern possible_amt_str
          then parse_amount possible_amt_str
          else phonepe_lookahead more
      end
  end.

(** The block that starts at a line with a date and looks ahead. *)
Definition phonepe_block (date_str line : str) (following : list str)
  : list txn :=
  let t_type :=
    if contains (lit "Credit") line || contains (lit "Received") line
    then lit "Credit" else lit "Debit" in
  let details :=
    strip (replace (lit "INR") []
             (replace (lit "Debit") []
                (replace (lit "Credit") [] (replace date_str [] line)))) in
  let details := sub_start dash_run_pattern [] details in
  let amount := phonepe_lookahead (firstn 3 following) in
  if fgt amount fzero
  then
    let t_type :=
      if str_eqb t_type (lit "Debit")
         && found (search (word ci (lit "Received")) details)
      then lit "Credit" else t_type in
    [ {| txn_date := date_str; txn_details := details;
         txn_amount := amount; txn_type := t_type |} ]
  else [].

(** One turn of the loop over the lines of a page; [following] holds the
    lines after [line].  A line with a date and one of the words
    [Credit] and [Debit] is taken as a whole transaction whose amount is
    its last token, and the loop goes on to the next line. *)
Definition phonepe_line (line : str) (following : list str) : list txn :=
  match search phonepe_date_pattern line with
  | None => []
  | Some date_str =>
      if contains (lit "Credit") line || contains (lit "Debit") line
      then
        match rev (split_ws line) with
        | amount_str :: _ =>
            let t_type := if contains (lit "Credit") line
                          then lit "Credit" else lit "Debit" in
            let split_keyword := t_type in
            let details_part := before_first split_keyword line in
            let details := strip (replace date_str [] details_part) in
            [ {| txn_date := date_str; txn_details := details;
                 txn_amount := parse_amount amount_str;
                 txn_type := t_type |} ]
        | [] => phonepe_block date_str line following
        end
      else phonepe_block date_str line following
  end.

Fixpoint phonepe_lines (lines : list str) : list txn :=
  match lines with
  | [] => []
  | line :: following => phonepe_line line following ++ phonepe_lines following
  end.

(** [extract_phonepe_statement(pdf)] *)
Definition extract_phonepe_statement (doc : pdf) : list txn :=
  flat_map (fun p =>
              match page_text p with
              | [] => []
              | _ :: _ => phonepe_lines (split_char newline (page_text p))
              end) doc.

(** *** SBI Card *)

(** [str(c)] and the truth value of a cell *)
Definition cell_str (c : cell) : str :=
  match c with Some s => s | None => lit "None" end.

Definition cell_truthy (c : cell) : bool :=
  match c with Some (_ :: _) => true | _ => false end.

(** [[\d,]+(?:\.\d+)?\s*[CD]] *)
Definition sbi_amount_pattern : regex :=
  Seq (Plus (fun c => isdigit c || (c =? 44)%N))
      (Seq (Opt (Seq (Cls (only 46%N)) (Plus isdigit)))
           (Seq (Star isspace) (Cls (fun c => (c =? 67)%N || (c =? 68)%N)))).

Definition is_sbi_transactions_table (t : table) : bool :=
  match t with
  | header :: ((_ :: _) as rows) =>
      let header_texts :=
        map (fun c => if cell_truthy c then cell_str c else []) header in
      let has_date := existsb (contains (lit "Date")) header_texts in
      let has_amount_header :=
        existsb (contains (lit "Amount")) header_texts in
      if negb (has_date && has_amount_header) then false
      else existsb
             (fun row =>
                (3 <=? List.length row)%nat
                && cell_truthy (nth 2 row None)
                && found (search sbi_amount_pattern
                                 (cell_str (nth 2 row None))))
             rows
  | _ => false
  end.

(** The lines of the three cells of a row, zipped up to the shortest. *)
Definition sbi_row (row : list cell) : list txn :=
  if (3 <=? List.length row)%nat
     && cell_truthy (nth 0 row None)
     && cell_truthy (nth 1 row None)
     && cell_truthy (nth 2 row None)
  then
    let dates := split_char newline (cell_str (nth 0 row None)) in
    let details := split_char newline (cell_str (nth 1 row None)) in
    let amounts := split_char newline (cell_str (nth 2 row None)) in
    flat_map
      (fun '(d, (det, amt_raw)) =>
         let t_type :=
           if contains [67%N] amt_raw then lit "Credit"
           else if contains [68%N] amt_raw then lit "Debit"
           else lit "Debit" in
         let amt_val := parse_amount amt_raw in
         if fgt amt_val fzero
         then [ {| txn_date := d; txn_details := det;
                   txn_amount := amt_val; txn_type := t_type |} ]
         else [])
      (combine dates (combine details amounts))
  else [].

(** The body of the loop over the tables of a page.  In the source the
    loop over the rows is indented under the test of the first header
    cell, so it runs only when that test holds, from row 1 on. *)
Definition sbi_table (t : table) : list txn :=
  match t with
  | [] => []
  | header :: _ =>
      if negb (is_sbi_transactions_table t) then []
      else
        match header with
        | first :: _ =>
            if contains (lit "Date") (cell_str first)
            then flat_map sbi_row (skipn 1 t)
            else []
        | [] => []
        end
  end.

(** [extract_sbi_statement(pdf)] *)
Definition extract_sbi_statement (doc : pdf) : list txn :=
  flat_map (fun p => flat_map sbi_table (page_tables p)) doc.

(** *** Axis Bank *)

Definition axis_row (row : list cell) : list txn :=
  if (List.length row <? 5)%nat then []
  else
    match nth 0 row None with
    | Some ((_ :: _) as date_str) =>
        let details :=
          match nth 2 row None with
          | Some ((_ :: _) as s) => replace [newline] (lit " ") s
          | _ => []
          end in
        let has_text (c : cell) :=
          match c with
          | Some s => match strip s with [] => false | _ :: _ => true end
          | None => false
          end in
        let debit := nth 3 row None in
        let credit := nth 4 row None in
        let '(amount, t_type) :=
          if has_text debit
          then (parse_amount (cell_str debit), lit "Debit")
          else if has_text credit
          then (parse_amount (cell_str credit), lit "Credit")
          else (fzero, lit "Debit") in
        if fgt amount fzero
        then [ {| txn_date := date_str; txn_details := details;
                  txn_amount := amount; txn_type := t_type |} ]
        else []
    | _ => []
    end.

Definition axis_table (t : table) : list txn :=
  match t with
  | [] => []
  | header :: _ =>
      let start_idx :=
        match header with
        | first :: _ =>
            if contains (lit "Tran Date") (cell_str first) then 1%nat
            else 0%nat
        | [] => 0%nat
        end in
      flat_map axis_row (skipn start_idx t)
  end.

(** [extract_axis_statement(pdf)] *)
Definition extract_axis_statement (doc : pdf) : list txn :=
  flat_map (fun p => flat_map axis_table (page_tables p)) doc.

End pdf_processor.

(** ** [backend/ai_agent.py] *)

Module ai_agent.

Definition ai_verified : str := lit "ai_verified".
Definition required_human_verification : str :=
  lit "required_human_verification".

(** One entry of [state["results"]], with the keys the merge gives it. *)
Record result : Type := {
  r_id : value;
  r_date : value;
  r_transaction_details : value;
  r_amount : value;
  r_transaction_type : value;
  category : value;
  tags : list value;
  confidence : float;
  verification_status : str;
  requires_human_verification : bool
}.

(** *** [tag_with_gemini] *)

(** [{o.get("id"): o for o in out if isinstance(o, dict) and "id" in o}]:
    a later entry replaces an earlier one with an equal id; an id that
    cannot be hashed raises. *)
Fixpoint results_map_from (m : kdict dict) (out : list value)
  : res (kdict dict) :=
  match out with
  | [] => Ok m
  | VDict o :: rest =>
      if has_key o (lit "id")
      then m' <- kdict_set m (get o (lit "id")) o ;;
           results_map_from m' rest
      else results_map_from m rest
  | _ :: rest => results_map_from m rest
  end.

(** The entry of a transaction without a usable oracle result. *)
Definition missing_result (t : dict) : result :=
  {| r_id := get t (lit "id");
     r_date := get t (lit "date");
     r_transaction_details := get t (lit "transaction_details");
     r_amount := get t (lit "amount");
     r_transaction_type := get t (lit "transaction_type");
     category := VStr (lit "Other");
     tags := [];
     confidence := fzero;
     verification_status := required_human_verification;
     requires_human_verification := true |}.

(** The entry of a transaction matched with the oracle result [o]. *)
Definition matched_result (threshold : float) (t o : dict) : res result :=
  c <- py_float (get_or o (lit "confidence") (VFloat fzero)) ;;
  let bt := get_or o (lit "behavioral_tags")
                   (get_or o (lit "tags") (VList [])) in
  let req_human :=
    truthy (get_or o (lit "requires_human_verification") (VBool false)) in
  let v_status :=
    if fge c threshold && negb req_human
    then ai_verified else required_human_verification in
  Ok {| r_id := get t (lit "id");
        r_date := get t (lit "date");
        r_transaction_details := get t (lit "transaction_details");
        r_amount := get t (lit "amount");
        r_transaction_type := get t (lit "transaction_type");
        category := get_or o (lit "category") (VStr (lit "Other"));
        tags := match bt with VList l => l | _ => [] end;
        confidence := c;
        verification_status := v_status;
        requires_human_verification :=
          str_eqb v_status required_human_verification |}.

(** One turn of the loop over the transactions. *)
Definition merge_one (threshold : float) (results_map : kdict dict)
           (t : dict) : res result :=
  o <- kdict_get results_map (get t (lit "id")) ;;
  match o with
  | None => Ok (missing_result t)
  | Some [] => Ok (missing_result t)
  | Some ((_ :: _) as o) => matched_result threshold t o
  end.

(** [tag_with_gemini(state)]: [txs] is [state["transactions"]], [out]
    is what [call_gemini] returned (asked only for a batch that is not
    empty); the value is [state["results"]]. *)
Definition tag_with_gemini (threshold : float) (txs : list dict)
           (out : value) : res (list result) :=
  match txs with
  | [] => Ok []
  | _ :: _ =>
      items <- py_iter out ;;
      results_map <- results_map_from [] items ;;
      mapM (merge_one threshold results_map) txs
  end.

(** *** [router] *)

Definition all_high (th : float) (res : list result) : bool :=
  forallb (fun r => fge (confidence r) th
                    && str_eqb (verification_status r) ai_verified) res.

(** [state["path"]] as the router sets it *)
Definition router_path (th : float) (res : list result) : str :=
  match res with
  | [] => lit "B"
  | _ :: _ => if all_high th res then lit "A" else lit "B"
  end.

Definition behavioral_analysis : str := lit "behavioral_analysis".
Definition mark_needs_verification : str := lit "mark_needs_verification".

(** [router(state)]: the name of the next node. *)
Definition router (th : float) (res : list result) : str :=
  if str_eqb (router_path th res) (lit "A")
  then behavioral_analysis else mark_needs_verification.

(** *** [persist_results] *)

(** The request of one [update(...).eq("id", ...).execute()]. *)
Record update : Type := {
  upd_id : value;
  upd_category : value;
  upd_tags : list value;
  upd_verification_status : str
}.

Definition update_of (r : result) : update :=
  {| upd_id := r_id r;
     upd_category := category r;
     upd_tags := tags r;
     upd_verification_status :=
       if negb (requires_human_verification r)
       then ai_verified else required_human_verification |}.

(** What a call of [persist_results] leaves behind. *)
Record effects (S : Type) : Type := {
  store_after : S;
  written : list update;        (* the updates the store executed *)
  budget_checked : list value;  (* categories given to the budget check *)
  logged : option exn           (* the exception caught and logged *)
}.

Section Store.
(** The transaction store: a state and the execution of one update,
    which may raise and then leaves the state as it was. *)
Variable S : Type.
Variable execute : S -> update -> res S.

(** The loop over the results, inside the [try].  [cats] is the set
    [updated_categories].  The value is the store, the updates
    executed, and the set or the exception that ended the loop. *)
Fixpoint persist_loop (s : S) (cats : kdict unit) (results : list result)
  : S * list update * res (kdict unit) :=
  match results with
  | [] => (s, [], Ok cats)
  | r :: rest =>
      match execute s (update_of r) with
      | Raise e => (s, [], Raise e)
      | Ok s' =>
          let cat := category r in
          let added :=
            if truthy cat && negb (eq_str cat (lit "Uncategorized"))
            then kdict_set cats cat tt else Ok cats in
          match added with
          | Raise e => (s', [update_of r], Raise e)
          | Ok cats' =>
              let '(s'', w, c) := persist_loop s' cats' rest in
              (s'', update_of r :: w, c)
          end
      end
  end.

Definition nonempty (o : option str) : bool :=
  match o with Some (_ :: _) => true | _ => false end.

(** [persist_results(supabase, results, user_id, user_email)] with a
    client at hand.  [check_budget_and_notify] handles its own
    errors; Python fixes no order on the categories it is given. *)
Definition persist_results (s : S) (results : list result)
           (user_id user_email : option str) : effects S :=
  match results with
  | [] => {| store_after := s; written := [];
             budget_checked := []; logged := None |}
  | _ :: _ =>
      let '(s', w, c) := persist_loop s [] results in
      match c with
      | Ok cats =>
          {| store_after := s'; written := w;
             budget_checked :=
               if nonempty user_id && nonempty user_email
               then map fst cats else [];
             logged := None |}
      | Raise e =>
          {| store_after := s'; written := w;
             budget_checked := []; logged := Some e |}
      end
  end.

(** *** [run_agent] *)

(** The returned dictionary.  Its ["path"] entry is read back from
    the final state of the graph library and is left out here. *)
Record report : Type := {
  count : nat;
  flagged_count : nat;
  results : list result
}.

(** [threshold: float = 0.85] *)
Definition default_threshold : float := of_decimal false 85 (-2).

(** [run_agent(supabase_client, batch_size, threshold, user_id,
    user_email)].  [fetched] is the answer of the store to the query
    of [fetch_unverified] (at most [batch_size] unverified rows, or
    the exception of the query), [out] the answer of the oracle. *)
Definition run_agent (s : S) (fetched : res (list dict)) (out : value)
           (threshold : option float) (user_id user_email : option str)
  : res (report * effects S) :=
  let th := match threshold with
            | Some th => th
            | None => default_threshold
            end in
  txs <- fetched ;;
  res_all <- tag_with_gemini th txs out ;;
  let flagged := filter requires_human_verification res_all in
  let eff := persist_results s res_all user_id user_email in
  Ok ({| count := List.length flagged;
         flagged_count := List.length flagged;
         results := flagged |}, eff).
End Store.

End ai_agent.

(** ** Notions used to state the properties *)

Import helper pdf_processor ai_agent.

(** The oracle result the merge step finds for the transaction [t]. *)
Definition oracle_result_for (out : value) (t : dict) : res (option dict) :=
  items <- py_iter out ;;
  results_map <- results_map_from [] items ;;
  kdict_get results_map (get t (lit "id")).

(** The entry [r] with its confidence changed to [c]. *)
Definition with_confidence (r : result) (c : float) : result :=
  {| r_id := r_id r;
     r_date := r_date r;
     r_transaction_details := r_transaction_details r;
     r_amount := r_amount r;
     r_transaction_type := r_transaction_type r;
     category := category r;
     tags := tags r;
     confidence := c;
     verification_status := ai_agent.verification_status r;
     requires_human_verification := requires_human_verification r |}.

(** The test the SBI extractor makes on the header row: its first cell
    holds the text [Date]. *)
Definition first_header_has_date (t : table) : bool :=
  match t with
  | (first :: _) :: _ => contains (lit "Date") (cell_str first)
  | _ => false
  end.

(** A float with at most two decimal digits: the double of a decimal
    literal with two digits after the point. *)
Definition two_decimals (a : float) : Prop :=
  exists (neg : bool) (n : N), a = of_decimal neg n (-2).

(** A finite float: neither an infinity nor NaN. *)
Definition finite (x : float) : bool :=
  match x with
  | S754_zero _ | S754_finite _ _ _ => true
  | _ => false
  end.

(** The updates [us] executed one after the other. *)
Fixpoint exec_all (S : Type) (execute : S -> update -> res S) (s : S)
         (us : list update) : res S :=
  match us with
  | [] => Ok s
  | u :: us' => s' <- execute s u ;; exec_all execute s' us'
  end.

(** *** Sample data *)

Definition f_0_90 : float := of_decimal false 90 (-2).
Definition f_0_50 : float := of_decimal false 50 (-2).
Definition f_425 : float := of_decimal false 425 0.
Definition f_minus_12_5 : float := of_decimal true 125 (-1).

(** A fetched row with the id [n]. *)
Definition sample_tx (n : Z) : dict :=
  [ (lit "id", VInt n);
    (lit "date", VStr (lit "2025-11-01"));
    (lit "transaction_details", VStr (lit "PaidtoBlinkit"));
    (lit "transaction_type", VStr (lit "Debit"));
    (lit "amount", VFloat f_425) ].

(** An oracle result for the id [n]. *)
Definition sample_answer (n : Z) (conf flag : value) : value :=
  VDict [ (lit "id", VInt n);
          (lit "category", VStr (lit "Groceries"));
          (lit "tags", VList [VStr (lit "essential")]);
          (lit "confidence", conf);
          (lit "requires_human_verification", flag) ].

(** A store that keeps the list of the updates it executed and rejects
    every update of the row with id 2. *)
Definition sample_store : Type := list update.

Definition sample_execute (s : sample_store) (u : update) : res sample_store :=
  if key_eq (upd_id u) (VInt 2) then Raise StoreError else Ok (s ++ [u]).

Definition sample_result (n : Z) : result :=
  {| r_id := VInt n;
     r_date := VStr (lit "2025-11-01");
     r_transaction_details := VStr (lit "PaidtoBlinkit");
     r_amount := VFloat f_425;
     r_transaction_type := VStr (lit "Debit");
     category := VStr (lit "Groceries");
     tags := [VStr (lit "essential")];
     confidence := f_0_90;
     verification_status := ai_verified;
     requires_human_verification := false |}.

(** The claim of per-item isolation of write failures: when the update
    of exactly one result raises, every other result of the batch is
    written. *)
Definition writes_isolated (S : Type) (execute : S -> update -> res S)
           (s : S) (results : list result) : Prop :=
  forall before r after,
    results = before ++ r :: after ->
    (forall s', exists e, execute s' (update_of r) = Raise e) ->
    (forall x, In x (before ++ after) ->
       forall s', exists s'', execute s' (update_of x) = Ok s'') ->
    forall x, In x (before ++ after) ->
      In (update_of x)
         (written (persist_results execute s results None None)).

(** The rows [process_statement_task] of [api/routes/upload.py] hands
    from an extractor to [to_records]. *)
Definition row_of_txn (t : txn) : raw_row :=
  {| row_date := Some (txn_date t);
     row_details := Some (txn_details t);
     row_type := Some (txn_type t);
     row_amount := VFloat (txn_amount t) |}.

(** The claim on the amount of a materialised row: not negative, at most
    two decimal digits, and [0.0] when the amount does not convert. *)
Definition amount_claim (row : raw_row) : Prop :=
  let a := helper.amount (to_record (fun d => d) None None row) in
  fge a fzero = true
  /\ two_decimals a
  /\ (forall e, py_float (row_amount row) = Raise e -> a = fzero).

(** A GPay page whose only amount is zero, and an SBI table whose header
    has [Date] in its second cell only. *)
Definition gpay_zero_page : page :=
  {| page_text := lit "01Nov,2025 PaidtoBlinkit " ++ [rupee] ++ lit "0";
     page_tables := [] |}.

Definition sbi_shifted_table : table :=
  [ [ Some (lit "Sr"); Some (lit "Date"); Some (lit "Amount ( ` )") ];
    [ Some (lit "16 Nov 25" ++ [newline] ++ lit "26 Nov 25");
      Some (lit "CARD CASHBACK" ++ [newline] ++ lit "FUEL");
      Some (lit "1,014.00 C" ++ [newline] ++ lit "20.00 D") ] ].

Definition sbi_plain_table : table :=
  [ [ Some (lit "Date"); Some (lit "Transaction Details");
      Some (lit "Amount ( ` )") ];
    [ Some (lit "16 Nov 25" ++ [newline] ++ lit "26 Nov 25");
      Some (lit "CARD CASHBACK" ++ [newline] ++ lit "FUEL");
      Some (lit "1,014.00 C" ++ [newline] ++ lit "20.00 D") ] ].

(** The decision recorded in [r] for the transaction [t] follows the
    policy on the oracle result matched with [t]. *)
Definition decision_recorded (th : float) (out : value) (t : dict)
           (r : result) : Prop :=
  forall o, oracle_result_for out t = Ok (Some o) ->
    exists c,
      py_float (get_or o (lit "confidence") (VFloat fzero)) = Ok c /\
      confidence r = c /\
      (ai_agent.verification_status r = ai_verified <->
         fge c th = true /\
         truthy (get_or o (lit "requires_human_verification") (VBool false))
         = false) /\
      (ai_agent.verification_status r = ai_verified \/
       ai_agent.verification_status r = required_human_verification) /\
      (get o (lit "requires_human_verification") = VBool true ->
       ai_agent.verification_status r = required_human_verification).

(** The entry of a transaction the oracle said nothing about. *)
Definition defaulted (out : value) (t : dict) (r : result) : Prop :=
  oracle_result_for out t = Ok None ->
  category r = VStr (lit "Other") /\ tags r = [] /\ confidence r = fzero /\
  ai_agent.verification_status r = required_human_verification.

(** An oracle entry the merge can take in: when it is a dict with an id,
    the id can be hashed and the confidence, if given, converts to a
    float. *)
Definition usable_answer (o : value) : Prop :=
  match o with
  | VDict d =>
      has_key d (lit "id") = true ->
      hashable (get d (lit "id")) = true /\
      exists c, py_float (get_or d (lit "confidence") (VFloat fzero)) = Ok c
  | _ => True
  end.

Definition sample_txs : list dict := [sample_tx 1; sample_tx 2].

Definition sample_out : value :=
  VList [ sample_answer 1 (VFloat f_0_90) (VBool false);
          sample_answer 2 (VFloat f_0_90) (VBool false) ].

Definition sample_merged : list result := [sample_result 1; sample_result 2].

(** Oracle answers for the transaction 1: one that spells its confidence
    as a word, one whose confidence is [null]. *)
Definition worded_confidence_out : value :=
  VList [ sample_answer 1 (VStr (lit "high")) (VBool false) ].

Definition null_confidence_out : value :=
  VList [ sample_answer 1 VNone (VBool false) ].

Definition row_425 : raw_row :=
  {| row_date := Some (lit "01Nov,2025");
     row_details := Some (lit "PaidtoBlinkit");
     row_type := Some (lit "Debit");
     row_amount := VStr (lit "425.00") |}.

(** A GPay line with a negative amount, and the row it becomes. *)
Definition gpay_negative_page : page :=
  {| page_text := lit "01Nov,2025 PaidtoBlinkit " ++ [rupee] ++ lit "-12.5";
     page_tables := [] |}.

Definition row_negative : raw_row :=
  row_of_txn {| txn_date := lit "01Nov,2025";
                txn_details := lit "PaidtoBlinkit";
                txn_amount := f_minus_12_5;
                txn_type := lit "Debit" |}.

(** The two text lines of a PhonePe transaction that the comments of
    [extract_phonepe_statement] quote: the amount is on the second. *)
Definition phonepe_two_line_page : page :=
  {| page_text :=
       lit "Nov 25, 2025 Received from SUPARNA Credit INR" ++ [newline]
       ++ lit "08:45 PM Transaction ID T2511251845 30000.00";
     page_tables := [] |}.

(** A float that is not negative: a zero, a positive number or the
    positive infinity. *)
Definition nonneg_float (f : float) : bool :=
  match f with
  | S754_zero _ => true
  | S754_finite false _ _ => true
  | S754_infinity false => true
  | _ => false
  end.

(** A text that holds no backslash. *)
Definition no_backslash (s : str) : Prop := Forall (fun c => c <> backslash) s.

Import Re.


(** ** Notions used to state the further properties *)

(** The identity fields of a merged entry are those of its transaction. *)
Definition same_transaction (t : dict) (r : result) : Prop :=
  r_id r = get t (lit "id")
  /\ r_date r = get t (lit "date")
  /\ r_transaction_details r = get t (lit "transaction_details")
  /\ r_amount r = get t (lit "amount")
  /\ r_transaction_type r = get t (lit "transaction_type").

(** A value [for o in v] cannot walk through. *)
Definition not_iterable (v : value) : bool :=
  match v with
  | VNone | VBool _ | VInt _ | VFloat _ => true
  | _ => false
  end.

(** A category the budget check is asked about: neither empty nor
    ["Uncategorized"]. *)
Definition budget_relevant (c : value) : bool :=
  truthy c && negb (eq_str c (lit "Uncategorized")).


(** The date the GPay loop holds after it has looked at [line]. *)
Definition gpay_current_date (current_date : option str) (line : str)
  : option str :=
  match search gpay_date_pattern line with
  | Some d => Some d
  | None => current_date
  end.

(** The characters [parse_amount] keeps: [[\d.-]]. *)
Definition amount_char (c : char) : bool :=
  isdigit c || (c =? 46)%N || (c =? 45)%N.

(** What [process_statement_task] stores for the tuples of a document:
    [to_records(data, statement_type, user_id)]. *)
Definition statement_records (normalize_date : option str -> option str)
           (data : list txn) (stype uid : option str) : list record :=
  to_records normalize_date (map row_of_txn data) stype uid.

(** An SBI page with one plain table. *)
Definition sbi_plain_doc : pdf :=
  [ {| page_text := []; page_tables := [sbi_plain_table] |} ].

(** An Axis table: a debit row, a credit row and a row without amounts. *)
Definition axis_sample_table : table :=
  [ [ Some (lit "Tran Date"); Some (lit "Chq No"); Some (lit "Particulars");
      Some (lit "Debit"); Some (lit "Credit"); Some (lit "Balance");
      Some (lit "Init. Br") ];
    [ Some (lit "18-10-2025"); None; Some (lit "POS/NETFLIX");
      Some (lit "649.00"); Some (lit " "); Some (lit "1000.00");
      Some (lit "123") ];
    [ Some (lit "29-10-2025"); None; Some (lit "NEFT/SALARY");
      None; Some (lit "1,65,611.00"); Some (lit "166611.00");
      Some (lit "123") ];
    [ Some (lit "30-10-2025"); None; Some (lit "OPENING BALANCE");
      None; None; Some (lit "166611.00"); Some (lit "123") ] ].

Definition axis_sample_doc : pdf :=
  [ {| page_text := lit "Axis Account"; page_tables := [axis_sample_table] |} ].


(** A tuple whose direction is one of the two the records know. *)
Definition known_type (t : txn) : Prop :=
  txn_type t = lit "Debit" \/ txn_type t = lit "Credit".



(** * Further code *)

(** ** [backend/helper.py]: the statement type *)

(** [normalize_statement_type(s)]; [None] is a missing value. *)
Definition normalize_statement_type (s : option str) : option str :=
  match s with
  | None => None
  | Some [] => None
  | Some s =>
      let v := lower (strip s) in
      if str_eqb v (lit "credit card") || str_eqb v (lit "creditcard")
         || str_eqb v (lit "card")
      then Some (lit "Credit Card")
      else if str_eqb v (lit "bank") || str_eqb v (lit "bank account")
              || str_eqb v (lit "account")
      then Some (lit "Bank")
      else if str_eqb v (lit "upi") || str_eqb v (lit "gpay")
              || str_eqb v (lit "phonepe")
      then Some (lit "UPI")
      else None
  end.

(** ** [backend/pdf_processor.py]: the generic extractor and the choice of
    the extractor *)

(** [s.upper()], one character at a time.  Every character whose upper
    case holds an ASCII character is listed; the others are left in
    place, which changes no test of the result against an ASCII
    keyword. *)
Definition upper_char (c : char) : str :=
  if in_range 97 122 c then [(c - 32)%N]
  else if (c =? 0xDF)%N then lit "SS"
  else if (c =? 0x131)%N then lit "I"
  else if (c =? 0x149)%N then [0x2BC%N; 78%N]
  else if (c =? 0x17F)%N then lit "S"
  else if (c =? 0x1F0)%N then [74%N; 0x30C%N]
  else if (c =? 0x1E96)%N then [72%N; 0x331%N]
  else if (c =? 0x1E97)%N then [84%N; 0x308%N]
  else if (c =? 0x1E98)%N then [87%N; 0x30A%N]
  else if (c =? 0x1E99)%N then [89%N; 0x30A%N]
  else if (c =? 0x1E9A)%N then [65%N; 0x2BE%N]
  else if (c =? 0xFB00)%N then lit "FF"
  else if (c =? 0xFB01)%N then lit "FI"
  else if (c =? 0xFB02)%N then lit "FL"
  else if (c =? 0xFB03)%N then lit "FFI"
  else if (c =? 0xFB04)%N then lit "FFL"
  else if (c =? 0xFB05)%N then lit "ST"
  else if (c =? 0xFB06)%N then lit "ST"
  else [c].

Definition upper (s : str) : str := flat_map upper_char s.

(** [x.is_integer()] for a float *)
Definition is_integer (x : float) : bool :=
  match x with
  | S754_zero _ => true
  | S754_finite _ m e =>
      if (0 <=? e)%Z then true else (Zpos m mod 2 ^ (- e) =? 0)%Z
  | _ => false
  end.

Definition last_char (s : str) : option char :=
  match rev s with
  | c :: _ => Some c
  | [] => None
  end.

(** [\d{1,2}] and [\d{2,4}], the longer runs tried first *)
Definition digits_1_2 : regex := Seq (Cls isdigit) (Opt (Cls isdigit)).

Definition digits_2_4 : regex :=
  Seq (Cls isdigit)
      (Seq (Cls isdigit) (Opt (Seq (Cls isdigit) (Opt (Cls isdigit))))).

(** [[-/]] *)
Definition dash_or_slash (c : char) : bool := (c =? 45)%N || (c =? 47)%N.

(** The three date shapes between the two [\b] of the generic pattern:
    [\d{1,2}[-/]\d{1,2}[-/]\d{2,4}], [\d{1,2}\s+[A-Za-z]{3}\s+\d{2,4}] and
    [\d{4}[-/]\d{1,2}[-/]\d{1,2}]. *)
Definition generic_date_body : regex :=
  Alt (Seq digits_1_2
           (Seq (Cls dash_or_slash)
                (Seq digits_1_2 (Seq (Cls dash_or_slash) digits_2_4))))
 (Alt (Seq digits_1_2
           (Seq (Plus isspace)
                (Seq (repeat_cls 3 isalpha_ascii)
                     (Seq (Plus isspace) digits_2_4))))
      (Seq (repeat_cls 4 isdigit)
           (Seq (Cls dash_or_slash)
                (Seq digits_1_2 (Seq (Cls dash_or_slash) digits_1_2))))).

(** [[^\d.]] *)
Definition not_digit_or_dot (c : char) : bool :=
  negb (isdigit c || (c =? 46)%N).

(** [^\d+(\.\d{1,2})?$] *)
Definition money_pattern : regex :=
  Seq (Plus isdigit)
      (Opt (Seq (Cls (only 46%N)) (Seq (Cls isdigit) (Opt (Cls isdigit))))).

Definition f_1900 : float := of_decimal false 1900 0.
Definition f_2100 : float := of_decimal false 2100 0.

Section Generic.
(** [str.isalnum] on one character, which with the underscore makes the
    class [\w] of [re]; the Unicode tables behind it are not
    reproduced. *)
Variable isalnum : char -> bool.

Definition isword (c : char) : bool := isalnum c || (c =? 95)%N.

(** [\b] between two neighbours; the ends of the text count as
    characters outside [\w]. *)
Definition word_boundary (prev next : option char) : bool :=
  xorb (match prev with Some c => isword c | None => false end)
       (match next with Some c => isword c | None => false end).

(** The generic date pattern matched at the head of [s], [prev] being the
    character in front of it. *)
Definition generic_date_at (prev : option char) (s : str) : option str :=
  if word_boundary prev (hd_error s)
  then rmatch generic_date_body s
              (fun rest =>
                 let m := firstn (length s - length rest) s in
                 if word_boundary (last_char m) (hd_error rest)
                 then Some m else None)
  else None.

(** [date_pattern.search(line).group(0)] *)
Fixpoint generic_date_search (prev : option char) (s : str) : option str :=
  match generic_date_at prev s with
  | Some m => Some m
  | None => match s with
            | [] => None
            | c :: s' => generic_date_search (Some c) s'
            end
  end.

(** The loop over the tokens of a line, from the right: the first token
    that is a number with at most two decimals, a whole number between
    1900 and 2100 counting only when the token holds a dot. *)
Fixpoint generic_amount (parts : list str) : float :=
  match parts with
  | [] => fzero
  | part :: more =>
      match sub (Cls not_digit_or_dot) [] part with
      | [] => generic_amount more
      | (_ :: _) as clean_part =>
          if matches_to_end money_pattern clean_part
          then match of_str clean_part with
               | Some val =>
                   if fgt val f_1900 && fgt f_2100 val && is_integer val
                   then if contains (lit ".") part then val
                        else generic_amount more
                   else val
               | None => generic_amount more
               end
          else generic_amount more
      end
  end.

Definition generic_line (line : str) : list txn :=
  match generic_date_search None line with
  | None => []
  | Some date_str =>
      let parts := split_ws line in
      let t_type :=
        if contains (lit "Cr") line || contains (lit "Credit") line
           || contains (lit "Received") line
        then lit "Credit" else lit "Debit" in
      let amount := generic_amount (rev parts) in
      if fgt amount fzero
      then [ {| txn_date := date_str;
                txn_details := strip (replace date_str [] line);
                txn_amount := amount;
                txn_type := t_type |} ]
      else []
  end.

(** [extract_generic_statement(pdf)] *)
Definition extract_generic_statement (doc : pdf) : list txn :=
  flat_map (fun p =>
              match page_text p with
              | [] => []
              | _ :: _ =>
                  flat_map generic_line (split_char newline (page_text p))
              end) doc.

(** The extractor [extract_statement_data] chooses. *)
Inductive statement_format : Type :=
| PhonePe
| SBICard
| AxisBank
| GPay
| Generic.

Definition detect_format (first_page_text name_check : str)
  : statement_format :=
  if contains (lit "PhonePe") first_page_text
     || contains (lit "PhonePe") name_check
  then PhonePe
  else if contains (lit "SBI Card") first_page_text
          || contains (lit "SBI Card") name_check
  then SBICard
  else if contains (lit "Axis Account") first_page_text
          || contains (lit "AXIS BANK") (upper first_page_text)
  then AxisBank
  else if contains (lit "gpay") (lower name_check)
          || contains (lit "google pay") (lower first_page_text)
  then GPay
  else Generic.

(** The text the file names are searched in. *)
Definition name_check_of (file_path : str) (original_filename : option str)
  : str :=
  match original_filename with
  | Some ((_ :: _) as f) => file_path ++ lit " " ++ f
  | _ => file_path
  end.

(** [extract_statement_data(file_path, original_filename)].  [opened] is
    the document [pdfplumber.open] gives, or the exception it raises.
    Every exception ends in the [except] of the function, which leaves
    the list of transactions empty. *)
Definition extract_statement_data (opened : res pdf) (file_path : str)
           (original_filename : option str) : list txn :=
  match opened with
  | Raise _ => []
  | Ok doc =>
      let first_page_text :=
        match doc with
        | p :: _ => page_text p
        | [] => []
        end in
      match detect_format first_page_text
                          (name_check_of file_path original_filename) with
      | PhonePe => extract_phonepe_statement doc
      | SBICard => extract_sbi_statement doc
      | AxisBank => extract_axis_statement doc
      | GPay => match extract_gpay_statement doc with
                | Ok ts => ts
                | Raise _ => []
                end
      | Generic => extract_generic_statement doc
      end
  end.

(** ** [backend/api/routes/upload.py] *)

(** [process_statement_task]: the records handed to [insert_supabase],
    which sends them to the store in one upsert unless the list is
    empty. *)
Definition process_statement_task (normalize_date : option str -> option str)
           (opened : res pdf) (path : str) (original_filename : option str)
           (statement_type user_id : option str) : list record :=
  to_records normalize_date
             (map row_of_txn
                  (extract_statement_data opened path original_filename))
             statement_type user_id.
End Generic.

(** What [upload_statement] answers: the status of an [HTTPException], or
    the statement type it hands to the background task. *)
Inductive upload_answer : Type :=
| Rejected (status : nat)
| Accepted (stype : option str).

(** [upload_statement]: [saved] tells whether the file could be copied
    to the upload directory. *)
Definition upload_statement (content_type : str) (saved : bool)
           (statement_type : option str) : upload_answer :=
  if negb (str_eqb content_type (lit "application/pdf")) then Rejected 400
  else if negb saved then Rejected 500
  else
    let stype := normalize_statement_type statement_type in
    match statement_type, stype with
    | Some (_ :: _), None => Rejected 400
    | _, _ => Accepted stype
    end.


(** A whole number strictly between 1900 and 2100, which the generic
    extractor takes for a year. *)
Definition looks_like_year (x : float) : bool :=
  fgt x f_1900 && fgt f_2100 x && is_integer x.


(** ** Exceptions of the further code *)

(** Beside the exceptions above: [KeyError], and the [HTTPException] of
    the routes with its status code.  All of them are subclasses of
    [Exception]. *)
Inductive failure : Type :=
| PyError (e : exn)
| KeyError
| HTTPException (status : nat).

Inductive outcome (A : Type) : Type :=
| Done (a : A)
| Failed (f : failure).

Arguments Done {A} a.
Arguments Failed {A} f.

Definition and_then {A B : Type} (m : outcome A) (k : A -> outcome B)
  : outcome B :=
  match m with
  | Done a => k a
  | Failed f => Failed f
  end.

Notation "x <~ m ;; k" := (and_then m (fun x => k))
  (at level 61, m at next level, right associativity).

Definition lift {A : Type} (m : res A) : outcome A :=
  match m with
  | Ok a => Done a
  | Raise e => Failed (PyError e)
  end.

(** A [dict] with [str] keys and values of any one type. *)
Fixpoint sget {V : Type} (m : list (str * V)) (k : str) : option V :=
  match m with
  | [] => None
  | (k', v) :: m' => if str_eqb k' k then Some v else sget m' k
  end.

Fixpoint sset {V : Type} (m : list (str * V)) (k : str) (v : V)
  : list (str * V) :=
  match m with
  | [] => [(k, v)]
  | (k', v') :: m' =>
      if str_eqb k' k then (k', v) :: m' else (k', v') :: sset m' k v
  end.

(** ** [backend/ai_agent.py]: the insights *)

(** The two sums kept for a category or a tag: [{"Credit": .., "Debit": ..}]. *)
Record totals : Type := {
  credit_total : float;
  debit_total : float
}.

(** [x + v] for a float [x] *)
Definition float_plus (x : float) (v : value) : res float :=
  match v with
  | VFloat y => Ok (SFadd prec emax x y)
  | VInt z => y <- of_int z ;; Ok (SFadd prec emax x y)
  | VBool b => Ok (SFadd prec emax x (if b then of_decimal false 1 0 else fzero))
  | _ => Raise TypeError
  end.

(** [update_agg(agg_dict, key, amount, type_)] *)
Definition update_agg (agg : kdict totals) (key amount type_ : value)
  : outcome (kdict totals) :=
  if negb (hashable key) then Failed (PyError TypeError)
  else
    let cur := match kfind agg key with
               | Some t => t
               | None => {| credit_total := fzero; debit_total := fzero |}
               end in
    if negb (hashable type_) then Failed (PyError TypeError)
    else if key_eq (VStr (lit "Credit")) type_
    then s <~ lift (float_plus (credit_total cur) amount) ;;
         Done (kset agg key {| credit_total := s;
                               debit_total := debit_total cur |})
    else if key_eq (VStr (lit "Debit")) type_
    then s <~ lift (float_plus (debit_total cur) amount) ;;
         Done (kset agg key {| credit_total := credit_total cur;
                               debit_total := s |})
    else Failed KeyError.

Fixpoint update_tags (agg : kdict totals) (tags : list value)
         (amount type_ : value) : outcome (kdict totals) :=
  match tags with
  | [] => Done agg
  | tag :: more =>
      agg' <~ update_agg agg tag amount type_ ;;
      update_tags agg' more amount type_
  end.

(** The two tables [category_stats] and [tag_stats]. *)
Record stats : Type := {
  category_stats : kdict totals;
  tag_stats : kdict totals
}.

(** One turn of either aggregation loop, on the four values read from a
    row or a result. *)
Definition aggregate_one (st : stats) (amt ttype cat tags : value)
  : outcome stats :=
  cs <~ update_agg (category_stats st) cat amt ttype ;;
  ts <~ match tags with
        | VList l => update_tags (tag_stats st) l amt ttype
        | _ => Done (tag_stats st)
        end ;;
  Done {| category_stats := cs; tag_stats := ts |}.

(** The loop over the rows of the store *)
Fixpoint aggregate_rows (st : stats) (rows : list dict) : outcome stats :=
  match rows with
  | [] => Done st
  | t :: more =>
      st' <~ aggregate_one st
               (get_or t (lit "amount") (VFloat fzero))
               (get_or t (lit "transaction_type") (VStr (lit "Debit")))
               (get_or t (lit "category") (VStr (lit "Other")))
               (get_or t (lit "tags") (VList [])) ;;
      aggregate_rows st' more
  end.

(** The loop over [state["results"]] *)
Fixpoint aggregate_results (st : stats) (rs : list result) : outcome stats :=
  match rs with
  | [] => Done st
  | r :: more =>
      st' <~ aggregate_one st (r_amount r) (r_transaction_type r)
               (category r) (VList (tags r)) ;;
      aggregate_results st' more
  end.

Definition no_data_message : str :=
  lit "No verified financial data found. Please upload and verify bank statements first.".

Definition failed_message : str :=
  lit "Failed to generate insights. Please try again later.".

Definition default_profile : dict :=
  [ (lit "age", VInt 30); (lit "yearly_income", VInt 50000);
    (lit "country", VStr (lit "Unknown")) ].

(** [category_budgets]: the rows are read one by one inside a [try]; a row
    without one of the two keys ends the loop and keeps what was read. *)
Fixpoint budgets_from (acc : kdict value) (rows : list dict) : kdict value :=
  match rows with
  | [] => acc
  | c :: more =>
      match dget c (lit "name"), dget c (lit "max_budget") with
      | Some name, Some max =>
          if hashable name then budgets_from (kset acc name max) more
          else acc
      | _, _ => acc
      end
  end.

(** What the prompt of the insights is built from. *)
Record insights_prompt : Type := {
  prompt_profile : dict;
  prompt_category_stats : kdict totals;
  prompt_budgets : kdict value;
  prompt_tag_stats : kdict totals
}.

(** What [generate_insights] reads from outside: the answers of the store
    to its queries (or their exceptions) and the free-text oracle, whose
    answer is empty when [call_gemini] fails.  [owner_lookup] is the
    owner the store names for the first transaction, [VNone] when the
    lookup fails or finds nothing. *)
Record insights_env : Type := {
  owner_lookup : value;
  profile_row : res dict;
  budget_rows : res (list dict);
  verified_rows : res (list dict);
  oracle_text : insights_prompt -> str
}.

(** [generate_insights(state)]: the value is [state["insights"]], whose
    initial value is the empty text. *)
Definition generate_insights (env : insights_env) (user_id : option str)
           (transactions : list dict) (results : list result) : outcome str :=
  let owner :=
    match user_id with
    | Some ((_ :: _) as u) => VStr u
    | _ =>
        match transactions with
        | [] => VNone
        | t :: _ =>
            if truthy (get t (lit "user_id")) then get t (lit "user_id")
            else owner_lookup env
        end
    end in
  if truthy owner
  then
      let user_profile :=
        match profile_row env with
        | Ok ((_ :: _) as p) => p
        | _ => default_profile
        end in
      let category_budgets :=
        match budget_rows env with
        | Ok rows => budgets_from [] rows
        | Raise _ => []
        end in
      let all_txs :=
        match verified_rows env with
        | Ok rows => rows
        | Raise _ => []
        end in
      match all_txs with
      | [] => Done no_data_message
      | _ :: _ =>
          st <~ aggregate_rows {| category_stats := []; tag_stats := [] |}
                               all_txs ;;
          st <~ aggregate_results st results ;;
          match oracle_text env
                  {| prompt_profile := user_profile;
                     prompt_category_stats := category_stats st;
                     prompt_budgets := category_budgets;
                     prompt_tag_stats := tag_stats st |} with
          | [] => Done failed_message
          | (_ :: _) as insights => Done insights
          end
      end
  else Done [].

(** What [persist_insights] did: the row it inserted, if any. *)
Record insights_written : Type := {
  insight_user : str;
  insight_content : str
}.

(** [persist_insights(supabase, user_id, content)] with a client at hand;
    [insert_ok] tells whether the store takes the row. *)
Definition persist_insights (insert_ok : bool) (user_id : option str)
           (content : str) : option insights_written :=
  match user_id, content with
  | Some ((_ :: _) as u), _ :: _ =>
      if insert_ok
      then Some {| insight_user := u; insight_content := content |}
      else None
  | _, _ => None
  end.

(** [run_insights_agent(supabase_client, user_id)]: the text returned and
    the row stored. *)
Definition run_insights_agent (env : insights_env) (insert_ok : bool)
           (user_id : option str) : outcome (str * option insights_written) :=
  insights_text <~ generate_insights env user_id [] [] ;;
  Done (insights_text,
        match insights_text with
        | [] => None
        | _ :: _ => persist_insights insert_ok user_id insights_text
        end).

(** A row whose sums can be added up: the direction is one of the two
    keys of the sums, the amount is a number and the category can be a
    key. *)
Definition summable (t : dict) : bool :=
  (eq_str (get_or t (lit "transaction_type") (VStr (lit "Debit"))) (lit "Credit")
   || eq_str (get_or t (lit "transaction_type") (VStr (lit "Debit"))) (lit "Debit"))
  && match get_or t (lit "amount") (VFloat fzero) with
     | VFloat _ | VInt _ | VBool _ => true
     | _ => false
     end
  && hashable (get_or t (lit "category") (VStr (lit "Other"))).


(** ** [backend/core/ratelimit.py] *)

(** [int(s)] for a [str], in base ten; [None] stands for [ValueError]. *)
Definition int_of_str (s : str) : option Z :=
  match drop_underscores 0%N (strip_c (map to_ascii_numeric s)) with
  | Some t =>
      let '(neg, body) := take_sign t in
      match body with
      | [] => None
      | _ :: _ =>
          if forallb ascii_digit body
          then Some (if neg then Z.opp (Z.of_N (digits_value body))
                     else Z.of_N (digits_value body))
          else None
      end
  | None => None
  end.

Section RateLimiter.
(** The Redis server: a state, and the three calls the limiter makes,
    each of which may raise.  [redis_pipeline r key expire] runs
    [INCR key] and, when [expire] is given, [EXPIRE key expire]. *)
Variable R : Type.
Variable redis_get : R -> str -> res (option str).
Variable redis_ttl : R -> str -> res Z.
Variable redis_pipeline : R -> str -> option Z -> res R.

(** The body of the [try] of [RateLimiter.__call__]. *)
Definition rate_limiter_try (times seconds : Z) (r : R) (key : str)
  : outcome R :=
  current <~ lift (redis_get r key) ;;
  let present := match current with
                 | Some (_ :: _) => true
                 | _ => false
                 end in
  over <~ match current with
          | Some ((_ :: _) as c) =>
              match int_of_str c with
              | Some n => Done (times <=? n)%Z
              | None => Failed (PyError ValueError)
              end
          | _ => Done false
          end ;;
  if over
  then ttl <~ lift (redis_ttl r key) ;; Failed (HTTPException 429)
  else r' <~ lift (redis_pipeline r key
                     (if present then None else Some seconds)) ;;
       Done r'.

(** [RateLimiter(times, seconds).__call__(request, user)]: the state of
    Redis after the call, or what the call raises.  [redis] is [None]
    when no Redis is configured.  The handler of the [try] is
    [except Exception: return], and [HTTPException] is an [Exception]
    like the errors of Redis and of [int]. *)
Definition rate_limiter_call (times seconds : Z) (redis : option R)
           (key : str) : outcome (option R) :=
  match redis with
  | None => Done None
  | Some r =>
      match rate_limiter_try times seconds r key with
      | Done r' => Done (Some r')
      | Failed (PyError _) | Failed KeyError | Failed (HTTPException _) =>
          Done (Some r)
      end
  end.
End RateLimiter.

(** ** [backend/api/routes/transactions.py]: the statistics *)

Definition target_tags : list str :=
  [ lit "DopamineHit"; lit "RetailTherapy"; lit "VampireSpend";
    lit "BoredomBuy"; lit "PaydaySplurge"; lit "WeekendWarrior";
    lit "SurvivalMode"; lit "SubscriptionTrap"; lit "MinimumDueTrap";
    lit "InterestLeak"; lit "UtilizationSpike"; lit "CreditRotation" ].

(** The values the loop of [get_transaction_stats] keeps. *)
Record tx_stats : Type := {
  total_transactions : nat;
  unverified : nat;
  flagged : nat;
  category_debits : kdict float;
  tag_spending : kdict float;
  payment_type_distribution : kdict float
}.

(** [d[key] += amount], with [d[key] = 0.0] first when [create] is set
    and the key is new; without [create] a new key is left alone. *)
Definition add_to (create : bool) (d : kdict float) (key : value)
           (amount : float) : res (kdict float) :=
  found <- kdict_get d key ;;
  match found with
  | Some x => Ok (kset d key (SFadd prec emax x amount))
  | None => if create then Ok (kset d key (SFadd prec emax fzero amount))
            else Ok d
  end.

Fixpoint add_tags (d : kdict float) (tags : list value) (amount : float)
  : res (kdict float) :=
  match tags with
  | [] => Ok d
  | tag :: more => d' <- add_to false d tag amount ;; add_tags d' more amount
  end.

(** One turn of the loop over the transactions. *)
Definition tx_stats_step (st : tx_stats) (tx : dict) : res tx_stats :=
  let status := get_or tx (lit "verification_status") (VStr (lit "unverified")) in
  let unverified' :=
    if eq_str status (lit "unverified") then Datatypes.S (unverified st)
    else unverified st in
  let flagged' :=
    if eq_str status (lit "unverified") then flagged st
    else if eq_str status (lit "required_human_verification")
    then Datatypes.S (flagged st) else flagged st in
  amount <- py_float (get_or tx (lit "amount") (VFloat fzero)) ;;
  let t_type := get_or tx (lit "transaction_type") (VStr (lit "Debit")) in
  let category := get_or tx (lit "category") (VStr (lit "Uncategorized")) in
  let tags := get_or tx (lit "tags") (VList []) in
  let statement_type := get_or tx (lit "statement_type") (VStr (lit "Unknown")) in
  debits <- (if eq_str t_type (lit "Debit")
             then cd <- add_to true (category_debits st) category amount ;;
                  ts <- match tags with
                        | VList ((_ :: _) as l) =>
                            add_tags (tag_spending st) l amount
                        | _ => Ok (tag_spending st)
                        end ;;
                  Ok (cd, ts)
             else Ok (category_debits st, tag_spending st)) ;;
  pd <- add_to true (payment_type_distribution st) statement_type amount ;;
  Ok {| total_transactions := total_transactions st;
        unverified := unverified';
        flagged := flagged';
        category_debits := fst debits;
        tag_spending := snd debits;
        payment_type_distribution := pd |}.

Fixpoint tx_stats_loop (st : tx_stats) (txs : list dict) : res tx_stats :=
  match txs with
  | [] => Ok st
  | tx :: more => st' <- tx_stats_step st tx ;; tx_stats_loop st' more
  end.

Definition tx_stats_start (n : nat) : tx_stats :=
  {| total_transactions := n;
     unverified := 0;
     flagged := 0;
     category_debits := [];
     tag_spending := map (fun t => (VStr t, fzero)) target_tags;
     payment_type_distribution := [] |}.

Section Stats.
(** [datetime.strptime(month, "%Y-%m")] and the first and last day it
    leads to, [None] for a text that is no month; and the answer of the
    store for a range of dates. *)
Variable month_range : str -> option (str * str).
Variable fetch : option (str * str) -> res (list dict).

(** [get_transaction_stats(month, user)] with a client at hand.  The
    body stands in a [try] whose handler is [except Exception] and
    raises an [HTTPException] with the status 500. *)
Definition get_transaction_stats (month : option str) : outcome tx_stats :=
  let body : outcome tx_stats :=
    range <~ match month with
             | Some ((_ :: _) as m) =>
                 match month_range m with
                 | Some r => Done (Some r)
                 | None => Failed (HTTPException 400)
                 end
             | _ => Done None
             end ;;
    transactions <~ lift (fetch range) ;;
    lift (tx_stats_loop (tx_stats_start (length transactions)) transactions) in
  match body with
  | Done st => Done st
  | Failed (PyError _) | Failed KeyError | Failed (HTTPException _) =>
      Failed (HTTPException 500)
  end.
End Stats.

(** ** Sample data of the further code *)

(** A verified row of the store, and the answers of a store that holds
    it or holds nothing. *)
Definition verified_row : dict :=
  [ (lit "amount", VFloat f_425);
    (lit "transaction_type", VStr (lit "Debit"));
    (lit "category", VStr (lit "Food"));
    (lit "tags", VList [VStr (lit "DopamineHit"); VStr (lit "LateNight")]);
    (lit "date", VStr (lit "2025-11-02"));
    (lit "verification_status", VStr (lit "ai_verified"));
    (lit "statement_type", VStr (lit "UPI")) ].

Definition insights_env_with (rows : list dict) : insights_env :=
  {| owner_lookup := VNone;
     profile_row := Raise StoreError;
     budget_rows := Ok [];
     verified_rows := Ok rows;
     oracle_text := fun _ => lit "Spend less on food." |}.

(** A Redis that holds one counter for every key and never fails. *)
Definition counter_get (r : Z) (key : str) : res (option str) :=
  Ok (Some (lit "7")).

Definition counter_ttl (r : Z) (key : str) : res Z := Ok 42%Z.

Definition counter_pipeline (r : Z) (key : str) (expire : option Z) : res Z :=
  Ok (r + 1)%Z.

(** A line without an amount of its own, for the generic extractor, and
    the test of [str.isalnum] on ASCII. *)
Definition ascii_alnum (c : char) : bool := isdigit c || isalpha_ascii c.

Definition generic_sample_doc : pdf :=
  [ {| page_text := lit "25 Nov 2025 Coffee shop 2025"; page_tables := [] |} ].

(** The statistics of a store that holds [verified_row] and an
    unverified row, asked without a month. *)
Definition sample_stats : tx_stats :=
  match tx_stats_loop (tx_stats_start 2) [verified_row; sample_tx 2] with
  | Ok st => st
  | Raise _ => tx_stats_start 2
  end.

(** ** Notions used to state the amended properties *)

(** A float with the minus sign: a negative number, the negative
    infinity or the negative zero. *)
Definition minus_signed (f : float) : bool :=
  match f with
  | S754_zero true => true
  | S754_finite true _ _ => true
  | S754_infinity true => true
  | _ => false
  end.

(** A row whose amount, -0.001, rounds to zero. *)
Definition row_small_negative : raw_row :=
  {| row_date := Some (lit "01Nov,2025");
     row_details := Some (lit "PaidtoBlinkit");
     row_type := Some (lit "Debit");
     row_amount := VFloat (of_decimal true 1 (-3)) |}.

(** A result whose category the loop of [persist_results] can take
    note of: the category is passed over (it is empty or
    ["Uncategorized"]) or it can be a member of a set. *)
Definition recordable (r : result) : bool :=
  negb (truthy (category r)
        && negb (eq_str (category r) (lit "Uncategorized")))
  || hashable (category r).

(** ** The rows of the SBI and Axis tables, line by line *)

(** The body of the loop [for i in range(count)] of the SBI extractor
    on the lines of the three cells of a row. *)
Definition sbi_line (dates details amounts : list str) (i : nat)
  : list txn :=
  match nth_error dates i, nth_error details i, nth_error amounts i with
  | Some d, Some det, Some amt_raw =>
      if fgt (parse_amount amt_raw) fzero
      then [ {| txn_date := d; txn_details := det;
                txn_amount := parse_amount amt_raw;
                txn_type := if contains [67%N] amt_raw
                            then lit "Credit" else lit "Debit" |} ]
      else []
  | _, _, _ => []
  end.

(** The test the SBI extractor makes on a row before it splits it. *)
Definition sbi_row_usable (row : list cell) : bool :=
  (3 <=? List.length row)%nat
  && cell_truthy (nth 0 row None)
  && cell_truthy (nth 1 row None)
  && cell_truthy (nth 2 row None).

(** The tuple [t] is what line [i] of the three cells of [row] gives. *)
Definition sbi_emits (row : list cell) (i : nat) (t : txn) : Prop :=
  sbi_row_usable row = true
  /\ exists amt_raw,
       nth_error (split_char newline (cell_str (nth 0 row None))) i
       = Some (txn_date t)
       /\ nth_error (split_char newline (cell_str (nth 1 row None))) i
          = Some (txn_details t)
       /\ nth_error (split_char newline (cell_str (nth 2 row None))) i
          = Some amt_raw
       /\ txn_amount t = parse_amount amt_raw
       /\ fgt (txn_amount t) fzero = true
       /\ txn_type t = (if contains [67%N] amt_raw
                        then lit "Credit" else lit "Debit").

(** [c and c.strip()] for a cell of an Axis row *)
Definition has_text (c : cell) : bool :=
  match c with
  | Some s => match strip s with [] => false | _ :: _ => true end
  | None => false
  end.

(** The rows of a table the Axis extractor reads: all of them, or all
    but the first when the first cell of the table holds [Tran Date]. *)
Definition axis_rows (t : table) : list (list cell) :=
  match t with
  | (first :: _) :: _ =>
      if contains (lit "Tran Date") (cell_str first) then skipn 1 t else t
  | _ => t
  end.

(** The tuple [t] is what the Axis extractor makes of [row]: the debit
    column decides when it holds text, the credit column otherwise. *)
Definition axis_emits (row : list cell) (t : txn) : Prop :=
  (5 <= List.length row)%nat
  /\ nth 0 row None = Some (txn_date t)
  /\ txn_date t <> []
  /\ txn_details t = match nth 2 row None with
                     | Some ((_ :: _) as s) => replace [newline] (lit " ") s
                     | _ => []
                     end
  /\ fgt (txn_amount t) fzero = true
  /\ ((has_text (nth 3 row None) = true
       /\ txn_type t = lit "Debit"
       /\ txn_amount t = parse_amount (cell_str (nth 3 row None)))
      \/ (has_text (nth 3 row None) = false
          /\ has_text (nth 4 row None) = true
          /\ txn_type t = lit "Credit"
          /\ txn_amount t = parse_amount (cell_str (nth 4 row None)))).

(** * Properties *)

Import Re.

(** ** Strings and the error monad *)

Lemma str_eqb_eq (a b : str) : str_eqb a b = true <-> a = b.
Proof.
  revert b; induction a as [|x a IH]; intros [|y b]; simpl;
    try (split; [discriminate | discriminate]); try tauto.
  rewrite andb_true_iff, N.eqb_eq, IH.
  split; [intros [-> ->]; reflexivity | intros H; inversion H; auto].
Qed.

Lemma str_eqb_refl (a : str) : str_eqb a a = true.
Proof. apply str_eqb_eq; reflexivity. Qed.

Lemma bind_ok (A B : Type) (m : res A) (k : A -> res B) (b : B) :
  bind m k = Ok b -> exists a, m = Ok a /\ k a = Ok b.
Proof. destruct m as [a|e]; simpl; [eauto | discriminate]. Qed.

Lemma mapM_Forall2 (A B : Type) (f : A -> res B) (l : list A) (l' : list B) :
  mapM f l = Ok l' <-> Forall2 (fun a b => f a = Ok b) l l'.
Proof.
  revert l'; induction l as [|a l IH]; intros l'; simpl.
  - split; [intros H; inversion H; constructor | intros H; inversion H; reflexivity].
  - split.
    + intros H. apply bind_ok in H as (b & Hb & H).
      apply bind_ok in H as (bs & Hbs & H). inversion H; subst.
      constructor; [assumption | apply IH; assumption].
    + intros H. inversion H as [|? b ? bs Hb Hbs]; subst.
      rewrite Hb; simpl. apply IH in Hbs. rewrite Hbs; reflexivity.
Qed.

Lemma mapM_length (A B : Type) (f : A -> res B) (l : list A) (l' : list B) :
  mapM f l = Ok l' -> length l' = length l.
Proof.
  intros H. apply mapM_Forall2 in H.
  symmetry; eapply Forall2_length; eassumption.
Qed.

(** ** The router *)

Lemma all_high_spec (th : float) (res : list result) :
  all_high th res = true <->
  forall r, In r res ->
    ai_agent.verification_status r = ai_verified /\ fge (confidence r) th = true.
Proof.
  unfold all_high. rewrite forallb_forall.
  split; intros H r Hr; specialize (H r Hr).
  - apply andb_true_iff in H as [Hc Hs]. apply str_eqb_eq in Hs. auto.
  - destruct H as [Hs Hc]. rewrite Hc. apply str_eqb_eq in Hs. rewrite Hs. reflexivity.
Qed.

Lemma router_behavioral (th : float) (res : list result) :
  router th res = behavioral_analysis <-> res <> [] /\ all_high th res = true.
Proof.
  unfold router, router_path.
  destruct res as [|r res].
  - cbn. split; [discriminate | intros [H _]; contradiction].
  - destruct (all_high th (r :: res)); cbn.
    + split; [intros _; split; [discriminate | reflexivity] | reflexivity].
    + split; [discriminate | intros [_ H]; discriminate].
Qed.

Lemma router_two_way (th : float) (res : list result) :
  router th res = behavioral_analysis \/ router th res = mark_needs_verification.
Proof. unfold router. destruct (str_eqb _ _); auto. Qed.

Lemma router_flag (th : float) (res : list result) :
  router th res = mark_needs_verification <-> ~ (res <> [] /\ all_high th res = true).
Proof.
  rewrite <- router_behavioral.
  destruct (router_two_way th res) as [H|H]; rewrite H.
  - split; [discriminate | intros F; exfalso; apply F; reflexivity].
  - split; [intros _; discriminate | reflexivity].
Qed.

(** ** The merge step *)

Lemma tag_with_gemini_inv (th : float) (txs : list dict) (out : value)
      (merged : list result) :
  tag_with_gemini th txs out = Ok merged ->
  (txs = [] /\ merged = []) \/
  (txs <> [] /\
   exists items rm,
     py_iter out = Ok items /\ results_map_from [] items = Ok rm /\
     Forall2 (fun t r => merge_one th rm t = Ok r) txs merged).
Proof.
  unfold tag_with_gemini. destruct txs as [|t txs].
  - intros H; inversion H; auto.
  - intros H. right. split; [discriminate|].
    apply bind_ok in H as (items & Hi & H).
    apply bind_ok in H as (rm & Hrm & H).
    exists items, rm. repeat split; try assumption.
    apply mapM_Forall2; assumption.
Qed.

Lemma tag_with_gemini_length (th : float) (txs : list dict) (out : value)
      (merged : list result) :
  tag_with_gemini th txs out = Ok merged -> length merged = length txs.
Proof.
  intros H. apply tag_with_gemini_inv in H as [[-> ->]|(_ & items & rm & _ & _ & H)].
  - reflexivity.
  - symmetry; eapply Forall2_length; eassumption.
Qed.

(** Every entry of the map built from the oracle output holds an id. *)
Lemma kfind_In (V : Type) (m : kdict V) (k : value) (v : V) :
  kfind m k = Some v -> exists k', In (k', v) m.
Proof.
  induction m as [|[k' v'] m IH]; simpl; [discriminate|].
  destruct (key_eq k' k).
  - intros H; inversion H; subst. eauto.
  - intros H. destruct (IH H) as [k'' Hin]. eauto.
Qed.

Lemma kset_In (V : Type) (m : kdict V) (k : value) (v : V) (k0 : value) (v0 : V) :
  In (k0, v0) (kset m k v) -> v0 = v \/ In (k0, v0) m.
Proof.
  induction m as [|[k' v'] m IH]; simpl.
  - intros [H|[]]; inversion H; auto.
  - destruct (key_eq k' k); simpl.
    + intros [H|H]; [inversion H; auto | auto].
    + intros [H|H]; [auto | destruct (IH H); auto].
Qed.

Lemma results_map_has_id (out : list value) (m m' : kdict dict) :
  (forall k d, In (k, d) m -> has_key d (lit "id") = true) ->
  results_map_from m out = Ok m' ->
  forall k d, In (k, d) m' -> has_key d (lit "id") = true.
Proof.
  revert m. induction out as [|o out IH]; intros m Hm; simpl.
  - intros H; inversion H; subst; assumption.
  - destruct o as [| | | | |l|d0]; try (apply IH; assumption).
    destruct (has_key d0 (lit "id")) eqn:Hk; [|apply IH; assumption].
    intros H. apply bind_ok in H as (m1 & H1 & H).
    revert H. apply IH.
    unfold kdict_set in H1. destruct (hashable _); [|discriminate].
    inversion H1; subst. intros k d Hin.
    apply kset_In in Hin as [->|Hin]; [assumption | eauto].
Qed.

Lemma has_key_nonempty (d : dict) (k : str) : has_key d k = true -> d <> [].
Proof. destruct d; [discriminate | discriminate]. Qed.

(** The two outcomes of one merge turn. *)
Lemma merge_one_cases (th : float) (rm : kdict dict) (t : dict) (r : result) :
  (forall k d, In (k, d) rm -> has_key d (lit "id") = true) ->
  merge_one th rm t = Ok r ->
  (kdict_get rm (get t (lit "id")) = Ok None /\ r = missing_result t) \/
  (exists o, kdict_get rm (get t (lit "id")) = Ok (Some o) /\
             matched_result th t o = Ok r).
Proof.
  intros Hrm. unfold merge_one. intros H.
  apply bind_ok in H as (o & Ho & H).
  destruct o as [[|kv o]|].
  - exfalso. unfold kdict_get in Ho. destruct (hashable _); [|discriminate].
    inversion Ho as [Hf]. apply kfind_In in Hf as [k' Hin].
    apply Hrm in Hin. discriminate.
  - right. eauto.
  - left. inversion H; auto.
Qed.

Lemma matched_result_spec (th : float) (t o : dict) (r : result) :
  matched_result th t o = Ok r ->
  exists c,
    py_float (get_or o (lit "confidence") (VFloat fzero)) = Ok c /\
    confidence r = c /\
    ai_agent.verification_status r =
      (if fge c th
          && negb (truthy (get_or o (lit "requires_human_verification") (VBool false)))
       then ai_verified else required_human_verification) /\
    requires_human_verification r =
      str_eqb (ai_agent.verification_status r) required_human_verification.
Proof.
  unfold matched_result. intros H. apply bind_ok in H as (c & Hc & H).
  inversion H; subst; clear H. exists c. simpl. auto.
Qed.

(** The status and the flag of a merged entry always agree. *)
Lemma merge_one_consistent (th : float) (rm : kdict dict) (t : dict) (r : result) :
  merge_one th rm t = Ok r ->
  (ai_agent.verification_status r = ai_verified /\ requires_human_verification r = false)
  \/ (ai_agent.verification_status r = required_human_verification
      /\ requires_human_verification r = true).
Proof.
  unfold merge_one. intros H. apply bind_ok in H as (o & _ & H).
  assert (Hm : (ai_agent.verification_status (missing_result t) = required_human_verification
                /\ requires_human_verification (missing_result t) = true))
    by (split; reflexivity).
  destruct o as [[|kv o]|]; try (inversion H; subst; auto).
  apply matched_result_spec in H as (c & _ & _ & Hs & Hf).
  rewrite Hf, Hs. destruct (fge c th && _); [left | right]; split; reflexivity.
Qed.

Lemma tag_with_gemini_consistent (th : float) (txs : list dict) (out : value)
      (merged : list result) :
  tag_with_gemini th txs out = Ok merged ->
  Forall (fun r =>
            (ai_agent.verification_status r = ai_verified
             /\ requires_human_verification r = false)
            \/ (ai_agent.verification_status r = required_human_verification
                /\ requires_human_verification r = true)) merged.
Proof.
  intros H. apply tag_with_gemini_inv in H as [[_ ->]|(_ & items & rm & _ & _ & H)].
  - constructor.
  - induction H as [|t r txs' merged' Hr _ IH]; constructor; [|assumption].
    eapply merge_one_consistent; eassumption.
Qed.

(** ** Persistence *)

Lemma firstn_subset (A : Type) (n : nat) (l : list A) (x : A) :
  In x (firstn n l) -> In x l.
Proof.
  revert l; induction n as [|n IH]; intros [|a l]; simpl; try tauto.
  intros [H|H]; [left; assumption | right; apply IH; assumption].
Qed.

Section PersistFacts.
Variable S : Type.
Variable execute : S -> update -> res S.

(** The updates executed are those of a prefix of the results, in order. *)
Lemma persist_loop_prefix (results : list result) (s : S) (cats : kdict unit) :
  exists n, snd (fst (persist_loop execute s cats results))
            = map update_of (firstn n results).
Proof.
  revert s cats. induction results as [|r rest IH]; intros s cats; simpl.
  - exists 0%nat; reflexivity.
  - destruct (execute s (update_of r)) as [s'|e]; [|exists 0%nat; reflexivity].
    destruct (if truthy (category r) && _ then _ else _) as [cats'|e].
    + destruct (IH s' cats') as [n Hn].
      destruct (persist_loop execute s' cats' rest) as [[s'' w] c].
      exists (Datatypes.S n). simpl in *. rewrite Hn; reflexivity.
    + exists 1%nat. reflexivity.
Qed.

Lemma persist_results_prefix (s : S) (results : list result)
      (user_id user_email : option str) :
  exists n, written (persist_results execute s results user_id user_email)
            = map update_of (firstn n results).
Proof.
  unfold persist_results. destruct results as [|r rest].
  - exists 0%nat; reflexivity.
  - destruct (persist_loop_prefix (r :: rest) s []) as [n Hn].
    destruct (persist_loop execute s [] (r :: rest)) as [[s' w] c].
    exists n. destruct c; simpl in *; assumption.
Qed.

Lemma written_from_results (s : S) (results : list result)
      (user_id user_email : option str) (u : update) :
  In u (written (persist_results execute s results user_id user_email)) ->
  exists r, In r results /\ u = update_of r.
Proof.
  destruct (persist_results_prefix s results user_id user_email) as [n ->].
  intros H. apply in_map_iff in H as (r & <- & Hr).
  exists r; split; [eapply firstn_subset; eassumption | reflexivity].
Qed.

(** The loop ends at the first update the store rejects. *)
Lemma persist_loop_stops (before after : list result) (r : result)
      (s s' : S) (cats : kdict unit) (e : exn) :
  Forall (fun x => hashable (category x) = true) before ->
  exec_all execute s (map update_of before) = Ok s' ->
  execute s' (update_of r) = Raise e ->
  persist_loop execute s cats (before ++ r :: after)
  = (s', map update_of before, Raise e).
Proof.
  intros Hh. revert s cats.
  induction Hh as [|b before Hb _ IH]; intros s cats; simpl.
  - intros H Hr; inversion H; subst. rewrite Hr. reflexivity.
  - intros H Hr. apply bind_ok in H as (s1 & H1 & H). rewrite H1.
    unfold kdict_set. rewrite Hb.
    destruct (truthy (category b) && _).
    + rewrite (IH _ (kset cats (category b) tt) H Hr). reflexivity.
    + rewrite (IH _ cats H Hr). reflexivity.
Qed.

Lemma persist_loop_all (results : list result) (s s' : S) (cats : kdict unit) :
  Forall (fun x => hashable (category x) = true) results ->
  exec_all execute s (map update_of results) = Ok s' ->
  exists cats',
    persist_loop execute s cats results = (s', map update_of results, Ok cats').
Proof.
  intros Hh. revert s cats. induction Hh as [|b rest Hb _ IH]; intros s cats; simpl.
  - intros H; inversion H; subst. eauto.
  - intros H. apply bind_ok in H as (s1 & H1 & H). rewrite H1.
    unfold kdict_set. rewrite Hb.
    destruct (truthy (category b) && _).
    + destruct (IH _ (kset cats (category b) tt) H) as (c & ->). eauto.
    + destruct (IH _ cats H) as (c & ->). eauto.
Qed.
End PersistFacts.

(** The same for results that are recordable. *)
Section PersistRecordable.
Variable S : Type.
Variable execute : S -> update -> res S.

(** What the loop does with the category of a recordable result. *)
Lemma recordable_added (r : result) (cats : kdict unit) :
  recordable r = true ->
  exists cats',
    (if truthy (category r) && negb (eq_str (category r) (lit "Uncategorized"))
     then kdict_set cats (category r) tt else Ok cats) = Ok cats'.
Proof.
  unfold recordable, kdict_set.
  destruct (truthy (category r) && negb (eq_str (category r) (lit "Uncategorized")));
    simpl; intros H; [rewrite H|]; eauto.
Qed.

(** The loop ends at the first update the store rejects. *)
Lemma persist_loop_stops_at (before after : list result) (r : result)
      (s s' : S) (cats : kdict unit) (e : exn) :
  Forall (fun x => recordable x = true) before ->
  exec_all execute s (map update_of before) = Ok s' ->
  execute s' (update_of r) = Raise e ->
  persist_loop execute s cats (before ++ r :: after)
  = (s', map update_of before, Raise e).
Proof.
  intros Hh. revert s cats.
  induction Hh as [|b before Hb _ IH]; intros s cats; simpl.
  - intros H Hr; inversion H; subst. rewrite Hr. reflexivity.
  - intros H Hr. apply bind_ok in H as (s1 & H1 & H). rewrite H1.
    destruct (@recordable_added b cats Hb) as (cats1 & ->).
    rewrite (IH _ cats1 H Hr). reflexivity.
Qed.

Lemma persist_loop_through (results : list result) (s s' : S)
      (cats : kdict unit) :
  Forall (fun x => recordable x = true) results ->
  exec_all execute s (map update_of results) = Ok s' ->
  exists cats',
    persist_loop execute s cats results = (s', map update_of results, Ok cats').
Proof.
  intros Hh. revert s cats. induction Hh as [|b rest Hb _ IH]; intros s cats; simpl.
  - intros H; inversion H; subst. eauto.
  - intros H. apply bind_ok in H as (s1 & H1 & H). rewrite H1.
    destruct (@recordable_added b cats Hb) as (cats1 & ->).
    destruct (IH _ cats1 H) as (c & ->). eauto.
Qed.
End PersistRecordable.

(** ** Floats: the sign of a rounded value *)

Lemma nonneg_float_fge (f : float) : nonneg_float f = true -> fge f fzero = true.
Proof. destruct f as [s|[|]| |[|] m e]; simpl; try discriminate; reflexivity. Qed.

Lemma fge_zero_nonneg (f : float) : fge f fzero = true -> nonneg_float f = true.
Proof. destruct f as [s|[|]| |[|] m e]; simpl; try discriminate; reflexivity. Qed.

Lemma shr_1_nonneg (mrs : shr_record) :
  (0 <= shr_m mrs)%Z -> (0 <= shr_m (shr_1 mrs))%Z.
Proof.
  destruct mrs as [m r s]; simpl.
  destruct m as [|[p|p|]|p]; simpl; intros H; try lia.
Qed.

Lemma iter_pos_invariant (A : Type) (P : A -> Prop) (f : A -> A) :
  (forall x, P x -> P (f x)) -> forall n x, P x -> P (iter_pos f n x).
Proof.
  intros Hf. induction n as [n IH|n IH|]; intros x Hx; simpl; auto.
Qed.

Lemma shr_nonneg (mrs : shr_record) (e n : Z) :
  (0 <= shr_m mrs)%Z -> (0 <= shr_m (fst (shr mrs e n)))%Z.
Proof.
  intros H. unfold shr. destruct n; simpl; try assumption.
  apply (iter_pos_invariant (fun x => (0 <= shr_m x)%Z)); [apply shr_1_nonneg | assumption].
Qed.

Lemma shr_fexp_nonneg (m e : Z) (l : location) :
  (0 <= m)%Z -> (0 <= shr_m (fst (shr_fexp prec emax m e l)))%Z.
Proof.
  intros H. unfold shr_fexp. apply shr_nonneg.
  destruct l as [|[| |]]; simpl; assumption.
Qed.

Lemma round_nearest_even_nonneg (m : Z) (l : location) :
  (0 <= m)%Z -> (0 <= round_nearest_even m l)%Z.
Proof.
  intros H. destruct l as [|[| |]]; simpl; try lia.
  destruct (Z.even m); lia.
Qed.

Lemma binary_round_aux_nonneg (m e : Z) (l : location) :
  (0 <= m)%Z -> nonneg_float (binary_round_aux prec emax false m e l) = true.
Proof.
  intros H. unfold binary_round_aux.
  pose proof (shr_fexp_nonneg e l H) as H1.
  destruct (shr_fexp prec emax m e l) as [mrs' e'].
  simpl in H1.
  pose proof (round_nearest_even_nonneg (loc_of_shr_record mrs') H1) as H2.
  pose proof (shr_fexp_nonneg e' loc_Exact H2) as H3.
  destruct (shr_fexp prec emax _ e' loc_Exact) as [mrs'' e''].
  simpl in H3.
  destruct (shr_m mrs'') as [|p|p]; simpl; try reflexivity.
  - destruct (Z.leb _ _); reflexivity.
  - lia.
Qed.

Lemma of_ratio_nonneg (num den : positive) :
  nonneg_float (of_ratio false num den) = true.
Proof.
  unfold of_ratio, SFdiv_core_binary.
  set (e' := Z.min _ _).
  set (m' := match (0 - 0 - e')%Z with Z0 => _ | Zpos _ => _ | Zneg _ => _ end).
  assert (Hm : (0 <= m')%Z).
  { subst m'. destruct (0 - 0 - e')%Z eqn:E; try lia.
    apply Z.shiftl_nonneg; lia. }
  pose proof (Z.div_pos m' (Zpos den) Hm ltac:(lia)) as Hq.
  unfold Z.div in Hq.
  destruct (Z.div_eucl m' (Zpos den)) as [q r]. simpl in Hq.
  apply binary_round_aux_nonneg; assumption.
Qed.

(** [round(x, 2)] keeps a value that is not negative non-negative. *)
Lemma round2_nonneg (x : float) :
  fge x fzero = true -> fge (round2 x) fzero = true.
Proof.
  intros H. apply nonneg_float_fge. apply fge_zero_nonneg in H.
  destruct x as [s|[|]| |[|] m e]; simpl in *; try discriminate; try reflexivity.
  destruct (hundredths m e); try reflexivity. apply of_ratio_nonneg.
Qed.

(** [round(x, 2)] of a finite value is the double of a two-digit decimal. *)
Lemma round2_two_decimals (x : float) :
  finite x = true -> two_decimals (round2 x).
Proof.
  destruct x as [s| | |s m e]; simpl; try discriminate; intros _.
  - exists s, 0%N. reflexivity.
  - destruct (hundredths m e) as [|n|n].
    + exists s, 0%N; reflexivity.
    + exists s, (Npos n). unfold of_decimal. simpl Z.max.
      change (Z.to_pos (10 ^ 0)) with 1%positive.
      rewrite Pos.mul_1_r. reflexivity.
    + exists s, 0%N; reflexivity.
Qed.

Lemma binary_round_aux_minus (m e : Z) (l : location) :
  (0 <= m)%Z -> minus_signed (binary_round_aux prec emax true m e l) = true.
Proof.
  intros H. unfold binary_round_aux.
  pose proof (shr_fexp_nonneg e l H) as H1.
  destruct (shr_fexp prec emax m e l) as [mrs' e'].
  simpl in H1.
  pose proof (round_nearest_even_nonneg (loc_of_shr_record mrs') H1) as H2.
  pose proof (shr_fexp_nonneg e' loc_Exact H2) as H3.
  destruct (shr_fexp prec emax _ e' loc_Exact) as [mrs'' e''].
  simpl in H3.
  destruct (shr_m mrs'') as [|p|p]; simpl; try reflexivity.
  - destruct (Z.leb _ _); reflexivity.
  - lia.
Qed.

Lemma of_ratio_minus (num den : positive) :
  minus_signed (of_ratio true num den) = true.
Proof.
  unfold of_ratio, SFdiv_core_binary.
  set (e' := Z.min _ _).
  set (m' := match (0 - 0 - e')%Z with Z0 => _ | Zpos _ => _ | Zneg _ => _ end).
  assert (Hm : (0 <= m')%Z).
  { subst m'. destruct (0 - 0 - e')%Z eqn:E; try lia.
    apply Z.shiftl_nonneg; lia. }
  pose proof (Z.div_pos m' (Zpos den) Hm ltac:(lia)) as Hq.
  unfold Z.div in Hq.
  destruct (Z.div_eucl m' (Zpos den)) as [q r]. simpl in Hq.
  apply binary_round_aux_minus; assumption.
Qed.

(** [round(x, 2)] keeps the minus sign of a negative value. *)
Lemma round2_minus (x : float) :
  fgt fzero x = true -> minus_signed (round2 x) = true.
Proof.
  destruct x as [s|[|]| |[|] m e]; simpl; try discriminate; try reflexivity.
  intros _. destruct (hundredths m e); try reflexivity. apply of_ratio_minus.
Qed.

Lemma minus_signed_not_positive (f : float) :
  minus_signed f = true -> fgt f fzero = false /\ fle f fzero = true.
Proof.
  destruct f as [[|]|[|]| |[|] m e]; simpl; try discriminate; auto.
Qed.

(** ** Extractors *)

Lemma Forall_flat_map (A B : Type) (P : B -> Prop) (f : A -> list B) (l : list A) :
  (forall a, In a l -> Forall P (f a)) -> Forall P (flat_map f l).
Proof.
  induction l as [|a l IH]; simpl; intros H; [constructor|].
  apply Forall_app; split; [apply H; left; reflexivity|].
  apply IH; intros b Hb; apply H; right; assumption.
Qed.

(** The SBI and the Axis extractors test [amount > 0] before they emit. *)
Lemma sbi_row_positive (row : list cell) :
  Forall (fun t => fgt (txn_amount t) fzero = true) (sbi_row row).
Proof.
  unfold sbi_row. destruct (_ && _); [|constructor].
  apply Forall_flat_map. intros [d [det amt]] _.
  destruct (fgt (parse_amount amt) fzero) eqn:E; [|constructor].
  constructor; [exact E | constructor].
Qed.

Lemma extract_sbi_positive (doc : pdf) :
  Forall (fun t => fgt (txn_amount t) fzero = true) (extract_sbi_statement doc).
Proof.
  unfold extract_sbi_statement.
  apply Forall_flat_map; intros p _. apply Forall_flat_map; intros t _.
  unfold sbi_table. destruct t as [|header rest]; [constructor|].
  destruct (negb _); [constructor|].
  destruct header as [|first header]; [constructor|].
  destruct (contains _ _); [|constructor].
  apply Forall_flat_map; intros row _. apply sbi_row_positive.
Qed.

Lemma axis_row_positive (row : list cell) :
  Forall (fun t => fgt (txn_amount t) fzero = true) (axis_row row).
Proof.
  unfold axis_row. destruct (Nat.ltb _ _); [constructor|].
  destruct (nth 0 row None) as [[|c s]|]; try constructor.
  - match goal with
    | |- context [let '(_, _) := ?x in _] => destruct x as [amount t_type]
    end.
    destruct (fgt amount fzero) eqn:E; [|constructor].
    constructor; [exact E | constructor].
Qed.

Lemma extract_axis_positive (doc : pdf) :
  Forall (fun t => fgt (txn_amount t) fzero = true) (extract_axis_statement doc).
Proof.
  unfold extract_axis_statement.
  apply Forall_flat_map; intros p _. apply Forall_flat_map; intros t _.
  unfold axis_table. destruct t as [|header rest]; [constructor|].
  apply Forall_flat_map; intros row _. apply axis_row_positive.
Qed.

Lemma sbi_table_needs_first_date (t : table) :
  first_header_has_date t = false -> sbi_table t = [].
Proof.
  unfold sbi_table, first_header_has_date.
  destruct t as [|[|first header] rest]; try reflexivity.
  - intros _. destruct (negb _); reflexivity.
  - intros ->. destruct (negb _); reflexivity.
Qed.

Lemma flat_map_skip (A B : Type) (f : A -> list B) (l1 l2 : list A) (a : A) :
  f a = [] -> flat_map f (l1 ++ a :: l2) = flat_map f (l1 ++ l2).
Proof.
  intros H. rewrite !flat_map_app. simpl. rewrite H. reflexivity.
Qed.

(** ** What [clean_details] does to a text without a backslash *)

Lemma star_match_dead (A : Type) (p : char -> bool) (s : str)
      (k : str -> option A) :
  no_backslash s -> (forall s', no_backslash s' -> k s' = None) ->
  star_match p s k = None.
Proof.
  intros Hs Hk. induction s as [|c s IH]; simpl.
  - apply Hk; constructor.
  - destruct (p c); [|apply Hk; assumption].
    rewrite IH; [apply Hk; assumption | inversion Hs; assumption].
Qed.

(** A continuation that fails on every text without a backslash is never
    rescued by the pattern in front of it. *)
Lemma rmatch_dead (A : Type) (r : regex) :
  forall (s : str) (k : str -> option A),
    no_backslash s -> (forall s', no_backslash s' -> k s' = None) ->
    rmatch r s k = None.
Proof.
  induction r as [|p|r1 IH1 r2 IH2|r1 IH1 r2 IH2|p]; intros s k Hs Hk; simpl.
  - apply Hk; assumption.
  - destruct s as [|c s]; [reflexivity|].
    destruct (p c); [|reflexivity]. apply Hk. inversion Hs; assumption.
  - apply IH1; [assumption|]. intros s' Hs'. apply IH2; assumption.
  - rewrite IH1 by assumption. apply IH2; assumption.
  - apply star_match_dead; assumption.
Qed.

Lemma ci_backslash (c : char) : ci backslash c = true -> c = backslash.
Proof.
  unfold ci, ascii_lower, backslash, in_range. simpl.
  rewrite !orb_false_r.
  destruct ((65 <=? c)%N && (c <=? 90)%N) eqn:E.
  - apply andb_true_iff in E as [E1 E2].
    apply N.leb_le in E1, E2. intros H. apply N.eqb_eq in H. lia.
  - intros H. apply N.eqb_eq in H. assumption.
Qed.

Lemma needs_backslash (A : Type) (p : char -> bool) (r : regex) (s : str)
      (k : str -> option A) :
  (forall c, p c = true -> c = backslash) ->
  no_backslash s -> rmatch (Seq (Cls p) r) s k = None.
Proof.
  intros Hp Hs. simpl. destruct s as [|c s]; [reflexivity|].
  destruct (p c) eqn:E; [|reflexivity].
  inversion Hs as [|? ? Hc _]; subst. apply Hp in E. contradiction.
Qed.

Lemma only_backslash (c : char) : only backslash c = true -> c = backslash.
Proof. unfold only. apply N.eqb_eq. Qed.

Lemma match_at_needs_backslash (r1 r2 : regex) (p : char -> bool) (s : str) :
  (forall c, p c = true -> c = backslash) ->
  no_backslash s -> match_at (Seq r1 (Seq (Cls p) r2)) s = None.
Proof.
  intros Hp Hs. unfold match_at.
  change (rmatch (Seq r1 (Seq (Cls p) r2)) s (fun rest => Some rest))
    with (rmatch r1 s (fun s' => rmatch (Seq (Cls p) r2) s'
                                        (fun rest => Some rest))).
  rewrite rmatch_dead; [reflexivity | assumption |].
  intros s' Hs'. apply needs_backslash; assumption.
Qed.

Lemma boilerplate_prefix_dead (s : str) :
  no_backslash s -> match_at boilerplate_prefix s = None.
Proof. apply match_at_needs_backslash. apply ci_backslash. Qed.

Lemma leading_dashes_dead (s : str) :
  no_backslash s -> match_at leading_dashes s = None.
Proof. apply match_at_needs_backslash. apply only_backslash. Qed.

Lemma backslash_s_run_dead (s : str) :
  no_backslash s -> sub backslash_s_run (lit " ") s = s.
Proof.
  unfold sub. induction 1 as [|c s Hc Hs IH]; [reflexivity|].
  simpl sub_from. unfold match_at, backslash_s_run.
  cbn [rmatch]. destruct (only backslash c) eqn:E.
  - apply only_backslash in E. contradiction.
  - fold backslash_s_run. rewrite IH. reflexivity.
Qed.

(** X14. On a text without a backslash [clean_details] is [str.strip]:
    neither the boilerplate, nor the dashes, nor the inner white space
    are touched. *)
Lemma clean_details_without_backslash (s : str) :
  no_backslash s -> clean_details (Some s) = strip s.
Proof.
  intros Hs. unfold clean_details. destruct s as [|c s]; [reflexivity|].
  unfold sub_start.
  rewrite (boilerplate_prefix_dead Hs), (leading_dashes_dead Hs).
  rewrite (backslash_s_run_dead Hs). reflexivity.
Qed.

(** ** Routing *)

(** C1. The batch takes the [behavioral_analysis] branch if and only if
    the result list is not empty and every entry is [ai_verified] with a
    confidence that meets the threshold; every other batch goes to
    [mark_needs_verification].  A merged batch whose entries all have
    confidence 0.90 and need no human verification is routed, at the
    threshold 0.85, to [behavioral_analysis]; with the confidence of one
    entry changed to 0.50 the whole batch goes to
    [mark_needs_verification]; so does the empty result list. *)
Theorem router_all_or_nothing :
  (forall th res,
      router th res = behavioral_analysis <->
      res <> [] /\
      forall r, In r res ->
        ai_agent.verification_status r = ai_verified /\
        fge (confidence r) th = true)
  /\ (forall th res,
        router th res <> behavioral_analysis ->
        router th res = mark_needs_verification)
  /\ (forall txs out merged,
        txs <> [] ->
        tag_with_gemini default_threshold txs out = Ok merged ->
        (forall r, In r merged ->
           confidence r = f_0_90 /\ requires_human_verification r = false) ->
        router default_threshold merged = behavioral_analysis
        /\ forall before r after,
             merged = before ++ r :: after ->
             router default_threshold
                    (before ++ with_confidence r f_0_50 :: after)
             = mark_needs_verification)
  /\ (forall th, router th [] = mark_needs_verification).
Proof.
  split; [|split; [|split]].
  - intros th res. rewrite router_behavioral, all_high_spec. reflexivity.
  - intros th res H. destruct (router_two_way th res); [contradiction | assumption].
  - intros txs out merged Hne Htag Hall. split.
    + apply router_behavioral. split.
      * intros ->. apply tag_with_gemini_length in Htag.
        destruct txs; [contradiction | discriminate].
      * apply all_high_spec. intros r Hr.
        destruct (Hall r Hr) as [Hc Hf].
        pose proof Htag as Hcons. apply tag_with_gemini_consistent in Hcons.
        rewrite Forall_forall in Hcons.
        destruct (Hcons r Hr) as [[Hs _]|[_ Hf']]; [|congruence].
        split; [assumption | rewrite Hc; reflexivity].
    + intros before r after _. apply router_flag. intros [_ Hhigh].
      rewrite all_high_spec in Hhigh.
      destruct (Hhigh (with_confidence r f_0_50)) as [_ Hc].
      { apply in_or_app; right; left; reflexivity. }
      simpl in Hc. discriminate.
  - intros th. reflexivity.
Qed.

Lemma router_all_or_nothing_witness :
  router default_threshold sample_merged = behavioral_analysis
  /\ router default_threshold
            ([sample_result 1] ++ with_confidence (sample_result 2) f_0_50 :: [])
     = mark_needs_verification.
Proof.
  destruct router_all_or_nothing as (_ & _ & H & _).
  destruct (H sample_txs sample_out sample_merged) as [HA HB].
  - discriminate.
  - vm_compute. reflexivity.
  - intros r [<-|[<-|[]]]; split; reflexivity.
  - split; [exact HA | apply (HB [sample_result 1] (sample_result 2) [])].
    reflexivity.
Defined.

(** ** The verification decision *)

Lemma oracle_result_in_merge (out : value) (items : list value)
      (rm : kdict dict) (t : dict) :
  py_iter out = Ok items -> results_map_from [] items = Ok rm ->
  oracle_result_for out t = kdict_get rm (get t (lit "id")).
Proof. intros Hi Hrm. unfold oracle_result_for. rewrite Hi; simpl. rewrite Hrm. reflexivity. Qed.

Lemma merge_one_decision (th : float) (out : value) (items : list value)
      (rm : kdict dict) (t : dict) (r : result) :
  py_iter out = Ok items -> results_map_from [] items = Ok rm ->
  merge_one th rm t = Ok r -> decision_recorded th out t r.
Proof.
  intros Hi Hrm Hr o Ho.
  erewrite oracle_result_in_merge in Ho by eassumption.
  assert (Hids : forall k d, In (k, d) rm -> has_key d (lit "id") = true).
  { eapply results_map_has_id; [|eassumption]. intros k d []. }
  destruct (merge_one_cases _ _ _ Hids Hr) as [[Hn _]|(o' & Ho' & Hm)]; [congruence|].
  assert (o' = o) by congruence. subst o'.
  apply matched_result_spec in Hm as (c & Hc & Hconf & Hs & _).
  exists c. split; [assumption|]. split; [assumption|].
  assert (Hne : ai_verified <> required_human_verification)
    by (vm_compute; discriminate).
  rewrite Hs. split; [|split].
  - destruct (fge c th), (truthy _); simpl;
      (split;
       [ intros H; first [split; reflexivity
                         | exfalso; apply Hne; symmetry; exact H]
       | intros [H1 H2]; first [reflexivity | discriminate] ]).
  - destruct (_ && _); auto.
  - intros Hflag. unfold get, get_or in *.
    destruct (dget o (lit "requires_human_verification")) as [v|]; [|discriminate].
    subst v. simpl. rewrite andb_false_r. reflexivity.
Qed.

(** C2. For every oracle result matched to a transaction by the merge
    step, the recorded status is [ai_verified] exactly when the
    confidence is at least the threshold and the result's
    [requires_human_verification] flag is false; it is
    [required_human_verification] otherwise, and always when the oracle
    sets the flag to [true].  The threshold is the caller's, 0.85 when
    the caller gives none. *)
Theorem merge_decision_policy :
  (forall th txs out merged,
      tag_with_gemini th txs out = Ok merged ->
      Forall2 (decision_recorded th out) txs merged)
  /\ of_str (lit "0.85") = Some default_threshold
  /\ (forall (S : Type) (execute : S -> update -> res S) s fetched out uid email,
        run_agent execute s fetched out None uid email
        = run_agent execute s fetched out (Some default_threshold) uid email)
  /\ (forall (S : Type) (execute : S -> update -> res S) s txs out th uid email
             rep eff,
        run_agent execute s (Ok txs) out (Some th) uid email = Ok (rep, eff) ->
        exists merged,
          tag_with_gemini th txs out = Ok merged /\
          Forall2 (decision_recorded th out) txs merged).
Proof.
  assert (H1 : forall th txs out merged,
             tag_with_gemini th txs out = Ok merged ->
             Forall2 (decision_recorded th out) txs merged).
  { intros th txs out merged H.
    apply tag_with_gemini_inv in H as [[-> ->]|(_ & items & rm & Hi & Hrm & H)].
    - constructor.
    - induction H as [|t r txs' merged' Hr _ IH]; constructor; [|assumption].
      eapply merge_one_decision; eassumption. }
  split; [exact H1|]. split; [vm_compute; reflexivity|]. split; [reflexivity|].
  intros S execute s txs out th uid email rep eff H.
  unfold run_agent in H. simpl in H.
  apply bind_ok in H as (merged & Hm & _).
  exists merged. split; [assumption | apply H1; assumption].
Qed.

Lemma merge_decision_policy_witness :
  Forall2 (decision_recorded default_threshold sample_out) sample_txs sample_merged.
Proof.
  apply (proj1 merge_decision_policy). vm_compute. reflexivity.
Defined.

(** ** Totality of the merge on usable answers *)

Lemma kfind_kset (V : Type) (m : kdict V) (k : value) (v : V) (k0 : value) (v0 : V) :
  kfind (kset m k v) k0 = Some v0 -> v0 = v \/ kfind m k0 = Some v0.
Proof.
  induction m as [|[k' v'] m IH]; simpl.
  - destruct (key_eq k k0); [intros H; inversion H; auto | discriminate].
  - destruct (key_eq k' k) eqn:E; simpl.
    + destruct (key_eq k' k0); [intros H; inversion H; auto | auto].
    + destruct (key_eq k' k0); [auto | apply IH].
Qed.

Lemma results_map_total (items : list value) (m : kdict dict) :
  Forall usable_answer items ->
  exists m', results_map_from m items = Ok m' /\
    forall k d, kfind m' k = Some d ->
      kfind m k = Some d \/ (In (VDict d) items /\ has_key d (lit "id") = true).
Proof.
  intros H. revert m. induction H as [|o items Ho _ IH]; intros m; simpl.
  - exists m; split; [reflexivity | auto].
  - assert (Hskip : exists m', results_map_from m items = Ok m' /\
              forall k d, kfind m' k = Some d ->
                kfind m k = Some d \/
                ((o = VDict d \/ In (VDict d) items) /\ has_key d (lit "id") = true)).
    { destruct (IH m) as (m' & Hm' & Hin). exists m'; split; [assumption|].
      intros k d Hk. destruct (Hin k d Hk) as [|[? ?]]; auto. }
    destruct o as [| | | | |l|d0]; try exact Hskip.
    destruct (has_key d0 (lit "id")) eqn:Hk; [|exact Hskip].
    destruct (Ho Hk) as [Hh _]. unfold kdict_set. rewrite Hh. simpl.
    destruct (IH (kset m (get d0 (lit "id")) d0)) as (m' & Hm' & Hin).
    exists m'; split; [assumption|].
    intros k d Hkd. destruct (Hin k d Hkd) as [Hf|[? ?]]; auto.
    apply kfind_kset in Hf as [->|Hf]; auto.
Qed.

(** X1. On an oracle answer whose entries are usable the merge returns
    one entry per transaction, in order, and gives the default entry to
    every transaction without a matching result. *)
Lemma merge_total_on_usable (th : float) (txs : list dict) (items : list value) :
  Forall usable_answer items ->
  Forall (fun t => hashable (get t (lit "id")) = true) txs ->
  exists merged,
    tag_with_gemini th txs (VList items) = Ok merged /\
    length merged = length txs /\
    Forall2 (fun t r => r_id r = get t (lit "id") /\
                        defaulted (VList items) t r) txs merged.
Proof.
  intros Hu Hh. destruct txs as [|t0 txs0].
  - exists []. repeat split; constructor.
  - remember (t0 :: txs0) as txs eqn:Etxs.
    destruct (results_map_total [] Hu) as (rm & Hrm & Hin).
    assert (Hall : exists merged,
               mapM (merge_one th rm) txs = Ok merged /\
               Forall2 (fun t r => r_id r = get t (lit "id") /\
                                   defaulted (VList items) t r) txs merged).
    { clear Etxs. induction Hh as [|t txs' Ht _ IH].
      - exists []; split; [reflexivity | constructor].
      - destruct IH as (merged' & Hm' & HF).
        assert (Hone : exists r, merge_one th rm t = Ok r /\
                   r_id r = get t (lit "id") /\ defaulted (VList items) t r).
        { unfold merge_one, kdict_get. rewrite Ht. simpl.
          destruct (kfind rm (get t (lit "id"))) as [o|] eqn:Hf.
          - destruct (Hin _ _ Hf) as [Hf'|[Hino Hk]]; [discriminate|].
            rewrite Forall_forall in Hu. specialize (Hu _ Hino Hk).
            destruct Hu as [_ [c Hc]].
            destruct o as [|kv o]; [discriminate|].
            unfold matched_result. rewrite Hc. simpl.
            eexists; split; [reflexivity|]. split; [reflexivity|].
            intros Hnone. exfalso. unfold oracle_result_for in Hnone.
            simpl in Hnone. rewrite Hrm in Hnone. simpl in Hnone.
            unfold kdict_get in Hnone. rewrite Ht, Hf in Hnone. discriminate.
          - eexists; split; [reflexivity|]. split; [reflexivity|].
            intros _. repeat split; reflexivity. }
        destruct Hone as (r & Hr & Hr').
        exists (r :: merged'). simpl. rewrite Hr. simpl. rewrite Hm'. simpl.
        split; [reflexivity | constructor; assumption]. }
    destruct Hall as (merged & Hm & HF). exists merged.
    assert (Htag : tag_with_gemini th txs (VList items) = Ok merged).
    { subst txs. unfold tag_with_gemini. simpl py_iter. cbn [bind].
      rewrite Hrm. cbn [bind]. exact Hm. }
    split; [exact Htag|]. split; [|exact HF].
    eapply mapM_length; eassumption.
Qed.

(** C3. The merge is not total: on an oracle answer that gives the
    confidence of a matched transaction as the word [high],
    [float(...)] raises [ValueError] and no result list is produced; a
    [null] confidence raises [TypeError]. *)
Theorem merge_raises_on_worded_confidence :
  tag_with_gemini default_threshold [sample_tx 1] worded_confidence_out
  = Raise ValueError
  /\ tag_with_gemini default_threshold [sample_tx 1] null_confidence_out
     = Raise TypeError.
Proof. split; vm_compute; reflexivity. Qed.

(** ** Amounts *)

(** C4 (counterexample). The row of a GPay line with the amount -12.5
    keeps a negative amount. *)
Lemma amount_claim_fails_on_negative : ~ amount_claim row_negative.
Proof. intros [H _]. vm_compute in H. discriminate. Qed.

(** C4 (amended). The amount of a materialised row is [float(amount)]
    rounded to two decimals, sign kept: it is [0.0] when the conversion
    raises; otherwise it has at most two decimal digits when the value
    is finite, it is non-negative when the value is, and when the value
    is negative it keeps the minus sign: it is a negative number or,
    when the value rounds to zero, the negative zero, and never a
    positive number. *)
Theorem amount_rounded_sign_kept :
  forall (normalize_date : option str -> option str)
         (stype uid : option str) (row : raw_row),
    let a := helper.amount (to_record normalize_date stype uid row) in
    (forall e, py_float (row_amount row) = Raise e -> a = fzero)
    /\ (forall x, py_float (row_amount row) = Ok x ->
          a = round2 x
          /\ (finite x = true -> two_decimals a)
          /\ (fge x fzero = true -> fge a fzero = true)
          /\ (fgt fzero x = true ->
              minus_signed a = true
              /\ fgt a fzero = false /\ fle a fzero = true)).
Proof.
  intros nd stype uid row a. subst a. simpl. unfold normalize_amount.
  split.
  - intros e ->. reflexivity.
  - intros x ->. split; [reflexivity|]. split; [|split].
    + apply round2_two_decimals.
    + apply round2_nonneg.
    + intros Hx. pose proof (round2_minus _ Hx) as Hm.
      split; [exact Hm | apply minus_signed_not_positive; exact Hm].
Qed.

Lemma amount_rounded_sign_kept_witness :
  helper.amount (to_record (fun d => d) None None row_425) = f_425
  /\ fge (helper.amount (to_record (fun d => d) None None row_425)) fzero = true
  /\ helper.amount (to_record (fun d => d) None None row_negative)
     = f_minus_12_5
  /\ minus_signed (helper.amount (to_record (fun d => d) None None row_negative))
     = true
  /\ helper.amount (to_record (fun d => d) None None row_small_negative)
     = S754_zero true.
Proof.
  destruct (amount_rounded_sign_kept (fun d => d) None None row_425) as [_ H].
  destruct (H f_425) as (H1 & _ & H3 & _); [vm_compute; reflexivity|].
  destruct (amount_rounded_sign_kept (fun d => d) None None row_negative)
    as [_ H'].
  destruct (H' f_minus_12_5) as (H1' & _ & _ & H4'); [vm_compute; reflexivity|].
  destruct (amount_rounded_sign_kept (fun d => d) None None row_small_negative)
    as [_ H''].
  destruct (H'' (of_decimal true 1 (-3))) as (H1'' & _); [vm_compute; reflexivity|].
  split; [rewrite H1; vm_compute; reflexivity|].
  split; [apply H3; vm_compute; reflexivity|].
  split; [rewrite H1'; vm_compute; reflexivity|].
  split; [apply H4'; vm_compute; reflexivity|].
  rewrite H1''. vm_compute. reflexivity.
Defined.

(** ** Extracted amounts *)

(** The SBI and the Axis extractors, and the look-ahead block of the
    PhonePe extractor, emit a tuple only after the test [amount > 0]. *)
Lemma phonepe_block_positive (date_str line : str) (following : list str) :
  Forall (fun t => fgt (txn_amount t) fzero = true)
         (phonepe_block date_str line following).
Proof.
  unfold phonepe_block.
  destruct (fgt (phonepe_lookahead (firstn 3 following)) fzero) eqn:E;
    [|constructor].
  constructor; [exact E | constructor].
Qed.

(** A negative amount on a GPay line reaches the record unchanged. *)
Lemma gpay_negative_amount_kept :
  extract_gpay_statement [gpay_negative_page]
  = Ok [ {| txn_date := lit "01Nov,2025";
            txn_details := lit "PaidtoBlinkit";
            txn_amount := f_minus_12_5;
            txn_type := lit "Debit" |} ]
  /\ helper.amount (to_record (fun d => d) None None row_negative)
     = f_minus_12_5.
Proof. split; vm_compute; reflexivity. Qed.

(** C5. Two extractors emit a tuple whose amount is zero.  The GPay
    extractor makes no test of the amount.  The PhonePe extractor takes
    a line with a date and the word [Credit] or [Debit] as a whole
    transaction and emits it with the value of its last token, also when
    that token is no number; on the two lines its own comments quote,
    the amount of the second line is never read.  The round trip of
    [parse_amount] on ["425.00"] holds. *)
Theorem extractors_emit_zero_amount :
  extract_gpay_statement [gpay_zero_page]
  = Ok [ {| txn_date := lit "01Nov,2025";
            txn_details := lit "PaidtoBlinkit";
            txn_amount := fzero;
            txn_type := lit "Debit" |} ]
  /\ extract_phonepe_statement [phonepe_two_line_page]
     = [ {| txn_date := lit "Nov 25, 2025";
            txn_details := lit "Received from SUPARNA";
            txn_amount := fzero;
            txn_type := lit "Credit" |} ]
  /\ fgt fzero fzero = false
  /\ parse_amount (lit "425.00") = f_425.
Proof. repeat split; vm_compute; reflexivity. Qed.

(** ** Write failures *)

(** C6 (counterexample). With three results and a store that rejects
    the update of the second, the third is never written although the
    store would take it. *)
Lemma writes_not_isolated :
  ~ writes_isolated sample_execute []
      [sample_result 1; sample_result 2; sample_result 3].
Proof.
  intros H.
  specialize (H [sample_result 1] (sample_result 2) [sample_result 3]
                eq_refl).
  assert (Hin : In (update_of (sample_result 3))
                   (written (persist_results sample_execute []
                      [sample_result 1; sample_result 2; sample_result 3]
                      None None))).
  { apply H.
    - intros s'. exists StoreError. reflexivity.
    - intros x [<-|[<-|[]]] s'; eexists; reflexivity.
    - right; left; reflexivity. }
  vm_compute in Hin. destruct Hin as [Heq|[]]. discriminate.
Qed.

(** C6 (amended). [persist_results] catches a write failure and logs
    it, but the update that raises ends the batch: when the results
    before it are written and recordable (the category of each is
    empty, ["Uncategorized"] or a hashable value), they are the results
    written; the failing one and the results after it are not, and no
    budget is checked.  When no update raises and every result is
    recordable, every result is written and nothing is logged. *)
Theorem write_failure_ends_batch :
  forall (S : Type) (execute : S -> update -> res S) (s : S)
         (user_id user_email : option str),
    (forall before r after s' e,
        Forall (fun x => recordable x = true) before ->
        exec_all execute s (map update_of before) = Ok s' ->
        execute s' (update_of r) = Raise e ->
        let eff := persist_results execute s (before ++ r :: after)
                                   user_id user_email in
        written eff = map update_of before
        /\ logged eff = Some e
        /\ store_after eff = s'
        /\ budget_checked eff = [])
    /\ (forall results s',
          Forall (fun x => recordable x = true) results ->
          exec_all execute s (map update_of results) = Ok s' ->
          let eff := persist_results execute s results user_id user_email in
          written eff = map update_of results
          /\ logged eff = None
          /\ store_after eff = s').
Proof.
  intros S execute s uid email. split.
  - intros before r after s' e Hh Hex Hr eff. subst eff.
    unfold persist_results.
    destruct (before ++ r :: after) eqn:E; [destruct before; discriminate|].
    rewrite <- E.
    rewrite (@persist_loop_stops_at S execute before after r s s' [] e Hh Hex Hr).
    simpl. auto.
  - intros results s' Hh Hex eff. subst eff. unfold persist_results.
    destruct results as [|r rest].
    + simpl in Hex. inversion Hex. simpl. auto.
    + destruct (@persist_loop_through S execute (r :: rest) s s' [] Hh Hex)
        as (cats & ->).
      simpl. auto.
Qed.

Lemma write_failure_ends_batch_witness :
  written (persist_results sample_execute []
             ([sample_result 1] ++ sample_result 2 :: [sample_result 3])
             None None)
  = [update_of (sample_result 1)].
Proof.
  destruct (write_failure_ends_batch sample_execute [] None None) as [H _].
  destruct (H [sample_result 1] (sample_result 2) [sample_result 3]
              [update_of (sample_result 1)] StoreError) as [Hw _].
  - repeat constructor.
  - reflexivity.
  - reflexivity.
  - exact Hw.
Defined.

(** ** Cleaning of details *)

(** C7. [clean_details] leaves the boilerplate prefix, the leading
    dashes and the runs of white space in place: its patterns look for a
    backslash followed by the letter [s].  Only a text that holds that
    backslash is changed. *)
Theorem clean_details_keeps_boilerplate :
  clean_details (Some (lit "Paid to Blinkit")) = lit "Paid to Blinkit"
  /\ clean_details (Some (lit "PaidtoBlinkit")) = lit "PaidtoBlinkit"
  /\ clean_details (Some (lit "Received from  Bob")) = lit "Received from  Bob"
  /\ clean_details (Some (lit "-- fuel")) = lit "-- fuel"
  /\ clean_details (Some (lit "Paidto" ++ [backslash] ++ lit "Blinkit"))
     = lit "Blinkit".
Proof. repeat split; vm_compute; reflexivity. Qed.

(** ** Flag and status *)

(** C8. In every merged result the flag [requires_human_verification]
    is true exactly when the status is [required_human_verification],
    for matched and for missing transactions alike, and the status
    [persist_results] writes for a result, which it derives from the
    flag, is the status recorded at merge time. *)
Theorem flag_and_status_agree :
  forall th txs out merged,
    tag_with_gemini th txs out = Ok merged ->
    Forall (fun r =>
              requires_human_verification r
              = str_eqb (ai_agent.verification_status r)
                        required_human_verification
              /\ upd_verification_status (update_of r)
                 = ai_agent.verification_status r) merged
    /\ forall (S : Type) (execute : S -> update -> res S) s uid email u,
         In u (written (persist_results execute s merged uid email)) ->
         exists r, In r merged /\ upd_id u = r_id r /\
                   upd_verification_status u = ai_agent.verification_status r.
Proof.
  intros th txs out merged H.
  apply tag_with_gemini_consistent in H.
  assert (HF : Forall (fun r =>
              requires_human_verification r
              = str_eqb (ai_agent.verification_status r)
                        required_human_verification
              /\ upd_verification_status (update_of r)
                 = ai_agent.verification_status r) merged).
  { eapply Forall_impl; [|exact H]. intros r [[Hs Hf]|[Hs Hf]];
      unfold update_of; simpl; rewrite Hs, Hf; split; reflexivity. }
  split; [exact HF|].
  intros S execute s uid email u Hu.
  apply written_from_results in Hu as (r & Hr & ->).
  exists r. split; [assumption|]. split; [reflexivity|].
  rewrite Forall_forall in HF. apply HF; assumption.
Qed.

Lemma flag_and_status_agree_witness :
  Forall (fun r =>
            requires_human_verification r
            = str_eqb (ai_agent.verification_status r)
                      required_human_verification
            /\ upd_verification_status (update_of r)
               = ai_agent.verification_status r) sample_merged.
Proof.
  apply (proj1 (@flag_and_status_agree default_threshold sample_txs
                  sample_out sample_merged ltac:(vm_compute; reflexivity))).
Defined.

(** ** The SBI header test *)

(** C9. The SBI extractor emits nothing from a table whose first header
    cell does not hold the text [Date], also when the table passes
    [is_sbi_transactions_table]: the table adds nothing to the output of
    the document. *)
Theorem sbi_needs_date_in_first_header_cell :
  forall t : table,
    first_header_has_date t = false ->
    sbi_table t = []
    /\ forall (before after : pdf) (text : str) (tb ta : list table),
         extract_sbi_statement
           (before ++ {| page_text := text; page_tables := tb ++ t :: ta |}
                   :: after)
         = extract_sbi_statement
             (before ++ {| page_text := text; page_tables := tb ++ ta |}
                     :: after).
Proof.
  intros t Ht. pose proof (sbi_table_needs_first_date t Ht) as H0.
  split; [exact H0|].
  intros before after text tb ta. unfold extract_sbi_statement.
  rewrite !flat_map_app. simpl.
  rewrite (flat_map_skip sbi_table tb ta t H0). reflexivity.
Qed.

Lemma sbi_needs_date_in_first_header_cell_witness :
  is_sbi_transactions_table sbi_shifted_table = true
  /\ extract_sbi_statement
       ([] ++ {| page_text := [];
                 page_tables := [sbi_plain_table] ++ sbi_shifted_table :: [] |}
           :: [])
     = extract_sbi_statement
         ([] ++ {| page_text := [];
                   page_tables := [sbi_plain_table] ++ [] |} :: []).
Proof.
  split; [vm_compute; reflexivity|].
  apply (proj2 (sbi_needs_date_in_first_header_cell sbi_shifted_table
                  ltac:(vm_compute; reflexivity))).
Defined.

(** ** The report of a run *)

Lemma filter_none (A : Type) (f : A -> bool) (l : list A) :
  Forall (fun a => f a = false) l -> filter f l = [].
Proof.
  induction 1 as [|a l Ha _ IH]; [reflexivity|]. simpl. rewrite Ha. assumption.
Qed.

(** C10. What [run_agent] returns counts the flagged results only:
    [count] and [flagged_count] are both the number of merged results
    whose flag [requires_human_verification] is true, and [results] is
    the list of those results, so a batch that is verified throughout
    gives [count = 0] and no results.  The run returns whenever the
    fetch and the merge do. *)
Theorem report_counts_flagged_only :
  forall (S : Type) (execute : S -> update -> res S) (s : S)
         (fetched : res (list dict)) (out : value) (threshold : option float)
         (user_id user_email : option str),
    let th := match threshold with
              | Some th => th
              | None => default_threshold
              end in
    (forall rep eff,
        run_agent execute s fetched out threshold user_id user_email
        = Ok (rep, eff) ->
        exists txs merged,
          fetched = Ok txs /\ tag_with_gemini th txs out = Ok merged /\
          count rep = length (filter requires_human_verification merged) /\
          flagged_count rep
          = length (filter requires_human_verification merged) /\
          results rep = filter requires_human_verification merged /\
          (Forall (fun r => requires_human_verification r = false) merged ->
           count rep = 0%nat /\ flagged_count rep = 0%nat /\ results rep = []))
    /\ (forall txs merged,
          fetched = Ok txs -> tag_with_gemini th txs out = Ok merged ->
          exists rep eff,
            run_agent execute s fetched out threshold user_id user_email
            = Ok (rep, eff)).
Proof.
  intros S execute s fetched out threshold uid email th. split.
  - intros rep eff H. unfold run_agent in H.
    apply bind_ok in H as (txs & Hf & H).
    apply bind_ok in H as (merged & Hm & H).
    inversion H; subst; clear H. exists txs, merged. simpl.
    split; [reflexivity|]. split; [exact Hm|].
    split; [reflexivity|]. split; [reflexivity|]. split; [reflexivity|].
    intros Hall. rewrite (filter_none _ Hall). repeat split; reflexivity.
  - intros txs merged -> Hm. unfold run_agent. simpl. fold th. rewrite Hm.
    simpl. eauto.
Qed.

Lemma report_counts_flagged_only_witness :
  exists rep eff,
    run_agent sample_execute [] (Ok sample_txs) sample_out None None None
    = Ok (rep, eff) /\ count rep = 0%nat /\ results rep = [].
Proof.
  destruct (report_counts_flagged_only sample_execute [] (Ok sample_txs)
              sample_out None None None) as [H1 H2].
  destruct (H2 sample_txs sample_merged) as (rep & eff & Hrun).
  - reflexivity.
  - vm_compute. reflexivity.
  - exists rep, eff. split; [exact Hrun|].
    destruct (H1 rep eff Hrun) as (txs & merged & Hf & Hm & _ & _ & _ & Hz).
    assert (merged = sample_merged).
    { inversion Hf; subst txs. vm_compute in Hm. inversion Hm. reflexivity. }
    subst merged. destruct Hz as (Hc & _ & Hr).
    + repeat constructor.
    + split; assumption.
Defined.


(** ** The merge keeps the transactions *)

Lemma merge_one_same_transaction (th : float) (rm : kdict dict) (t : dict)
      (r : result) :
  merge_one th rm t = Ok r -> same_transaction t r.
Proof.
  unfold merge_one. intros H. apply bind_ok in H as (o & _ & H).
  assert (Hm : same_transaction t (missing_result t))
    by (repeat split; reflexivity).
  destruct o as [[|kv o]|]; try (inversion H; subst; exact Hm).
  unfold matched_result in H. apply bind_ok in H as (c & _ & H).
  inversion H; subst. repeat split; reflexivity.
Qed.

(** X2. Whenever the merge returns, its entries stand for the fetched
    transactions one by one and in their order: each entry carries the
    id, date, details, amount and type of its transaction. *)
Theorem merge_keeps_transactions :
  forall th txs out merged,
    tag_with_gemini th txs out = Ok merged ->
    Forall2 same_transaction txs merged.
Proof.
  intros th txs out merged H.
  apply tag_with_gemini_inv in H as [[-> ->]|(_ & items & rm & _ & _ & H)].
  - constructor.
  - induction H as [|t r txs' merged' Hr _ IH]; constructor; [|assumption].
    eapply merge_one_same_transaction; eassumption.
Qed.

Lemma merge_keeps_transactions_witness :
  Forall2 same_transaction sample_txs sample_merged.
Proof.
  apply (@merge_keeps_transactions default_threshold sample_txs sample_out
           sample_merged).
  vm_compute. reflexivity.
Defined.

(** ** Answers that are not a list *)

Lemma results_map_no_dict (items : list value) (m : kdict dict) :
  Forall (fun o => match o with VDict _ => False | _ => True end) items ->
  results_map_from m items = Ok m.
Proof.
  induction 1 as [|o items Ho _ IH]; [reflexivity|].
  simpl. destruct o; try assumption. contradiction.
Qed.

Lemma mapM_all_ok (A B : Type) (f : A -> res B) (g : A -> B) (l : list A) :
  Forall (fun a => f a = Ok (g a)) l -> mapM f l = Ok (map g l).
Proof.
  induction 1 as [|a l Ha _ IH]; [reflexivity|].
  simpl. rewrite Ha. simpl. rewrite IH. reflexivity.
Qed.

(** X3. What the merge makes of an oracle answer that is not a JSON
    array, for a batch that is not empty: [null], a number or a boolean
    cannot be iterated and the merge raises [TypeError]; a JSON object
    or a string is iterated over its keys or characters, none of which
    is a result, so every transaction (with a hashable id) gets the
    default entry and goes to human verification. *)
Theorem merge_of_non_array_answer :
  forall th t txs out,
    (not_iterable out = true ->
     tag_with_gemini th (t :: txs) out = Raise TypeError)
    /\ ((exists d, out = VDict d) \/ (exists s, out = VStr s) ->
        Forall (fun x => hashable (get x (lit "id")) = true) (t :: txs) ->
        tag_with_gemini th (t :: txs) out
        = Ok (map missing_result (t :: txs))).
Proof.
  intros th t txs out. split.
  - intros H. destruct out; try discriminate; reflexivity.
  - intros Hout Hh.
    assert (Hitems : exists items,
               py_iter out = Ok items /\
               Forall (fun o => match o with VDict _ => False | _ => True end)
                      items).
    { destruct Hout as [[d ->]|[s ->]]; simpl; eexists; (split; [reflexivity|]).
      - apply Forall_forall. intros o Ho. apply in_map_iff in Ho as (kv & <- & _).
        exact I.
      - apply Forall_forall. intros o Ho. apply in_map_iff in Ho as (c & <- & _).
        exact I. }
    destruct Hitems as (items & Hi & Hnd).
    unfold tag_with_gemini. rewrite Hi. cbn [bind].
    rewrite (results_map_no_dict [] Hnd). cbn [bind].
    apply mapM_all_ok. eapply Forall_impl; [|exact Hh].
    intros x Hx. unfold merge_one, kdict_get. rewrite Hx. reflexivity.
Qed.

Lemma merge_of_non_array_answer_witness :
  tag_with_gemini default_threshold (sample_tx 1 :: [sample_tx 2]) VNone
  = Raise TypeError
  /\ tag_with_gemini default_threshold (sample_tx 1 :: [sample_tx 2])
       (VDict [(lit "error", VStr (lit "quota"))])
     = Ok (map missing_result (sample_tx 1 :: [sample_tx 2])).
Proof.
  split.
  - apply (proj1 (merge_of_non_array_answer default_threshold (sample_tx 1)
                    [sample_tx 2] VNone)). reflexivity.
  - apply (proj2 (merge_of_non_array_answer default_threshold (sample_tx 1)
                    [sample_tx 2] (VDict [(lit "error", VStr (lit "quota"))]))).
    + left. eexists. reflexivity.
    + repeat constructor.
Defined.

(** ** Answers that repeat an id *)

Lemma results_map_from_app (l1 l2 : list value) (m : kdict dict) :
  results_map_from m (l1 ++ l2)
  = bind (results_map_from m l1) (fun m' => results_map_from m' l2).
Proof.
  revert m. induction l1 as [|o l1 IH]; intros m; [reflexivity|].
  simpl. destruct o as [| | | | |l|d]; try apply IH.
  destruct (has_key d (lit "id")); [|apply IH].
  destruct (kdict_set m (get d (lit "id")) d) as [m'|e]; simpl; [apply IH | reflexivity].
Qed.

Lemma kfind_kset_same (V : Type) (m : kdict V) (k : value) (v : V) :
  key_eq k k = true -> kfind (kset m k v) k = Some v.
Proof.
  intros Hk. induction m as [|[k' v'] m IH]; simpl.
  - rewrite Hk. reflexivity.
  - destruct (key_eq k' k) eqn:E; simpl; rewrite E; [reflexivity | exact IH].
Qed.

(** X4. When the oracle answers twice for one id, the later answer is
    the one the merge uses: an entry placed last in the answer list is
    the result found for the transaction with its id, whatever comes
    before it (for an id that is hashable and equal to itself, which
    excludes NaN). *)
Theorem last_answer_wins :
  forall (items : list value) (o t : dict) (m : kdict dict),
    results_map_from [] items = Ok m ->
    has_key o (lit "id") = true ->
    get o (lit "id") = get t (lit "id") ->
    hashable (get t (lit "id")) = true ->
    key_eq (get t (lit "id")) (get t (lit "id")) = true ->
    oracle_result_for (VList (items ++ [VDict o])) t = Ok (Some o).
Proof.
  intros items o t m Hm Hk Hid Hh Hrefl.
  unfold oracle_result_for. simpl py_iter. cbn [bind].
  rewrite results_map_from_app, Hm. cbn [bind]. simpl results_map_from.
  rewrite Hk. unfold kdict_set. rewrite Hid, Hh. cbn [bind].
  unfold kdict_get. rewrite Hh. rewrite kfind_kset_same by assumption.
  reflexivity.
Qed.

Lemma last_answer_wins_witness :
  oracle_result_for
    (VList ([sample_answer 1 (VFloat f_0_50) (VBool true)]
            ++ [VDict [(lit "id", VInt 1); (lit "confidence", VFloat f_0_90)]]))
    (sample_tx 1)
  = Ok (Some [(lit "id", VInt 1); (lit "confidence", VFloat f_0_90)]).
Proof.
  eapply last_answer_wins; vm_compute; reflexivity.
Defined.


(** * Further properties of persistence *)

Section PersistMore.
Variable S : Type.
Variable execute : S -> update -> res S.

Lemma persist_loop_complete (results : list result) (s : S) (cats : kdict unit) :
  forall s' w cats',
    persist_loop execute s cats results = (s', w, Ok cats') ->
    w = map update_of results.
Proof.
  revert s cats. induction results as [|r rest IH]; intros s cats s' w cats'; simpl.
  - intros H; inversion H; reflexivity.
  - destruct (execute s (update_of r)) as [s1|e]; [|discriminate].
    destruct (if truthy (category r) && _ then _ else _) as [cats1|e];
      [|discriminate].
    destruct (persist_loop execute s1 cats1 rest) as [[s2 w2] c2] eqn:E.
    intros H; inversion H; subst. f_equal. eapply IH; eassumption.
Qed.

(** X5. [persist_results] skips nothing silently: the updates it has
    executed are those of a prefix of the batch, in batch order, and
    when nothing was logged that prefix is the whole batch. *)
Theorem persist_results_no_silent_skip :
  forall (s : S) (results : list result) (user_id user_email : option str),
    let eff := persist_results execute s results user_id user_email in
    (exists n, written eff = map update_of (firstn n results))
    /\ (logged eff = None -> written eff = map update_of results).
Proof.
  intros s results uid email eff. split.
  - apply persist_results_prefix.
  - subst eff. unfold persist_results. destruct results as [|r rest]; [reflexivity|].
    destruct (persist_loop execute s [] (r :: rest)) as [[s' w] c] eqn:E.
    destruct c as [cats|e]; [|simpl; discriminate].
    intros _. cbn [written]. eapply persist_loop_complete; eassumption.
Qed.



(** The keys of the set of updated categories. *)
Lemma kset_keys (m : kdict unit) (k k0 : value) :
  In k0 (map fst (kset m k tt)) -> k0 = k \/ In k0 (map fst m).
Proof.
  induction m as [|[k' v'] m IH]; simpl.
  - intros [H|[]]; auto.
  - destruct (key_eq k' k); simpl.
    + intros [H|H]; auto.
    + intros [H|H]; [auto | destruct (IH H); auto].
Qed.

Lemma kset_keeps_keys (m : kdict unit) (k k0 : value) :
  In k0 (map fst m) -> In k0 (map fst (kset m k tt)).
Proof.
  induction m as [|[k' v'] m IH]; simpl; [tauto|].
  destruct (key_eq k' k); simpl; intros [H|H]; auto.
Qed.

Lemma kset_has_key (m : kdict unit) (k : value) :
  exists k0, In k0 (map fst (kset m k tt)) /\ (k0 = k \/ key_eq k0 k = true).
Proof.
  induction m as [|[k' v'] m IH]; simpl.
  - exists k; auto.
  - destruct (key_eq k' k) eqn:E; simpl.
    + exists k'; auto.
    + destruct IH as (k0 & Hin & Hk). exists k0; auto.
Qed.

Lemma persist_loop_categories (results : list result) (s : S) (cats : kdict unit) :
  forall s' w cats',
    persist_loop execute s cats results = (s', w, Ok cats') ->
    (forall c, In c (map fst cats') ->
       In c (map fst cats) \/
       exists r, In r results /\ category r = c /\ budget_relevant c = true)
    /\ (forall c, In c (map fst cats) -> In c (map fst cats'))
    /\ (forall r, In r results -> budget_relevant (category r) = true ->
          exists c, In c (map fst cats') /\
                    (c = category r \/ key_eq c (category r) = true)).
Proof.
  revert s cats. induction results as [|r rest IH]; intros s cats s' w cats'; simpl.
  - intros H; inversion H; subst. repeat split; auto. intros r [].
  - destruct (execute s (update_of r)) as [s1|e]; [|discriminate].
    fold (budget_relevant (category r)).
    destruct (budget_relevant (category r)) eqn:Eb.
    + unfold kdict_set. destruct (hashable (category r)); [|discriminate].
      destruct (persist_loop execute s1 (kset cats (category r) tt) rest)
        as [[s2 w2] c2] eqn:E.
      intros H; inversion H; subst. destruct (IH _ _ _ _ _ E) as (I1 & I2 & I3).
      repeat split.
      * intros c Hc. destruct (I1 c Hc) as [Hin|(r' & Hr' & Hc' & Hb)].
        -- apply kset_keys in Hin as [->|Hin]; [right; exists r; auto | auto].
        -- right; exists r'; auto.
      * intros c Hc. apply I2. apply kset_keeps_keys; assumption.
      * intros r' [<-|Hr'] Hb'.
        -- destruct (kset_has_key cats (category r)) as (k0 & Hin & Hk).
           exists k0; split; [apply I2; assumption | assumption].
        -- apply I3; assumption.
    + destruct (persist_loop execute s1 cats rest) as [[s2 w2] c2] eqn:E.
      intros H; inversion H; subst. destruct (IH _ _ _ _ _ E) as (I1 & I2 & I3).
      repeat split.
      * intros c Hc. destruct (I1 c Hc) as [Hin|(r' & Hr' & Hc' & Hb)]; auto.
        right; exists r'; auto.
      * assumption.
      * intros r' [<-|Hr'] Hb'; [congruence | apply I3; assumption].
Qed.

(** X7. The budget check after a batch: a category is checked only when
    a user id and an e-mail address are given and no exception ended
    the batch, and then only categories of the batch that are neither
    empty nor ["Uncategorized"]; in that case every such category of the
    batch is checked (itself or a category equal to it). *)
Theorem budget_checks_cover_updated_categories :
  forall (s : S) (results : list result) (user_id user_email : option str),
    let eff := persist_results execute s results user_id user_email in
    (forall c, In c (budget_checked eff) ->
       nonempty user_id = true /\ nonempty user_email = true
       /\ logged eff = None
       /\ exists r, In r results /\ category r = c
                    /\ budget_relevant c = true)
    /\ (logged eff = None ->
        nonempty user_id = true -> nonempty user_email = true ->
        forall r, In r results -> budget_relevant (category r) = true ->
          exists c, In c (budget_checked eff) /\
                    (c = category r \/ key_eq c (category r) = true)).
Proof.
  intros s results uid email eff. subst eff. unfold persist_results.
  destruct results as [|r0 rest]; [split; [intros c [] | intros _ _ _ r []]|].
  destruct (persist_loop execute s [] (r0 :: rest)) as [[s' w] c] eqn:E.
  destruct c as [cats|e]; simpl.
  - destruct (persist_loop_categories _ _ _ E) as (I1 & _ & I3).
    destruct (nonempty uid && nonempty email) eqn:Ene.
    + apply andb_true_iff in Ene as [Hu He]. split.
      * intros c Hc. repeat split; try assumption.
        destruct (I1 c Hc) as [[]|H]; assumption.
      * intros _ _ _ r Hr Hb. apply I3; assumption.
    + split; [intros c []|].
      intros _ Hu He. rewrite Hu, He in Ene. discriminate.
  - split; [intros c [] | discriminate].
Qed.
End PersistMore.

Lemma persist_results_no_silent_skip_witness :
  written (persist_results sample_execute [] [sample_result 1; sample_result 3]
             None None)
  = map update_of [sample_result 1; sample_result 3].
Proof.
  apply (proj2 (persist_results_no_silent_skip sample_execute []
                  [sample_result 1; sample_result 3] None None)).
  reflexivity.
Defined.


Lemma budget_checks_cover_updated_categories_witness :
  exists c,
    In c (budget_checked
            (persist_results sample_execute [] [sample_result 1]
               (Some (lit "u1")) (Some (lit "a@b.c"))))
    /\ (c = category (sample_result 1)
        \/ key_eq c (category (sample_result 1)) = true).
Proof.
  apply (proj2 (budget_checks_cover_updated_categories sample_execute []
                  [sample_result 1] (Some (lit "u1")) (Some (lit "a@b.c"))));
    try reflexivity.
  left; reflexivity.
Defined.


(** * Further properties of a run *)

Lemma filter_all (A : Type) (f : A -> bool) (l : list A) :
  Forall (fun a => f a = true) (filter f l).
Proof.
  apply Forall_forall. intros a Ha. apply filter_In in Ha. tauto.
Qed.

Lemma filter_split_length (A : Type) (f : A -> bool) (l : list A) :
  length (filter f l) + length (filter (fun a => negb (f a)) l) = length l.
Proof.
  induction l as [|a l IH]; [reflexivity|].
  simpl. destruct (f a); simpl; lia.
Qed.

(** X8. The entries [run_agent] returns are exactly the merged entries
    sent to human verification: each has the status
    [required_human_verification]; their number and the number of
    entries with the status [ai_verified] add up to the number of
    fetched transactions, so [count] never exceeds it. *)
Theorem report_partitions_the_batch :
  forall (S : Type) (execute : S -> update -> res S) (s : S)
         (txs : list dict) (out : value) (threshold : option float)
         (user_id user_email : option str) rep eff,
    run_agent execute s (Ok txs) out threshold user_id user_email
    = Ok (rep, eff) ->
    Forall (fun r => ai_agent.verification_status r
                     = required_human_verification) (results rep)
    /\ (exists merged,
          tag_with_gemini (match threshold with
                           | Some th => th
                           | None => default_threshold
                           end) txs out = Ok merged
          /\ count rep
             + length (filter (fun r => str_eqb (ai_agent.verification_status r)
                                                ai_verified) merged)
             = length txs)
    /\ (count rep <= length txs)%nat.
Proof.
  intros S execute s txs out threshold uid email rep eff H.
  unfold run_agent in H. cbn [bind] in H.
  apply bind_ok in H as (merged & Hm & H). inversion H; subst; clear H.
  cbn [results count].
  pose proof Hm as Hc. apply tag_with_gemini_consistent in Hc.
  pose proof Hm as Hlen. apply tag_with_gemini_length in Hlen.
  assert (Hsame : filter (fun r => negb (requires_human_verification r)) merged
                  = filter (fun r => str_eqb (ai_agent.verification_status r)
                                             ai_verified) merged).
  { apply filter_ext_in. intros r Hr. rewrite Forall_forall in Hc.
    destruct (Hc r Hr) as [[-> ->]|[-> ->]]; reflexivity. }
  pose proof (filter_split_length requires_human_verification merged) as Hsplit.
  rewrite Hsame in Hsplit.
  split; [|split].
  - apply Forall_forall. intros r Hr. apply filter_In in Hr as [Hin Hf].
    rewrite Forall_forall in Hc. destruct (Hc r Hin) as [[_ Hn]|[Hs _]];
      [congruence | assumption].
  - exists merged. split; [assumption | lia].
  - lia.
Qed.

Lemma report_partitions_the_batch_witness :
  exists rep eff,
    run_agent sample_execute [] (Ok sample_txs) sample_out None None None
    = Ok (rep, eff) /\ (count rep <= length sample_txs)%nat.
Proof.
  destruct (run_agent sample_execute [] (Ok sample_txs) sample_out
              None None None) as [[rep eff]|e] eqn:E;
    [|vm_compute in E; discriminate].
  exists rep, eff. split; [reflexivity|].
  apply (proj2 (proj2 (@report_partitions_the_batch sample_store
            sample_execute [] sample_txs sample_out None None None
            rep eff E))).
Defined.


(** * Further properties of the extractors *)

Lemma fgt_fge (x : float) : fgt x fzero = true -> fge x fzero = true.
Proof. destruct x as [s|[|]| |[|] m e]; simpl; try discriminate; reflexivity. Qed.

Lemma in_flat_map_elim (A B : Type) (f : A -> list B) (l : list A) (b : B) :
  In b (flat_map f l) -> exists a, In a l /\ In b (f a).
Proof. intros H. apply in_flat_map in H. exact H. Qed.

(** What the SBI extractor emits from one row. *)
Lemma sbi_row_emits (row : list cell) (t : txn) :
  In t (sbi_row row) ->
  fgt (txn_amount t) fzero = true
  /\ exists amt_raw,
       In amt_raw (split_char newline (cell_str (nth 2 row None)))
       /\ txn_amount t = parse_amount amt_raw
       /\ txn_type t = (if contains [67%N] amt_raw
                        then lit "Credit" else lit "Debit").
Proof.
  unfold sbi_row. destruct (_ && _); [|intros []].
  intros H. apply in_flat_map_elim in H as ([d [det amt]] & Hin & Ht).
  destruct (fgt (parse_amount amt) fzero) eqn:E; [|destruct Ht].
  destruct Ht as [<-|[]]. simpl. split; [exact E|].
  exists amt. split.
  - apply in_combine_r in Hin. apply in_combine_r in Hin. exact Hin.
  - split; [reflexivity|]. destruct (contains [67%N] amt); [reflexivity|].
    destruct (contains [68%N] amt); reflexivity.
Qed.

(** What the SBI extractor emits from a document. *)
Lemma sbi_doc_emits (doc : pdf) (t : txn) :
  In t (extract_sbi_statement doc) ->
  fgt (txn_amount t) fzero = true
  /\ exists amt_raw,
       txn_amount t = parse_amount amt_raw
       /\ txn_type t = (if contains [67%N] amt_raw
                        then lit "Credit" else lit "Debit").
Proof.
  intros H. unfold extract_sbi_statement in H.
  apply in_flat_map_elim in H as (p & _ & H).
  apply in_flat_map_elim in H as (tb & _ & H).
  unfold sbi_table in H. destruct tb as [|header rest]; [destruct H|].
  destruct (negb _); [destruct H|].
  destruct header as [|first header]; [destruct H|].
  destruct (contains _ _); [|destruct H].
  apply in_flat_map_elim in H as (row & _ & H).
  apply sbi_row_emits in H as (Hpos & amt & _ & Ha & Ht).
  split; [exact Hpos | exists amt; auto].
Qed.

Lemma flat_map_length_le (A B : Type) (f : A -> list B) (l : list A) :
  (forall a, (length (f a) <= 1)%nat) ->
  (length (flat_map f l) <= length l)%nat.
Proof.
  intros Hf. induction l as [|a l IH]; [simpl; lia|].
  simpl. rewrite length_app. specialize (Hf a). lia.
Qed.

(** What the Axis extractor emits from one row. *)
Lemma axis_row_emits (row : list cell) (t : txn) :
  In t (axis_row row) ->
  fgt (txn_amount t) fzero = true
  /\ txn_date t <> []
  /\ nth 0 row None = Some (txn_date t)
  /\ ((txn_type t = lit "Debit"
       /\ txn_amount t = parse_amount (cell_str (nth 3 row None)))
      \/ (txn_type t = lit "Credit"
          /\ txn_amount t = parse_amount (cell_str (nth 4 row None)))).
Proof.
  unfold axis_row. destruct (Nat.ltb _ _); [intros []|].
  destruct (nth 0 row None) as [[|c s]|]; try (intros []).
  match goal with
  | |- context [let '(_, _) := ?x in _] => destruct x as [amount t_type] eqn:E
  end.
  destruct (fgt amount fzero) eqn:Ea; [|intros []].
  intros [<-|[]]. simpl. split; [exact Ea|]. split; [discriminate|].
  split; [reflexivity|].
  match type of E with
  | (if ?b then _ else _) = _ => destruct b
  end.
  - inversion E; subst. left; auto.
  - match type of E with
    | (if ?b then _ else _) = _ => destruct b
    end.
    + inversion E; subst. right; auto.
    + inversion E; subst. discriminate.
Qed.

Lemma axis_doc_emits (doc : pdf) (t : txn) :
  In t (extract_axis_statement doc) ->
  exists row, In t (axis_row row).
Proof.
  intros H. unfold extract_axis_statement in H.
  apply in_flat_map_elim in H as (p & _ & H).
  apply in_flat_map_elim in H as (tb & _ & H).
  unfold axis_table in H. destruct tb as [|header rest]; [destruct H|].
  apply in_flat_map_elim in H as (row & _ & H).
  exists row. exact H.
Qed.

(** ** The SBI and Axis rows, line by line *)

Lemma flat_map_seq_shift (B : Type) (g : nat -> list B) (n : nat) :
  flat_map g (seq 1 n) = flat_map (fun i => g (Datatypes.S i)) (seq 0 n).
Proof.
  rewrite <- seq_shift. induction (seq 0 n) as [|i l IH]; [reflexivity|].
  simpl. rewrite IH. reflexivity.
Qed.

(** A loop over three zipped lists is the loop over the indices of the
    shortest. *)
Lemma combine3_by_index (A B C D : Type) (f : A * (B * C) -> list D)
      (l1 : list A) :
  forall (l2 : list B) (l3 : list C),
    flat_map f (combine l1 (combine l2 l3))
    = flat_map (fun i => match nth_error l1 i, nth_error l2 i, nth_error l3 i with
                         | Some a, Some b, Some c => f (a, (b, c))
                         | _, _, _ => []
                         end)
               (seq 0 (Nat.min (length l1)
                               (Nat.min (length l2) (length l3)))).
Proof.
  induction l1 as [|a l1 IH]; intros l2 l3; [reflexivity|].
  destruct l2 as [|b l2]; [reflexivity|].
  destruct l3 as [|c l3]; [reflexivity|].
  cbn [combine length Nat.min seq flat_map nth_error].
  rewrite flat_map_seq_shift. rewrite IH. reflexivity.
Qed.

(** [sbi_row] is the loop [for i in range(count)] of the source. *)
Lemma sbi_row_by_index (row : list cell) :
  sbi_row row
  = if sbi_row_usable row
    then flat_map
           (sbi_line (split_char newline (cell_str (nth 0 row None)))
                     (split_char newline (cell_str (nth 1 row None)))
                     (split_char newline (cell_str (nth 2 row None))))
           (seq 0 (Nat.min
                     (length (split_char newline (cell_str (nth 0 row None))))
                     (Nat.min
                        (length (split_char newline (cell_str (nth 1 row None))))
                        (length (split_char newline (cell_str (nth 2 row None)))))))
    else [].
Proof.
  unfold sbi_row, sbi_row_usable. destruct (_ && _); [|reflexivity].
  cbv zeta. rewrite combine3_by_index. apply flat_map_ext. intros i.
  unfold sbi_line.
  destruct (nth_error _ i) as [d|]; [|reflexivity].
  destruct (nth_error _ i) as [det|]; [|reflexivity].
  destruct (nth_error _ i) as [amt|]; [|reflexivity].
  destruct (fgt _ _); [|reflexivity].
  destruct (contains [67%N] amt); [reflexivity|].
  destruct (contains [68%N] amt); reflexivity.
Qed.

Lemma sbi_line_emits (dates details amounts : list str) (i : nat) (t : txn) :
  In t (sbi_line dates details amounts i) <->
  exists amt_raw,
    nth_error dates i = Some (txn_date t)
    /\ nth_error details i = Some (txn_details t)
    /\ nth_error amounts i = Some amt_raw
    /\ txn_amount t = parse_amount amt_raw
    /\ fgt (txn_amount t) fzero = true
    /\ txn_type t = (if contains [67%N] amt_raw
                     then lit "Credit" else lit "Debit").
Proof.
  unfold sbi_line. split.
  - destruct (nth_error dates i) as [d|]; [|intros []].
    destruct (nth_error details i) as [det|]; [|intros []].
    destruct (nth_error amounts i) as [amt|]; [|intros []].
    destruct (fgt (parse_amount amt) fzero) eqn:E; [|intros []].
    intros [<-|[]]. exists amt. simpl. auto 10.
  - intros (amt & -> & -> & -> & Ha & Hp & Ht).
    rewrite <- Ha, Hp. left. destruct t as [d det a ty]; simpl in *.
    subst. reflexivity.
Qed.

Lemma sbi_row_emits_iff (row : list cell) (t : txn) :
  In t (sbi_row row) <-> exists i, sbi_emits row i t.
Proof.
  rewrite sbi_row_by_index. unfold sbi_emits. split.
  - destruct (sbi_row_usable row); [|intros []].
    intros H. apply in_flat_map in H as (i & _ & H).
    apply sbi_line_emits in H. exists i. auto.
  - intros (i & Hu & amt & Hd & Hdet & Ha & H). rewrite Hu.
    apply in_flat_map. exists i. split.
    + apply in_seq. split; [lia|]. simpl.
      assert (H0 : (i < length (split_char newline (cell_str (nth 0 row None))))%nat)
        by (apply nth_error_Some; rewrite Hd; discriminate).
      assert (H1 : (i < length (split_char newline (cell_str (nth 1 row None))))%nat)
        by (apply nth_error_Some; rewrite Hdet; discriminate).
      assert (H2 : (i < length (split_char newline (cell_str (nth 2 row None))))%nat)
        by (apply nth_error_Some; rewrite Ha; discriminate).
      lia.
    + apply sbi_line_emits. exists amt. auto.
Qed.

Lemma sbi_table_emits_iff (tb : table) (t : txn) :
  In t (sbi_table tb) <->
  is_sbi_transactions_table tb = true
  /\ first_header_has_date tb = true
  /\ exists row, In row (skipn 1 tb) /\ In t (sbi_row row).
Proof.
  unfold sbi_table, first_header_has_date. split.
  - destruct tb as [|header rest]; [intros []|].
    destruct (is_sbi_transactions_table (header :: rest)); [|intros []].
    cbn [negb]. destruct header as [|first header]; [intros []|].
    destruct (contains _ _); [|intros []].
    intros H. apply in_flat_map in H. auto.
  - intros (Hs & Hd & row & Hr & Ht).
    destruct tb as [|header rest]; [discriminate|].
    rewrite Hs. cbn [negb]. destruct header as [|first header]; [discriminate|].
    rewrite Hd. apply in_flat_map. eauto.
Qed.

(** X9. The tuples of the SBI extractor are exactly those of the lines
    of its tables: a tuple is emitted if and only if the document has a
    page with a transactions table whose first header cell holds
    [Date], a row of it after the header with three non-empty cells at
    least, and a line number [i] such that the date, the details and
    the amount text of the tuple are line [i] of the first, second and
    third cell; the amount is the parsed amount text and is above zero,
    and the direction is [Credit] when the amount text holds the letter
    [C] and [Debit] otherwise. *)
Theorem sbi_tuples_positive_and_directed :
  forall (doc : pdf) (t : txn),
    In t (extract_sbi_statement doc) <->
    exists p tb row i,
      In p doc /\ In tb (page_tables p)
      /\ is_sbi_transactions_table tb = true
      /\ first_header_has_date tb = true
      /\ In row (skipn 1 tb)
      /\ sbi_emits row i t.
Proof.
  intros doc t. unfold extract_sbi_statement. split.
  - intros H. apply in_flat_map in H as (p & Hp & H).
    apply in_flat_map in H as (tb & Htb & H).
    apply sbi_table_emits_iff in H as (Hs & Hd & row & Hr & H).
    apply sbi_row_emits_iff in H as (i & H).
    exists p, tb, row, i. auto 10.
  - intros (p & tb & row & i & Hp & Htb & Hs & Hd & Hr & H).
    apply in_flat_map. exists p. split; [exact Hp|].
    apply in_flat_map. exists tb. split; [exact Htb|].
    apply sbi_table_emits_iff. split; [exact Hs|]. split; [exact Hd|].
    exists row. split; [exact Hr|]. apply sbi_row_emits_iff. eauto.
Qed.

Lemma sbi_tuples_positive_and_directed_witness :
  exists p tb row i,
    In p sbi_plain_doc /\ In tb (page_tables p)
    /\ is_sbi_transactions_table tb = true
    /\ first_header_has_date tb = true
    /\ In row (skipn 1 tb)
    /\ sbi_emits row i {| txn_date := lit "26 Nov 25";
                          txn_details := lit "FUEL";
                          txn_amount := of_decimal false 20 0;
                          txn_type := lit "Debit" |}.
Proof.
  apply (proj1 (sbi_tuples_positive_and_directed sbi_plain_doc _)).
  vm_compute. right. left. reflexivity.
Defined.

(** X11. A row of an SBI table is read line by line up to the shortest
    of its three cells: the tuples of the row are, in order, those of
    the line numbers below the least of the three line counts, each made
    of the date, details and amount with that same line number, so the
    surplus lines of the longer cells are dropped; a row with fewer than
    three cells or an empty one among the first three gives nothing.
    The row gives at most as many tuples as the shortest cell has
    lines. *)
Theorem sbi_row_zips_to_shortest :
  forall row : list cell,
    let dates := split_char newline (cell_str (nth 0 row None)) in
    let details := split_char newline (cell_str (nth 1 row None)) in
    let amounts := split_char newline (cell_str (nth 2 row None)) in
    let count := Nat.min (length dates)
                         (Nat.min (length details) (length amounts)) in
    sbi_row row
    = (if sbi_row_usable row
       then flat_map (sbi_line dates details amounts) (seq 0 count)
       else [])
    /\ (length (sbi_row row) <= count)%nat.
Proof.
  intros row dates details amounts count.
  assert (H : sbi_row row
              = if sbi_row_usable row
                then flat_map (sbi_line dates details amounts) (seq 0 count)
                else []) by apply sbi_row_by_index.
  split; [exact H|]. rewrite H.
  destruct (sbi_row_usable row); [|simpl; lia].
  eapply Nat.le_trans.
  - apply flat_map_length_le. intros i. unfold sbi_line.
    destruct (nth_error dates i); [|simpl; lia].
    destruct (nth_error details i); [|simpl; lia].
    destruct (nth_error amounts i); [|simpl; lia].
    destruct (fgt _ _); simpl; lia.
  - rewrite length_seq. lia.
Qed.

Lemma axis_row_emits_iff (row : list cell) (t : txn) :
  In t (axis_row row) <-> axis_emits row t.
Proof.
  unfold axis_row, axis_emits. fold (has_text (nth 3 row None)).
  fold (has_text (nth 4 row None)). split.
  - destruct (Nat.ltb_spec (length row) 5) as [Hl|Hl]; [intros []|].
    destruct (nth 0 row None) as [[|c s]|]; try (intros []).
    destruct (has_text (nth 3 row None)) eqn:E3.
    + destruct (fgt _ _) eqn:Ea; [|intros []].
      intros [<-|[]]. simpl. split; [exact Hl|]. split; [reflexivity|].
      split; [discriminate|]. split; [reflexivity|]. split; [exact Ea|].
      left. auto.
    + destruct (has_text (nth 4 row None)) eqn:E4.
      * destruct (fgt _ _) eqn:Ea; [|intros []].
        intros [<-|[]]. simpl. split; [exact Hl|]. split; [reflexivity|].
        split; [discriminate|]. split; [reflexivity|]. split; [exact Ea|].
        right. auto.
      * destruct (fgt fzero fzero) eqn:Ea; [discriminate Ea | intros []].
  - intros (Hl & Hd & Hne & Hdet & Hpos & Hdir).
    destruct (Nat.ltb_spec (length row) 5) as [Hl'|_]; [lia|].
    rewrite Hd. destruct (txn_date t) as [|c s] eqn:Edate; [contradiction|].
    destruct t as [d det a ty]. simpl in *. subst d.
    destruct Hdir as [(H3 & Hty & Ha)|(H3 & H4 & Hty & Ha)].
    + rewrite H3. rewrite <- Ha, Hpos. left. subst. reflexivity.
    + rewrite H3, H4. rewrite <- Ha, Hpos. left. subst. reflexivity.
Qed.

Lemma axis_table_emits_iff (tb : table) (t : txn) :
  In t (axis_table tb) <->
  exists row, In row (axis_rows tb) /\ In t (axis_row row).
Proof.
  unfold axis_table, axis_rows. destruct tb as [|header rest].
  - split; [intros [] | intros (row & [] & _)].
  - rewrite in_flat_map. destruct header as [|first header]; [reflexivity|].
    destruct (contains _ _); reflexivity.
Qed.

(** X10. The tuples of the Axis extractor are exactly those of the
    rows of its tables: a tuple is emitted if and only if the document
    has a page with a table and a row of it (the first row left out
    when its first cell holds [Tran Date]) of five cells at least whose
    first cell is the date of the tuple and not empty; the details are
    the third cell with its line breaks turned into spaces; the tuple
    is a [Debit] with the parsed debit column when that column holds
    text, else a [Credit] with the parsed credit column when that one
    holds text; and the amount is above zero. *)
Theorem axis_tuples_positive_and_directed :
  forall (doc : pdf) (t : txn),
    In t (extract_axis_statement doc) <->
    exists p tb row,
      In p doc /\ In tb (page_tables p) /\ In row (axis_rows tb)
      /\ axis_emits row t.
Proof.
  intros doc t. unfold extract_axis_statement. split.
  - intros H. apply in_flat_map in H as (p & Hp & H).
    apply in_flat_map in H as (tb & Htb & H).
    apply axis_table_emits_iff in H as (row & Hr & H).
    apply axis_row_emits_iff in H. exists p, tb, row. auto.
  - intros (p & tb & row & Hp & Htb & Hr & H).
    apply in_flat_map. exists p. split; [exact Hp|].
    apply in_flat_map. exists tb. split; [exact Htb|].
    apply axis_table_emits_iff. exists row. split; [exact Hr|].
    apply axis_row_emits_iff. exact H.
Qed.

Lemma axis_tuples_positive_and_directed_witness :
  exists p tb row,
    In p axis_sample_doc /\ In tb (page_tables p) /\ In row (axis_rows tb)
    /\ axis_emits row {| txn_date := lit "29-10-2025";
                         txn_details := lit "NEFT/SALARY";
                         txn_amount := of_decimal false 165611 0;
                         txn_type := lit "Credit" |}.
Proof.
  apply (proj1 (axis_tuples_positive_and_directed axis_sample_doc _)).
  vm_compute. right. left. reflexivity.
Defined.

(** ** The GPay loop *)

Lemma gpay_line_raises (current_date : option str) (line : str) (e : exn) :
  gpay_line current_date line = Raise e ->
  e = IndexError
  /\ contains [rupee] line = true
  /\ (exists d, gpay_current_date current_date line = Some d /\ d <> [])
  /\ exists p0 p1 rest,
       split_char rupee line = p0 :: p1 :: rest /\ split_ws p1 = [].
Proof.
  unfold gpay_line. fold (gpay_current_date current_date line).
  destruct (gpay_current_date current_date line) as [[|c d]|]; try discriminate.
  destruct (contains [rupee] line); [|discriminate].
  destruct (split_char rupee line) as [|p0 [|p1 rest]]; try discriminate.
  destruct (split_ws p1) as [|a l] eqn:E; [|discriminate].
  intros H; inversion H; subst. repeat split.
  - exists (c :: d). split; [reflexivity | discriminate].
  - exists p0, p1, rest. auto.
Qed.

Lemma gpay_lines_raises (lines : list str) (current_date : option str) (e : exn) :
  gpay_lines current_date lines = Raise e -> e = IndexError.
Proof.
  revert current_date. induction lines as [|line rest IH]; intros cur; simpl.
  - discriminate.
  - destruct (gpay_line cur line) as [[cur' ts]|e'] eqn:E; simpl.
    + destruct (gpay_lines cur' rest) as [more|e''] eqn:E'; simpl; [discriminate|].
      intros H; inversion H; subst. eapply IH; eassumption.
    + intros H; inversion H; subst. apply gpay_line_raises in E. tauto.
Qed.

Lemma mapM_raises (A B : Type) (f : A -> res B) (l : list A) (e : exn) :
  mapM f l = Raise e -> exists a, In a l /\ f a = Raise e.
Proof.
  induction l as [|a l IH]; simpl; [discriminate|].
  destruct (f a) as [b|e'] eqn:E; simpl.
  - destruct (mapM f l) as [bs|e''] eqn:E'; simpl; [discriminate|].
    intros H; inversion H; subst. destruct (IH eq_refl) as (a' & Hin & Ha').
    exists a'; auto.
  - intros H; inversion H; subst. exists a; auto.
Qed.

(** X12. The only exception the GPay extractor raises is [IndexError],
    and a line raises it exactly when a date is at hand (on the line or
    carried from an earlier one), the line holds the currency sign, and
    nothing but white space stands between the first sign and the next
    sign or the end of the line. *)
Theorem gpay_raises_only_on_bare_currency_sign :
  (forall doc e, extract_gpay_statement doc = Raise e -> e = IndexError)
  /\ (forall current_date line,
        (exists e, gpay_line current_date line = Raise e) <->
        (exists d, gpay_current_date current_date line = Some d /\ d <> [])
        /\ contains [rupee] line = true
        /\ exists p0 p1 rest,
             split_char rupee line = p0 :: p1 :: rest /\ split_ws p1 = []).
Proof.
  split.
  - intros doc e H. unfold extract_gpay_statement in H.
    destruct (mapM gpay_page doc) as [ts|e'] eqn:E; [discriminate|].
    simpl in H. inversion H; subst.
    apply mapM_raises in E as (p & _ & Hp).
    unfold gpay_page in Hp. destruct (page_text p); [discriminate|].
    eapply gpay_lines_raises; eassumption.
  - intros cur line. split.
    + intros [e H]. apply gpay_line_raises in H. tauto.
    + intros ((d & Hd & Hne) & Hr & p0 & p1 & rest & Hs & Hw).
      exists IndexError. unfold gpay_line.
      fold (gpay_current_date cur line). rewrite Hd.
      destruct d as [|c d]; [contradiction|]. rewrite Hr, Hs, Hw. reflexivity.
Qed.

Lemma gpay_raises_only_on_bare_currency_sign_witness :
  extract_gpay_statement
    [ {| page_text := lit "01Nov,2025 Total " ++ [rupee]; page_tables := [] |} ]
  = Raise IndexError.
Proof.
  destruct (extract_gpay_statement
    [ {| page_text := lit "01Nov,2025 Total " ++ [rupee]; page_tables := [] |} ])
    as [ts|e] eqn:E; [vm_compute in E; discriminate|].
  f_equal. apply (proj1 gpay_raises_only_on_bare_currency_sign _ _ E).
Defined.

Lemma gpay_lines_no_date (lines : list str) :
  Forall (fun line => search gpay_date_pattern line = None) lines ->
  gpay_lines None lines = Ok [].
Proof.
  induction 1 as [|line rest Hl _ IH]; [reflexivity|].
  simpl. unfold gpay_line. rewrite Hl. simpl. rewrite IH. reflexivity.
Qed.

(** X13. A document none of whose lines holds a GPay date gives no tuple
    and no error, whatever currency signs it holds: a line is read as a
    transaction only once a date has been seen on its page. *)
Theorem gpay_needs_a_date :
  forall doc : pdf,
    (forall p line,
        In p doc -> In line (split_char newline (page_text p)) ->
        search gpay_date_pattern line = None) ->
    extract_gpay_statement doc = Ok [].
Proof.
  intros doc H. unfold extract_gpay_statement.
  assert (Hm : mapM gpay_page doc = Ok (map (fun _ => []) doc)).
  { apply mapM_all_ok. apply Forall_forall. intros p Hp.
    unfold gpay_page. destruct (page_text p) eqn:E; [reflexivity|].
    rewrite <- E. apply gpay_lines_no_date. apply Forall_forall.
    intros line Hl. eapply H; eassumption. }
  rewrite Hm. simpl. f_equal. clear.
  induction doc as [|p doc IH]; [reflexivity | simpl; assumption].
Qed.

Lemma gpay_needs_a_date_witness :
  extract_gpay_statement
    [ {| page_text := lit "Total sent " ++ [rupee] ++ lit "500";
         page_tables := [] |} ]
  = Ok [].
Proof.
  apply gpay_needs_a_date.
  intros p line [<-|[]] Hl. vm_compute in Hl.
  destruct Hl as [<-|[]]. vm_compute. reflexivity.
Defined.


(** ** [parse_amount] *)

Lemma sub_class_is_filter (p : char -> bool) (s : str) :
  sub (Cls p) [] s = filter (fun c => negb (p c)) s.
Proof.
  unfold sub. induction s as [|c s IH]; [reflexivity|].
  simpl sub_from. simpl filter. unfold match_at. simpl rmatch.
  destruct (p c); simpl negb; cbv iota.
  - change (length (c :: s)) with (S (length s)).
    rewrite Nat.sub_succ_l by lia. rewrite Nat.sub_diag.
    simpl. exact IH.
  - simpl. rewrite IH. reflexivity.
Qed.

Lemma filter_idempotent (A : Type) (f : A -> bool) (l : list A) :
  filter f (filter f l) = filter f l.
Proof.
  induction l as [|a l IH]; [reflexivity|].
  simpl. destruct (f a) eqn:E; simpl; [rewrite E, IH; reflexivity | exact IH].
Qed.

(** X17. [parse_amount] reads nothing but the decimal digits, the dots
    and the minus signs of its argument: commas, currency signs, letters
    and white space are dropped before the text is converted, so the
    text and its cleaned form parse to the same amount. *)
Theorem parse_amount_reads_amount_chars_only :
  forall s : str, parse_amount s = parse_amount (filter amount_char s).
Proof.
  intros s. unfold parse_amount.
  assert (Hsub : forall x, sub (Cls not_amount_char) [] x = filter amount_char x).
  { intros x. rewrite sub_class_is_filter. apply filter_ext. intros c.
    unfold not_amount_char, amount_char. rewrite negb_involutive. reflexivity. }
  rewrite !Hsub. rewrite filter_idempotent.
  destruct s as [|c s]; [reflexivity|].
  destruct (filter amount_char (c :: s)) eqn:E; reflexivity.
Qed.

(** ** [normalize_type] *)

(** X15. [normalize_type] always gives [Debit] or [Credit]: a type that
    already is one of the two is kept; any other type, or none, becomes
    [Credit] exactly when the lower-cased details hold [received], and
    [Debit] otherwise, whatever other keywords they hold. *)
Theorem normalize_type_is_debit_or_credit :
  forall (t details : option str),
    (normalize_type t details = lit "Debit"
     \/ normalize_type t details = lit "Credit")
    /\ (t = Some (lit "Debit") \/ t = Some (lit "Credit") ->
        Some (normalize_type t details) = t)
    /\ (t <> Some (lit "Debit") -> t <> Some (lit "Credit") ->
        normalize_type t details
        = if contains (lit "received")
                      (lower (match details with Some s => s | None => [] end))
          then lit "Credit" else lit "Debit").
Proof.
  intros t details. unfold normalize_type.
  destruct t as [x|].
  - destruct (str_eqb x (lit "Debit")) eqn:Ed.
    + apply str_eqb_eq in Ed. subst x. simpl. repeat split; auto.
      intros H; contradiction.
    + destruct (str_eqb x (lit "Credit")) eqn:Ec.
      * apply str_eqb_eq in Ec. subst x. simpl. repeat split; auto.
        intros _ H; contradiction.
      * simpl. repeat split.
        -- destruct (contains (lit "received") _); auto.
           destruct (_ || _); [auto|]. destruct (_ || _); auto.
        -- intros [H|H]; inversion H; subst;
             [rewrite str_eqb_refl in Ed | rewrite str_eqb_refl in Ec];
             discriminate.
        -- intros _ _. destruct (contains (lit "received") _); [reflexivity|].
           destruct (_ || _); [reflexivity|]. destruct (_ || _); reflexivity.
  - simpl. repeat split.
    + destruct (contains (lit "received") _); auto.
      destruct (_ || _); [auto|]. destruct (_ || _); auto.
    + intros [H|H]; discriminate.
    + intros _ _. destruct (contains (lit "received") _); [reflexivity|].
      destruct (_ || _); [reflexivity|]. destruct (_ || _); reflexivity.
Qed.

Lemma normalize_type_is_debit_or_credit_witness :
  normalize_type None (Some (lit "RECEIVED FROM BOB")) = lit "Credit"
  /\ Some (normalize_type (Some (lit "Debit")) (Some (lit "received")))
     = Some (lit "Debit").
Proof.
  split.
  - rewrite (proj2 (proj2 (normalize_type_is_debit_or_credit None
                             (Some (lit "RECEIVED FROM BOB")))));
      [vm_compute; reflexivity | discriminate | discriminate].
  - apply (proj1 (proj2 (normalize_type_is_debit_or_credit
                           (Some (lit "Debit")) (Some (lit "received"))))).
    left; reflexivity.
Defined.

(** * The statement type and the upload *)

(** X18. [normalize_statement_type] gives nothing or one of the three
    names [Credit Card], [Bank] and [UPI], and it keeps each of its own
    results: normalising twice is normalising once. *)
Theorem normalize_statement_type_canonical :
  forall s : option str,
    (normalize_statement_type s = None
     \/ normalize_statement_type s = Some (lit "Credit Card")
     \/ normalize_statement_type s = Some (lit "Bank")
     \/ normalize_statement_type s = Some (lit "UPI"))
    /\ normalize_statement_type (normalize_statement_type s)
       = normalize_statement_type s.
Proof.
  intros s.
  assert (H : normalize_statement_type s = None
              \/ normalize_statement_type s = Some (lit "Credit Card")
              \/ normalize_statement_type s = Some (lit "Bank")
              \/ normalize_statement_type s = Some (lit "UPI")).
  { unfold normalize_statement_type. destruct s as [[|c s]|]; auto.
    destruct (_ || _); [auto|]. destruct (_ || _); [auto|].
    destruct (_ || _); auto. }
  split; [exact H|].
  destruct H as [H|[H|[H|H]]]; rewrite H; vm_compute; reflexivity.
Qed.

Lemma normalize_statement_type_names (s : option str) (x : str) :
  normalize_statement_type s = Some x ->
  x = lit "Credit Card" \/ x = lit "Bank" \/ x = lit "UPI".
Proof.
  unfold normalize_statement_type. destruct s as [[|c s]|]; try discriminate.
  destruct (_ || _); [intros H; inversion H; auto|].
  destruct (_ || _); [intros H; inversion H; auto|].
  destruct (_ || _); [intros H; inversion H; auto | discriminate].
Qed.

(** X19. The answer of [upload_statement], case by case: another
    content type than [application/pdf] is refused with the status 400
    before anything else; a PDF that cannot be saved is refused with
    500; a saved PDF without a statement type, or with an empty one, is
    handed to the background task with no statement type; a saved PDF
    with a statement type is handed over with the normalised type, one
    of [Credit Card], [Bank] and [UPI], and refused with 400 when the
    type is not known. *)
Theorem upload_passes_known_types_only :
  forall (content_type : str) (saved : bool) (statement_type : option str),
    let answer := upload_statement content_type saved statement_type in
    (content_type <> lit "application/pdf" -> answer = Rejected 400)
    /\ (content_type = lit "application/pdf" ->
        (saved = false -> answer = Rejected 500)
        /\ (saved = true ->
            (statement_type = None \/ statement_type = Some [] ->
             answer = Accepted None)
            /\ (forall s, statement_type = Some s -> s <> [] ->
                (normalize_statement_type statement_type = None ->
                 answer = Rejected 400)
                /\ (forall x,
                      normalize_statement_type statement_type = Some x ->
                      answer = Accepted (Some x)
                      /\ (x = lit "Credit Card" \/ x = lit "Bank"
                          \/ x = lit "UPI"))))).
Proof.
  intros ct saved st answer. subst answer. unfold upload_statement. split.
  - intros Hct. destruct (str_eqb ct (lit "application/pdf")) eqn:E.
    + apply str_eqb_eq in E. contradiction.
    + reflexivity.
  - intros ->. rewrite str_eqb_refl. cbn [negb]. split.
    + intros ->. reflexivity.
    + intros ->. cbn [negb]. split.
      * intros [-> | ->]; reflexivity.
      * intros s -> Hs. destruct s as [|c s]; [contradiction|]. split.
        -- intros Hn. cbv zeta. rewrite Hn. reflexivity.
        -- intros x Hx. split.
           ++ cbv zeta. rewrite Hx. reflexivity.
           ++ eapply normalize_statement_type_names. exact Hx.
Qed.

Lemma upload_passes_known_types_only_witness :
  upload_statement (lit "application/pdf") true (Some (lit " GPay "))
  = Accepted (Some (lit "UPI"))
  /\ upload_statement (lit "application/pdf") true (Some (lit "Savings"))
     = Rejected 400
  /\ upload_statement (lit "text/plain") false None = Rejected 400.
Proof.
  split; [|split].
  - apply (proj2 (proj2 (proj2 (upload_passes_known_types_only
             (lit "application/pdf") true (Some (lit " GPay "))) eq_refl)
             eq_refl) (lit " GPay ") eq_refl ltac:(discriminate)).
    vm_compute. reflexivity.
  - apply (proj2 (proj2 (proj2 (upload_passes_known_types_only
             (lit "application/pdf") true (Some (lit "Savings"))) eq_refl)
             eq_refl) (lit "Savings") eq_refl ltac:(discriminate)).
    vm_compute. reflexivity.
  - apply (proj1 (upload_passes_known_types_only
             (lit "text/plain") false None)).
    discriminate.
Defined.

(** * The choice of the extractor *)











(** * From the document to the records *)

Lemma normalize_type_keeps (x : str) (details : option str) :
  x = lit "Debit" \/ x = lit "Credit" ->
  normalize_type (Some x) details = x.
Proof. intros [->| ->]; reflexivity. Qed.

Lemma Forall2_map_right (A B : Type) (P : A -> B -> Prop) (f : A -> B)
      (l : list A) :
  (forall a, In a l -> P a (f a)) -> Forall2 P l (map f l).
Proof.
  induction l as [|a l IH]; intros H; simpl; constructor.
  - apply H. left; reflexivity.
  - apply IH. intros b Hb. apply H. right; exact Hb.
Qed.

Lemma phonepe_block_known (date_str line : str) (following : list str)
      (t : txn) :
  In t (phonepe_block date_str line following) -> known_type t.
Proof.
  unfold phonepe_block, known_type. destruct (fgt _ _); [|intros []].
  intros [<-|[]]. simpl.
  destruct (contains (lit "Credit") line || contains (lit "Received") line).
  - simpl. auto.
  - destruct (_ && _); auto.
Qed.

Lemma phonepe_line_known (line : str) (following : list str) (t : txn) :
  In t (phonepe_line line following) -> known_type t.
Proof.
  unfold phonepe_line. destruct (search _ _) as [d|]; [|intros []].
  destruct (_ || _); [|apply phonepe_block_known].
  destruct (rev (split_ws line)); [apply phonepe_block_known|].
  intros [<-|[]]. unfold known_type. simpl.
  destruct (contains (lit "Credit") line); auto.
Qed.

Lemma phonepe_lines_known (lines : list str) (t : txn) :
  In t (phonepe_lines lines) -> known_type t.
Proof.
  induction lines as [|l lines IH]; simpl; [intros []|].
  intros H. apply in_app_or in H as [H|H];
    [eapply phonepe_line_known; eassumption | auto].
Qed.

Lemma gpay_line_known (cur cur' : option str) (line : str) (ts : list txn)
      (t : txn) :
  gpay_line cur line = Ok (cur', ts) -> In t ts -> known_type t.
Proof.
  unfold gpay_line.
  destruct (match search gpay_date_pattern line with
            | Some d => Some d
            | None => cur
            end) as [[|c d]|];
    try (intros H; inversion H; subst; intros []).
  destruct (contains [rupee] line);
    [|intros H; inversion H; subst; intros []].
  destruct (split_char rupee line) as [|p0 [|p1 rest]];
    try (intros H; inversion H; subst; intros []).
  destruct (split_ws p1) as [|a l]; [discriminate|].
  intros H; inversion H; subst. intros [<-|[]].
  unfold known_type. simpl. destruct (contains (lit "Received") _); auto.
Qed.

Lemma gpay_lines_known (lines : list str) :
  forall (cur : option str) (ts : list txn) (t : txn),
    gpay_lines cur lines = Ok ts -> In t ts -> known_type t.
Proof.
  induction lines as [|l lines IH]; intros cur ts t; simpl.
  - intros H; inversion H; subst. intros [].
  - destruct (gpay_line cur l) as [[cur' here]|e] eqn:E; simpl; [|discriminate].
    destruct (gpay_lines cur' lines) as [more|e] eqn:E'; simpl; [|discriminate].
    intros H; inversion H; subst. intros Hin.
    apply in_app_or in Hin as [Hin|Hin].
    + eapply gpay_line_known; eassumption.
    + eapply IH; eassumption.
Qed.

Lemma gpay_pages_known (doc : pdf) :
  forall (tss : list (list txn)) (t : txn),
    mapM gpay_page doc = Ok tss -> In t (concat tss) -> known_type t.
Proof.
  induction doc as [|p doc IH]; intros tss t; simpl.
  - intros H; inversion H; subst. intros [].
  - destruct (gpay_page p) as [here|e] eqn:E; simpl; [|discriminate].
    destruct (mapM gpay_page doc) as [more|e] eqn:E'; simpl; [|discriminate].
    intros H; inversion H; subst. simpl. intros Hin.
    apply in_app_or in Hin as [Hin|Hin].
    + unfold gpay_page in E. destruct (page_text p).
      * inversion E; subst. destruct Hin.
      * eapply gpay_lines_known; eassumption.
    + eapply IH; [reflexivity | exact Hin].
Qed.

(** What the generic extractor emits from one line. *)
Lemma generic_amount_from_token (parts : list str) :
  fgt (generic_amount parts) fzero = true ->
  exists part,
    In part parts
    /\ of_str (sub (Cls not_digit_or_dot) [] part)
       = Some (generic_amount parts)
    /\ (looks_like_year (generic_amount parts) = true ->
        contains (lit ".") part = true).
Proof.
  induction parts as [|part parts IH]; simpl.
  - intros H. vm_compute in H. discriminate.
  - intros H.
    assert (Hskip : fgt (generic_amount parts) fzero = true ->
                    exists p, (part = p \/ In p parts)
                      /\ of_str (sub (Cls not_digit_or_dot) [] p)
                         = Some (generic_amount parts)
                      /\ (looks_like_year (generic_amount parts) = true ->
                          contains (lit ".") p = true)).
    { intros H'. destruct (IH H') as (p & Hp & Ho & Hy). exists p. auto. }
    destruct (sub (Cls not_digit_or_dot) [] part) as [|c cl] eqn:Ec; [auto|].
    destruct (matches_to_end money_pattern (c :: cl)); [|auto].
    destruct (of_str (c :: cl)) as [val|] eqn:Ev; [|auto].
    fold (looks_like_year val) in *.
    destruct (looks_like_year val) eqn:Ey.
    + destruct (contains (lit ".") part) eqn:Ed; [|auto].
      exists part. rewrite Ec, Ev, Ey. auto.
    + exists part. rewrite Ec, Ev, Ey.
      split; [auto | split; [reflexivity | discriminate]].
Qed.

Lemma generic_line_emits (isalnum : char -> bool) (line : str) (t : txn) :
  In t (generic_line isalnum line) ->
  fgt (txn_amount t) fzero = true
  /\ generic_date_search isalnum None line = Some (txn_date t)
  /\ known_type t
  /\ exists part,
       In part (split_ws line)
       /\ of_str (sub (Cls not_digit_or_dot) [] part) = Some (txn_amount t)
       /\ (looks_like_year (txn_amount t) = true ->
           contains (lit ".") part = true).
Proof.
  unfold generic_line.
  destruct (generic_date_search isalnum None line) as [d|]; [|intros []].
  destruct (fgt (generic_amount (rev (split_ws line))) fzero) eqn:E;
    [|intros []].
  intros [<-|[]]. simpl. split; [exact E|]. split; [reflexivity|]. split.
  - unfold known_type. simpl. destruct (_ || _); auto.
  - destruct (generic_amount_from_token _ E) as (part & Hin & Ho & Hy).
    exists part. split; [apply in_rev; exact Hin | auto].
Qed.

Lemma generic_doc_emits (isalnum : char -> bool) (doc : pdf) (t : txn) :
  In t (extract_generic_statement isalnum doc) ->
  exists p line,
    In p doc /\ In line (split_char newline (page_text p))
    /\ In t (generic_line isalnum line).
Proof.
  unfold extract_generic_statement. intros H.
  apply in_flat_map_elim in H as (p & Hp & H).
  destruct (page_text p) as [|c s] eqn:E; [destruct H|].
  apply in_flat_map_elim in H as (line & Hl & H).
  exists p, line. rewrite E. auto.
Qed.

(** Every extractor names the direction [Debit] or [Credit]. *)
Lemma extracted_type_known (isalnum : char -> bool) (opened : res pdf)
      (path : str) (name : option str) (t : txn) :
  In t (extract_statement_data isalnum opened path name) -> known_type t.
Proof.
  unfold extract_statement_data. destruct opened as [doc|e]; [|intros []].
  cbv zeta. destruct (detect_format _ _).
  - unfold extract_phonepe_statement. intros H.
    apply in_flat_map_elim in H as (p & _ & H).
    destruct (page_text p); [destruct H|].
    eapply phonepe_lines_known; eassumption.
  - intros H. apply sbi_doc_emits in H as (_ & amt & _ & Ht).
    unfold known_type. rewrite Ht. destruct (contains _ _); auto.
  - intros H. apply axis_doc_emits in H as (row & H).
    apply axis_row_emits in H as (_ & _ & _ & [[Ht _]|[Ht _]]);
      unfold known_type; auto.
  - unfold extract_gpay_statement.
    destruct (mapM gpay_page doc) as [tss|e] eqn:E; simpl; [|intros []].
    eapply gpay_pages_known; eassumption.
  - intros H. apply generic_doc_emits in H as (p & line & _ & _ & H).
    apply generic_line_emits in H. tauto.
Qed.

(** X16. The records [process_statement_task] stores for a document,
    whichever extractor reads it: one record per tuple, in order; the
    direction of every tuple is [Debit] or [Credit] and the record keeps
    it, so the keywords of the details never change what an extractor
    decided; the amount is the amount of the tuple rounded to two
    decimals, and the record is marked [unverified] with the statement
    type of the upload. *)
Theorem records_keep_extracted_direction :
  forall (isalnum : char -> bool)
         (normalize_date : option str -> option str) (opened : res pdf)
         (path : str) (original_filename stype uid : option str),
    Forall2 (fun (t : txn) (r : record) =>
               known_type t
               /\ transaction_type r = txn_type t
               /\ helper.amount r = round2 (txn_amount t)
               /\ date r = normalize_date (Some (txn_date t))
               /\ helper.verification_status r = lit "unverified"
               /\ helper.statement_type r = stype)
            (extract_statement_data isalnum opened path original_filename)
            (process_statement_task isalnum normalize_date opened path
                                    original_filename stype uid).
Proof.
  intros isalnum nd opened path name stype uid.
  unfold process_statement_task, to_records. rewrite map_map.
  apply Forall2_map_right. intros t Ht.
  apply extracted_type_known in Ht.
  split; [exact Ht|]. split; [|repeat split].
  change (normalize_type (Some (txn_type t)) (Some (txn_details t))
          = txn_type t).
  apply normalize_type_keeps. exact Ht.
Qed.

(** X21. Every tuple of the generic extractor comes from a line in which
    the date pattern is found, and carries the first date found there;
    its amount is above zero and is the number read from the digits and
    dots of one token of that line, a whole number between 1900 and
    2100 only if the token itself holds a dot; its direction is
    [Credit] when the line holds [Cr], [Credit] or [Received], and
    [Debit] otherwise. *)
Theorem generic_tuples_come_from_a_dated_line :
  forall (isalnum : char -> bool) (doc : pdf) (t : txn),
    In t (extract_generic_statement isalnum doc) ->
    exists p line part,
      In p doc /\ In line (split_char newline (page_text p))
      /\ generic_date_search isalnum None line = Some (txn_date t)
      /\ In part (split_ws line)
      /\ of_str (sub (Cls not_digit_or_dot) [] part) = Some (txn_amount t)
      /\ fgt (txn_amount t) fzero = true
      /\ (looks_like_year (txn_amount t) = true ->
          contains (lit ".") part = true)
      /\ txn_type t
         = (if contains (lit "Cr") line || contains (lit "Credit") line
               || contains (lit "Received") line
            then lit "Credit" else lit "Debit").
Proof.
  intros isalnum doc t H.
  apply generic_doc_emits in H as (p & line & Hp & Hl & H).
  pose proof (generic_line_emits _ _ _ H) as (Hpos & Hd & _ & part & Hin & Ho & Hy).
  exists p, line, part. repeat (split; [assumption|]).
  unfold generic_line in H. rewrite Hd in H.
  destruct (fgt _ _) in H; [|destruct H].
  destruct H as [<-|[]]. reflexivity.
Qed.

(** * The insights *)

Lemma str_eqb_sym (a b : str) : str_eqb a b = str_eqb b a.
Proof.
  destruct (str_eqb a b) eqn:E.
  - apply str_eqb_eq in E. subst. symmetry. apply str_eqb_refl.
  - destruct (str_eqb b a) eqn:E'; [|reflexivity].
    apply str_eqb_eq in E'. subst. rewrite str_eqb_refl in E. discriminate.
Qed.

Lemma update_agg_done (agg agg' : kdict totals) (key amount type_ : value) :
  update_agg agg key amount type_ = Done agg' ->
  hashable key = true
  /\ (eq_str type_ (lit "Credit") || eq_str type_ (lit "Debit")) = true
  /\ match amount with
     | VFloat _ | VInt _ | VBool _ => true
     | _ => false
     end = true.
Proof.
  unfold update_agg.
  destruct (hashable key); cbn [negb]; [|discriminate].
  destruct (hashable type_); cbn [negb]; [|discriminate].
  destruct type_ as [| | | |ty| |]; cbn [key_eq eq_str]; try discriminate.
  rewrite (str_eqb_sym ty (lit "Credit")), (str_eqb_sym ty (lit "Debit")).
  destruct (str_eqb (lit "Credit") ty) eqn:Ec.
  - destruct amount; cbn [float_plus lift and_then]; try discriminate; auto.
  - destruct (str_eqb (lit "Debit") ty) eqn:Ed; [|discriminate].
    destruct amount; cbn [float_plus lift and_then]; try discriminate; auto.
Qed.

Lemma aggregate_rows_done (rows : list dict) :
  forall st st', aggregate_rows st rows = Done st' ->
                 Forall (fun t => summable t = true) rows.
Proof.
  induction rows as [|t rows IH]; intros st st'; simpl; [constructor|].
  unfold aggregate_one.
  destruct (update_agg _ _ _ _) as [cs|f] eqn:E; simpl; [|discriminate].
  apply update_agg_done in E as (Hk & Ht & Ha).
  match goal with
  | |- and_then ?m _ = _ -> _ => destruct m as [ts|f]
  end; simpl; [|discriminate].
  intros H. constructor; [|eapply IH; exact H].
  unfold summable. rewrite Ht, Hk, Ha. reflexivity.
Qed.

(** X22. Insights come only from well-formed rows: when a run for a
    named user ends with a text while the store holds verified rows,
    every one of these rows has the direction [Credit] or [Debit], a
    numeric amount and a category that can be a dictionary key. One row
    that has not makes the whole run raise, and nothing is stored. *)
Theorem insights_need_summable_rows :
  forall (env : insights_env) (insert_ok : bool) (u : str)
         (rows : list dict) (text : str) (stored : option insights_written),
    u <> [] ->
    verified_rows env = Ok rows ->
    run_insights_agent env insert_ok (Some u) = Done (text, stored) ->
    Forall (fun t => summable t = true) rows.
Proof.
  intros env ok u rows text stored Hu Hrows.
  unfold run_insights_agent, generate_insights.
  destruct u as [|c u]; [contradiction|]. simpl truthy. cbv iota.
  rewrite Hrows. destruct rows as [|t rows]; [constructor|].
  destruct (aggregate_rows _ (t :: rows)) as [st|f] eqn:E; [|discriminate].
  intros _. eapply aggregate_rows_done; exact E.
Qed.

(** X23. The texts that stand for a failure are stored like insights.
    For a named user and a store that takes the row, every text a run
    returns is not empty and is inserted as the insight of the user;
    when the store holds no verified row, or the query for them fails,
    that text is [No verified financial data found...]; and when the
    oracle gives nothing it is that one or [Failed to generate
    insights...]. *)
Theorem placeholder_texts_are_stored :
  forall (env : insights_env) (u : str),
    u <> [] ->
    (forall text stored,
        run_insights_agent env true (Some u) = Done (text, stored) ->
        text <> []
        /\ stored = Some {| insight_user := u; insight_content := text |})
    /\ (verified_rows env = Ok [] \/ (exists e, verified_rows env = Raise e) ->
        run_insights_agent env true (Some u)
        = Done (no_data_message,
                Some {| insight_user := u;
                        insight_content := no_data_message |}))
    /\ ((forall p, oracle_text env p = []) ->
        forall text stored,
          run_insights_agent env true (Some u) = Done (text, stored) ->
          text = no_data_message \/ text = failed_message).
Proof.
  intros env u Hu. destruct u as [|c u]; [contradiction|].
  assert (Hgen : forall text,
             generate_insights env (Some (c :: u)) [] [] = Done text ->
             text <> []).
  { unfold generate_insights. simpl truthy. cbv iota.
    destruct (match verified_rows env with Ok rows => rows | Raise _ => [] end).
    - intros text H; inversion H; subst. discriminate.
    - destruct (aggregate_rows _ _) as [st|f]; simpl; [|discriminate].
      intros text.
      destruct (oracle_text env _) eqn:E; intros H; inversion H; subst;
        discriminate. }
  split; [|split].
  - intros text stored. unfold run_insights_agent.
    destruct (generate_insights _ _ _ _) as [t|f] eqn:E;
      simpl; [|discriminate].
    intros H; inversion H; subst. pose proof (Hgen text eq_refl) as Hne.
    split; [exact Hne|]. destruct text; [contradiction | reflexivity].
  - intros Hv. unfold run_insights_agent, generate_insights.
    simpl truthy. cbv iota.
    replace (match verified_rows env with Ok rows => rows | Raise _ => [] end)
      with (@nil dict)
      by (destruct Hv as [-> | [e ->]]; reflexivity).
    reflexivity.
  - intros Ho text stored. unfold run_insights_agent, generate_insights.
    simpl truthy. cbv iota.
    destruct (match verified_rows env with Ok rows => rows | Raise _ => [] end).
    + simpl. intros H; inversion H; subst. left; reflexivity.
    + destruct (aggregate_rows _ _) as [st|f]; simpl; [|discriminate].
      rewrite Ho. simpl. intros H; inversion H; subst. right; reflexivity.
Qed.

(** * The rate limiter *)

(** X24. The rate limiter refuses nobody. When the counter of a caller
    has reached the limit, the body of the [try] raises the
    [HTTPException] with the status 429, or the error of Redis when the
    time to live cannot be read; the handler of the same [try] catches
    either, so the call returns without an exception and leaves the
    counter as it was. *)
Theorem rate_limit_is_never_enforced :
  forall (R : Type) (redis_get : R -> str -> res (option str))
         (redis_ttl : R -> str -> res Z)
         (redis_pipeline : R -> str -> option Z -> res R)
         (times seconds : Z) (r : R) (key c : str) (n : Z),
    redis_get r key = Ok (Some c) ->
    int_of_str c = Some n ->
    (times <= n)%Z ->
    (forall ttl, redis_ttl r key = Ok ttl ->
                 rate_limiter_try redis_get redis_ttl redis_pipeline
                                  times seconds r key
                 = Failed (HTTPException 429))
    /\ rate_limiter_call redis_get redis_ttl redis_pipeline
                         times seconds (Some r) key
       = Done (Some r).
Proof.
  intros R rg rt rp times seconds r key c n Hg Hi Hle.
  assert (Hc : c <> []) by (intros ->; vm_compute in Hi; discriminate).
  assert (Ht : rate_limiter_try rg rt rp times seconds r key
               = and_then (lift (rt r key))
                          (fun _ => Failed (HTTPException 429))).
  { unfold rate_limiter_try. rewrite Hg. cbn [lift and_then].
    destruct c as [|c0 c']; [contradiction|].
    rewrite Hi. cbn [and_then].
    apply Z.leb_le in Hle. rewrite Hle. reflexivity. }
  split.
  - intros ttl Httl. rewrite Ht, Httl. reflexivity.
  - unfold rate_limiter_call. rewrite Ht.
    destruct (rt r key); reflexivity.
Qed.

Lemma rate_limit_is_never_enforced_witness :
  rate_limiter_call counter_get counter_ttl counter_pipeline
                    5 60 (Some 0%Z) (lit "rate_limit:/ai/run-agent:u1")
  = Done (Some 0%Z).
Proof.
  apply (proj2 (@rate_limit_is_never_enforced
                  Z counter_get counter_ttl counter_pipeline 5 60 0%Z
                  (lit "rate_limit:/ai/run-agent:u1") (lit "7") 7%Z
                  eq_refl eq_refl ltac:(lia))).
Defined.

(** * The statistics *)

Lemma add_to_keys (d d' : kdict float) (key : value) (amount : float) :
  add_to false d key amount = Ok d' -> map fst d' = map fst d.
Proof.
  unfold add_to, kdict_get. destruct (hashable key); [|discriminate].
  simpl. destruct (kfind d key) as [x|] eqn:E.
  - intros H; inversion H; subst; clear H.
    induction d as [|[k v] d IH]; [discriminate|].
    simpl in *. destruct (key_eq k key); [reflexivity|].
    simpl. f_equal. apply IH. exact E.
  - intros H; inversion H; subst. reflexivity.
Qed.

Lemma add_tags_keys (tags : list value) (amount : float) :
  forall d d', add_tags d tags amount = Ok d' -> map fst d' = map fst d.
Proof.
  induction tags as [|tag tags IH]; intros d d'; simpl.
  - intros H; inversion H; subst. reflexivity.
  - destruct (add_to false d tag amount) as [d1|e] eqn:E; simpl; [|discriminate].
    intros H. apply IH in H. apply add_to_keys in E. congruence.
Qed.

Lemma tx_stats_step_invariant (st st' : tx_stats) (tx : dict) :
  tx_stats_step st tx = Ok st' ->
  total_transactions st' = total_transactions st
  /\ (unverified st' + flagged st' <= Datatypes.S (unverified st + flagged st))%nat
  /\ map fst (tag_spending st') = map fst (tag_spending st).
Proof.
  unfold tx_stats_step.
  destruct (py_float _) as [amount|e]; cbn [bind]; [|discriminate].
  match goal with
  | |- bind ?m _ = _ -> _ => destruct m as [[cd ts]|e] eqn:E
  end; cbn [bind]; [|discriminate].
  match goal with
  | |- bind ?m _ = _ -> _ => destruct m as [pd|e]
  end; cbn [bind]; [|discriminate].
  intros H; inversion H; subst; clear H.
  cbn [total_transactions unverified flagged tag_spending snd].
  split; [reflexivity|]. split.
  - destruct (eq_str _ (lit "unverified")); [lia|].
    destruct (eq_str _ (lit "required_human_verification")); lia.
  - destruct (eq_str _ (lit "Debit")); [|inversion E; subst; reflexivity].
    match type of E with
    | bind ?m _ = _ => destruct m as [cd'|e]
    end; cbn [bind] in E; [|discriminate].
    destruct (get_or tx (lit "tags") (VList [])) as [| | | | |[|tg l]|];
      cbn [bind] in E; try (inversion E; subst; reflexivity).
    destruct (add_tags _ _ _) as [ts'|e] eqn:Et; cbn [bind] in E;
      [|discriminate].
    inversion E; subst. eapply add_tags_keys. exact Et.
Qed.

Lemma tx_stats_loop_invariant (txs : list dict) :
  forall st st',
    tx_stats_loop st txs = Ok st' ->
    total_transactions st' = total_transactions st
    /\ (unverified st' + flagged st'
        <= unverified st + flagged st + length txs)%nat
    /\ map fst (tag_spending st') = map fst (tag_spending st).
Proof.
  induction txs as [|tx txs IH]; intros st st'; simpl.
  - intros H; inversion H; subst. repeat split; lia.
  - destruct (tx_stats_step st tx) as [st1|e] eqn:E; simpl; [|discriminate].
    intros H. apply IH in H as (H1 & H2 & H3).
    apply tx_stats_step_invariant in E as (E1 & E2 & E3).
    split; [congruence|]. split; [lia | congruence].
Qed.

(** X25. The statistics of a user, when they are returned, come from
    one answer of the store: the total is the number of its rows, the
    rows counted as unverified and as flagged are together at most that
    many, and the chart of the tags has the twelve target tags, each
    once and in their order, whatever tags the rows carry. *)
Theorem stats_counts_and_tags :
  forall (month_range : str -> option (str * str))
         (fetch : option (str * str) -> res (list dict))
         (month : option str) (st : tx_stats),
    get_transaction_stats month_range fetch month = Done st ->
    exists range txs,
      fetch range = Ok txs
      /\ total_transactions st = length txs
      /\ (unverified st + flagged st <= length txs)%nat
      /\ map fst (tag_spending st) = map VStr target_tags.
Proof.
  intros mr fetch month st. unfold get_transaction_stats.
  match goal with
  | |- match and_then ?m _ with _ => _ end = _ -> _ =>
      destruct m as [range|f]
  end; cbn [and_then]; [|destruct f; discriminate].
  destruct (fetch range) as [txs|e] eqn:Ef; cbn [lift and_then];
    [|discriminate].
  destruct (tx_stats_loop _ txs) as [st'|e] eqn:El; cbn [lift];
    [|discriminate].
  intros H; inversion H; subst; clear H.
  apply tx_stats_loop_invariant in El as (H1 & H2 & H3).
  exists range, txs. split; [exact Ef|]. split; [exact H1|].
  split; [simpl in H2; lia|]. rewrite H3. reflexivity.
Qed.

(** X26. Whatever goes wrong in [get_transaction_stats] is answered
    with the status 500. In particular a month that is not of the form
    the route asks for is not answered with the status 400 the code
    raises for it: that exception is raised inside the [try] and caught
    by its handler. *)
Theorem stats_errors_all_become_500 :
  forall (month_range : str -> option (str * str))
         (fetch : option (str * str) -> res (list dict)),
    (forall month f,
        get_transaction_stats month_range fetch month = Failed f ->
        f = HTTPException 500)
    /\ (forall m,
          m <> [] -> month_range m = None ->
          get_transaction_stats month_range fetch (Some m)
          = Failed (HTTPException 500)).
Proof.
  intros mr fetch. split.
  - intros month f. unfold get_transaction_stats.
    match goal with
    | |- match ?b with _ => _ end = _ -> _ => destruct b as [st|[e| |n]]
    end; intros H; inversion H; reflexivity.
  - intros m Hm Hr. unfold get_transaction_stats.
    destruct m as [|c m]; [contradiction|]. rewrite Hr. reflexivity.
Qed.

(** * Further instances *)

Lemma generic_tuples_come_from_a_dated_line_witness :
  exists p line part,
    In p generic_sample_doc
    /\ In line (split_char newline (page_text p))
    /\ generic_date_search ascii_alnum None line = Some (lit "25 Nov 2025")
    /\ In part (split_ws line)
    /\ of_str (sub (Cls not_digit_or_dot) [] part) = Some (of_decimal false 25 0)
    /\ fgt (of_decimal false 25 0) fzero = true
    /\ (looks_like_year (of_decimal false 25 0) = true ->
        contains (lit ".") part = true)
    /\ lit "Debit"
       = (if contains (lit "Cr") line || contains (lit "Credit") line
             || contains (lit "Received") line
          then lit "Credit" else lit "Debit").
Proof.
  apply (@generic_tuples_come_from_a_dated_line ascii_alnum generic_sample_doc
           {| txn_date := lit "25 Nov 2025";
              txn_details := lit "Coffee shop 2025";
              txn_amount := of_decimal false 25 0;
              txn_type := lit "Debit" |}).
  vm_compute. left. reflexivity.
Defined.

Lemma insights_need_summable_rows_witness :
  Forall (fun t => summable t = true) [verified_row].
Proof.
  apply (@insights_need_summable_rows
           (insights_env_with [verified_row]) true (lit "u1") [verified_row]
           (lit "Spend less on food.")
           (Some {| insight_user := lit "u1";
                    insight_content := lit "Spend less on food." |})).
  - discriminate.
  - reflexivity.
  - vm_compute. reflexivity.
Defined.

Lemma placeholder_texts_are_stored_witness :
  run_insights_agent (insights_env_with []) true (Some (lit "u1"))
  = Done (no_data_message,
          Some {| insight_user := lit "u1";
                  insight_content := no_data_message |}).
Proof.
  apply (proj1 (proj2 (@placeholder_texts_are_stored
                         (insights_env_with []) (lit "u1")
                         ltac:(discriminate)))).
  left. reflexivity.
Defined.

Lemma stats_counts_and_tags_witness :
  exists range txs,
    (fun _ : option (str * str) => Ok [verified_row; sample_tx 2]) range
    = Ok txs
    /\ total_transactions sample_stats = length txs
    /\ (unverified sample_stats + flagged sample_stats <= length txs)%nat
    /\ map fst (tag_spending sample_stats) = map VStr target_tags.
Proof.
  apply (@stats_counts_and_tags (fun _ => None)
           (fun _ => Ok [verified_row; sample_tx 2]) None sample_stats).
  vm_compute. reflexivity.
Defined.

Lemma stats_errors_all_become_500_witness :
  get_transaction_stats (fun _ => None) (fun _ => Ok [verified_row])
                        (Some (lit "November"))
  = Failed (HTTPException 500).
Proof.
  apply (proj2 (stats_errors_all_become_500
                  (fun _ => None) (fun _ => Ok [verified_row]))).
  - discriminate.
  - reflexivity.
Defined.

Lemma merge_total_on_usable_witness :
  exists merged,
    tag_with_gemini f_0_50 sample_txs
                    (VList [sample_answer 1 (VFloat f_0_90) (VBool false);
                            VStr (lit "note")])
    = Ok merged
    /\ length merged = length sample_txs
    /\ Forall2 (fun t r =>
                  r_id r = get t (lit "id")
                  /\ defaulted
                       (VList [sample_answer 1 (VFloat f_0_90) (VBool false);
                               VStr (lit "note")]) t r)
               sample_txs merged.
Proof.
  apply merge_total_on_usable.
  - constructor; [|constructor; [exact I | constructor]].
    intros _. split; [reflexivity | exists f_0_90; reflexivity].
  - repeat constructor.
Defined.

Lemma clean_details_without_backslash_witness :
  clean_details (Some (lit "Paid to  Alice ")) = strip (lit "Paid to  Alice ").
Proof.
  apply clean_details_without_backslash.
  repeat (constructor; [intros H; discriminate H|]). constructor.
Defined.
